(** * MEC-Postgres: the CSV ingestion engine and the read-only query tool

    A shallow embedding of [src/postgres/dist/index_2.js].  That file holds two
    variants of the server: the first one (lines 1-550) with the tools
    [query], [describe_table], ..., the second one (lines 552-1003) with the
    tools [query] and [uploadCsv].  The definitions below follow the source
    text; the database client ([pg]) and the CSV parser ([csv-parse]) are
    external to the repository and are taken as parameters of a section. *)

From Stdlib Require Import Strings.String Strings.Ascii Lists.List Arith.PeanoNat.
From Stdlib Require Import Bool.Bool micromega.Lia Numbers.DecimalString.
Import ListNotations.
Local Open Scope list_scope.
Local Open Scope string_scope.

(** ** JavaScript strings and arrays

    A string is a sequence of code units.  JavaScript has 65536 of them;
    the model has the first 256, U+0000 to U+00FF, as the type [ascii].
    The operations below are those of JavaScript on such strings. *)

(** The double-quote character, as it stands inside the template literals
    of the source. *)
Definition dquote : string := String "034"%char EmptyString.

(** [`"${name}"`]: a name between double quotes. *)
Definition quoted (name : string) : string := dquote ++ name ++ dquote.

(** [Array.prototype.join]. *)
Fixpoint join (sep : string) (parts : list string) : string :=
  match parts with
  | [] => ""
  | [p] => p
  | p :: rest => p ++ sep ++ join sep rest
  end.

(** [Array.prototype.map] with the [(element, index)] callback. *)
Fixpoint mapi_from {A B : Type} (i : nat) (f : A -> nat -> B) (l : list A) : list B :=
  match l with
  | [] => []
  | x :: rest => f x i :: mapi_from (S i) f rest
  end.

Definition mapi {A B : Type} (f : A -> nat -> B) (l : list A) : list B :=
  mapi_from 0 f l.

(** [`${n}`] for a number [n]: its decimal digits. *)
Definition numberToString (n : nat) : string :=
  NilZero.string_of_uint (Nat.to_uint n).

(** [String.prototype.split('.')[0]]: the characters before the first dot
    (the whole string when it has none). *)
Fixpoint beforeFirstDot (s : string) : string :=
  match s with
  | EmptyString => EmptyString
  | String c rest =>
      if Ascii.eqb c "."%char then EmptyString else String c (beforeFirstDot rest)
  end.

Definition isUpper (c : ascii) : bool :=
  let n := nat_of_ascii c in ((65 <=? n) && (n <=? 90))%nat.
Definition isLower (c : ascii) : bool :=
  let n := nat_of_ascii c in ((97 <=? n) && (n <=? 122))%nat.
Definition isDigit (c : ascii) : bool :=
  let n := nat_of_ascii c in ((48 <=? n) && (n <=? 57))%nat.

(** The character class [a-zA-Z0-9] of the regular expression. *)
Definition isAlnum (c : ascii) : bool := isLower c || isUpper c || isDigit c.

(** [replace(/[^a-zA-Z0-9]/g, '_')]. *)
Fixpoint replaceNonAlnum (s : string) : string :=
  match s with
  | EmptyString => EmptyString
  | String c rest =>
      String (if isAlnum c then c else "_"%char) (replaceNonAlnum rest)
  end.

(** The code units below 256 that [toLowerCase] changes: the letters
    [A-Z] and the capital letters of Latin-1, U+00C0 to U+00DE without
    the multiplication sign U+00D7.  Each is moved up by 32. *)
Definition hasLowerCase (c : ascii) : bool :=
  let n := nat_of_ascii c in
  isUpper c || ((192 <=? n) && (n <=? 222) && negb (n =? 215))%nat.

Definition toLowerChar (c : ascii) : ascii :=
  if hasLowerCase c then ascii_of_nat (nat_of_ascii c + 32) else c.

(** [String.prototype.toLowerCase]. *)
Fixpoint toLowerCase (s : string) : string :=
  match s with
  | EmptyString => EmptyString
  | String c rest => String (toLowerChar c) (toLowerCase rest)
  end.

(** ** Table-name derivation (lines 820-825) *)

Definition getTableNameFromFileName (fileName : string) : string :=
  let baseName := beforeFirstDot fileName in
  toLowerCase (replaceNonAlnum baseName).

(** [tableName || getTableNameFromFileName(fileName)] (line 784): the
    caller's table name when it is given and not empty. *)
Definition derivedTableName (tableName : option string) (fileName : string) : string :=
  match tableName with
  | Some t => if String.eqb t "" then getTableNameFromFileName fileName else t
  | None => getTableNameFromFileName fileName
  end.

(** ** Records, statements and replies *)

(** A cell of a record: a string, or [null]. *)
Definition Value : Type := option string.

(** One parsed CSV row: column name and value, in the order of
    [Object.keys]. *)
Definition Record : Type := list (string * Value).

(** [Object.keys(row)] and [Object.values(row)]. *)
Definition keys (row : Record) : list string := map fst row.
Definition vals (row : Record) : list Value := map snd row.

(** [Object.prototype.hasOwnProperty] applied to a row: is [col] one of
    its columns? *)
Definition hasOwnProperty (row : Record) (col : string) : bool :=
  existsb (String.eqb col) (keys row).

(** The property [row.hasOwnProperty] is the method above unless the
    row has a column of that name: it then reads as the cell of that
    column, a string or [null], which is not a function. *)
Definition hasOwnPropertyIsMethod (row : Record) : bool :=
  negb (hasOwnProperty row "hasOwnProperty").

(** [row[col]]; a column that is absent reads as [null] here. *)
Fixpoint get (row : Record) (col : string) : Value :=
  match row with
  | [] => None
  | (k, v) :: rest => if String.eqb k col then v else get rest col
  end.

(** [row.hasOwnProperty("id") && row.id !== null && row.id !== ''] (lines 895
    and 919), when [row.hasOwnProperty] is the method; see [testUsableId]
    below for the call. *)
Definition hasUsableId (row : Record) : bool :=
  hasOwnProperty row "id" &&
  match get row "id" with
  | None => false
  | Some v => negb (String.eqb v "")
  end.

(** The two arguments of [client.query(text, values)]. *)
Record Statement : Type := mkStatement {
  text : string;
  values : list Value
}.

(** A row of a result set. *)
Definition ResultRow : Type := list (string * Value).

(** An error value, as the text it prints in [`${error}`]. *)
Definition Error : Type := string.

(** The error of calling a value that is not a function. *)
Definition typeErrorNotFunction (callee : string) : Error :=
  "TypeError: " ++ callee ++ " is not a function".

(** What awaiting [client.query] gives: the rows of the result, or a
    rejection. *)
Inductive Reply : Type :=
| Rows (rows : list ResultRow)
| Failed (e : Error).

(** ** Statement texts of the ingestion (lines 858-951) *)

Definition beginStatement : Statement := mkStatement "BEGIN" [].
Definition commitStatement : Statement := mkStatement "COMMIT" [].
Definition rollbackStatement : Statement := mkStatement "ROLLBACK" [].
Definition beginReadOnlyStatement : Statement :=
  mkStatement "BEGIN TRANSACTION READ ONLY" [].

(** Line 864: [`SELECT 1 FROM "${tableName}" LIMIT 1`]. *)
Definition testQuery (tableName : string) : Statement :=
  mkStatement ("SELECT 1 FROM " ++ quoted tableName ++ " LIMIT 1") [].

(** Lines 878-884: one column definition per header. *)
Definition columnDefinition (col : string) : string :=
  if String.eqb (toLowerCase col) "id"
  then quoted col ++ " TEXT PRIMARY KEY"
  else quoted col ++ " TEXT".

(** Line 886. *)
Definition createTableSQL (tableName : string) (first : Record) : Statement :=
  mkStatement
    ("CREATE TABLE " ++ quoted tableName ++ " ("
       ++ join ", " (map columnDefinition (keys first)) ++ ");")
    [].

(** Lines 896-897: the lookup by identifier. *)
Definition selectByIdQuery (tableName : string) (row : Record) : Statement :=
  mkStatement
    ("SELECT * FROM " ++ quoted tableName ++ " WHERE " ++ quoted "id" ++ " = $1")
    [get row "id"].

(** Lines 903-910: the lookup on all columns.  The template is
    [`"${col}" = ${index + 1}`]. *)
Definition whereClause (row : Record) : string :=
  join " AND "
    (mapi (fun col index => quoted col ++ " = " ++ numberToString (index + 1))
          (keys row)).

Definition selectByAllQuery (tableName : string) (row : Record) : Statement :=
  mkStatement
    ("SELECT * FROM " ++ quoted tableName ++ " WHERE " ++ whereClause row)
    (vals row).

(** Line 920. *)
Definition columnsToUpdate (row : Record) : list string :=
  filter (fun col => negb (String.eqb col "id")) (keys row).

(** Lines 923-928.  The template of the SET clause is
    [`"${col}" = ${index + 2}`]. *)
Definition setClause (row : Record) : string :=
  join ", "
    (mapi (fun col index => quoted col ++ " = " ++ numberToString (index + 2))
          (columnsToUpdate row)).

Definition updateQuery (tableName : string) (row : Record) : Statement :=
  mkStatement
    ("UPDATE " ++ quoted tableName ++ " SET " ++ setClause row
       ++ " WHERE " ++ quoted "id" ++ " = $1")
    (get row "id" :: map (get row) (columnsToUpdate row)).

(** Lines 938-943.  The template of a placeholder is [`${index + 1}`]. *)
Definition insertQuery (tableName : string) (row : Record) : Statement :=
  let cols := keys row in
  let colNames := join ", " (map quoted cols) in
  let placeholders := join ", " (mapi (fun _ index => numberToString (index + 1)) cols) in
  mkStatement
    ("INSERT INTO " ++ quoted tableName ++ " (" ++ colNames ++ ") VALUES ("
       ++ placeholders ++ ")")
    (vals row).

(** ** The client: state, calls and exceptions *)

(** What the code does with the pooled client, in the order of the
    calls.  [EvQuery s r] is the call [client.query(s.text, s.values)]
    together with the way it settles. *)
Inductive Event : Type :=
| EvQuery (s : Statement) (r : Reply)
| EvRelease
| EvWarn (e : Error).

(** How a block of code ends: with a value, or with a thrown error. *)
Inductive Completion (A : Type) : Type :=
| Normal (a : A)
| Throw (e : Error).
Arguments Normal {A} a.
Arguments Throw {A} e.

(** [interface TableSummary] (lines 830-834). *)
Record TableSummary : Type := mkSummary {
  created : nat;
  updated : nat;
  skipped : nat
}.

Definition addCreated (s : TableSummary) : TableSummary :=
  mkSummary (created s + 1) (updated s) (skipped s).
Definition addUpdated (s : TableSummary) : TableSummary :=
  mkSummary (created s) (updated s + 1) (skipped s).
Definition addSkipped (s : TableSummary) : TableSummary :=
  mkSummary (created s) (updated s) (skipped s + 1).

(** The object [summary] of [processCsvUpload], as the properties of its
    own, which are what [JSON.stringify] prints.  It starts empty (line
    842) and is assigned [summary[tableName] = { ... }] once (line 856);
    the counters are then read and written through [summary[tableName]].
    On an object literal the name [__proto__] is the accessor of the
    prototype: the assignment makes the counters the prototype of
    [summary], where the increments find them, and adds no property. *)
Definition summaryObject (tableName : string) (counters : TableSummary)
    : list (string * TableSummary) :=
  if String.eqb tableName "__proto__" then [] else [(tableName, counters)].

(** [{ content: [{ type: "text", text }], isError }]. *)
Record ToolResult : Type := mkToolResult {
  content : string;
  isError : bool
}.

Definition isFailed (r : Reply) : bool :=
  match r with Failed _ => true | Rows _ => false end.

Section Client.

(** The database behind the client: its state, and what one statement
    does to it. *)
Variable DB : Type.
Variable query : DB -> Statement -> DB * Reply.

(** A block of asynchronous code run to its end: the new database state,
    the calls made, and the completion.  The client is the one that
    [pool.connect()] gave, which is taken to succeed.  The [console.log]
    and [console.error] lines of the source are left out; [console.warn]
    is kept. *)
Definition M (A : Type) : Type := DB -> DB * list Event * Completion A.

Definition ret {A : Type} (a : A) : M A := fun db => (db, [], Normal a).

Definition throw {A : Type} (e : Error) : M A := fun db => (db, [], Throw e).

Definition bind {A B : Type} (m : M A) (k : A -> M B) : M B :=
  fun db =>
    match m db with
    | (db1, tr1, Normal a) =>
        match k a db1 with
        | (db2, tr2, c) => (db2, (tr1 ++ tr2)%list, c)
        end
    | (db1, tr1, Throw e) => (db1, tr1, Throw e)
    end.

(** [try { body } catch (error) { handler }]. *)
Definition tryCatch {A : Type} (body : M A) (handler : Error -> M A) : M A :=
  fun db =>
    match body db with
    | (db1, tr1, Normal a) => (db1, tr1, Normal a)
    | (db1, tr1, Throw e) =>
        match handler e db1 with
        | (db2, tr2, c) => (db2, (tr1 ++ tr2)%list, c)
        end
    end.

(** [try { body } finally { fin }]: [fin] runs on every exit of [body];
    an error thrown by [fin] takes the place of the completion of
    [body]. *)
Definition tryFinally {A : Type} (body : M A) (fin : M unit) : M A :=
  fun db =>
    match body db with
    | (db1, tr1, c) =>
        match fin db1 with
        | (db2, tr2, Normal _) => (db2, (tr1 ++ tr2)%list, c)
        | (db2, tr2, Throw e) => (db2, (tr1 ++ tr2)%list, Throw e)
        end
    end.

(** [client.query(...)], not awaited: the call is made, nothing is
    thrown here. *)
Definition issue (s : Statement) : M Reply :=
  fun db => let (db1, r) := query db s in (db1, [EvQuery s r], Normal r).

(** [await client.query(...)]: the rows, or the rejection thrown. *)
Definition clientQuery (s : Statement) : M (list ResultRow) :=
  fun db =>
    let (db1, r) := query db s in
    (db1, [EvQuery s r],
     match r with Rows rows => Normal rows | Failed e => Throw e end).

Definition release : M unit := fun db => (db, [EvRelease], Normal tt).

Definition warn (e : Error) : M unit := fun db => (db, [EvWarn e], Normal tt).

End Client.

Arguments ret {DB A} a.
Arguments throw {DB A} e.
Arguments bind {DB A B} m k.
Arguments tryCatch {DB A} body handler.
Arguments tryFinally {DB A} body fin.
Arguments release {DB}.
Arguments warn {DB} e.
Arguments issue {DB} query s.
Arguments clientQuery {DB} query s.

Declare Scope client_scope.
Delimit Scope client_scope with client.
Notation "x <- m ;; k" := (bind m (fun x => k))
  (at level 61, m at next level, right associativity) : client_scope.
Notation "m ;;; k" := (bind m (fun _ => k))
  (at level 61, right associativity) : client_scope.

(** ** The server: ingestion and the read-only query tool *)

Section Server.
Local Open Scope client_scope.

Variable DB : Type.
Variable query : DB -> Statement -> DB * Reply.

(** [parse(csvString, { columns: true, ... })] of csv-parse: the records,
    or a thrown error. *)
Variable parse : string -> Error + list Record.

(** [JSON.stringify(result.rows, null, 2)]. *)
Variable stringify : list ResultRow -> string.

Definition zeroSummary : TableSummary := mkSummary 0 0 0.

(** The condition of lines 895 and 919 as the code evaluates it: the
    call [row.hasOwnProperty("id")] comes first, and throws a
    [TypeError] when the row has a column named [hasOwnProperty]. *)
Definition testUsableId (row : Record) : M DB bool :=
  if hasOwnPropertyIsMethod row then ret (hasUsableId row)
  else throw (typeErrorNotFunction "row.hasOwnProperty").

(** Lines 892-915: is the row in the table already?  [selectResult.rows.length > 0]. *)
Definition existsInDb (tableName : string) (row : Record) : M DB bool :=
  usable <- testUsableId row ;;
  if usable then
    rows <- clientQuery query (selectByIdQuery tableName row) ;;
    ret (0 <? length rows)%nat
  else
    rows <- clientQuery query (selectByAllQuery tableName row) ;;
    ret (0 <? length rows)%nat.

(** Lines 917-946: update, skip or insert, and count. *)
Definition applyRow (tableName : string) (row : Record) (found : bool)
    (summary : TableSummary) : M DB TableSummary :=
  if found then
    usable <- testUsableId row ;;
    if usable then
      if (0 <? length (columnsToUpdate row))%nat then
        clientQuery query (updateQuery tableName row) ;;;
        ret (addUpdated summary)
      else ret summary
    else ret (addSkipped summary)
  else
    clientQuery query (insertQuery tableName row) ;;;
    ret (addCreated summary).

(** The body of the loop [for (const row of records)] (lines 891-947). *)
Definition processRow (tableName : string) (row : Record)
    (summary : TableSummary) : M DB TableSummary :=
  found <- existsInDb tableName row ;;
  applyRow tableName row found summary.

(** The loop: rows in input order, stopping at the first thrown error. *)
Fixpoint processRows (tableName : string) (records : list Record)
    (summary : TableSummary) : M DB TableSummary :=
  match records with
  | [] => ret summary
  | row :: rest =>
      summary1 <- processRow tableName row summary ;;
      processRows tableName rest summary1
  end.

(** Lines 861-870: the probe of the table, any error meaning "absent". *)
Definition tableExists (tableName : string) : M DB bool :=
  tryCatch (clientQuery query (testQuery tableName) ;;; ret true)
           (fun _ => ret false).

(** Lines 845-949: the body of the [try] block, with the [return
    summary] of line 957 that follows it when it ends normally.  With no
    record the object returned is the literal of line 853, whose computed
    key is a property of its own whatever the name. *)
Definition processCsvBody (csvString tableName : string)
    : M DB (list (string * TableSummary)) :=
  match parse csvString with
  | inl e => throw e
  | inr records =>
      match records with
      | [] => ret [(tableName, zeroSummary)]
      | first :: _ =>
          clientQuery query beginStatement ;;;
          present <- tableExists tableName ;;
          (if present then ret []
           else clientQuery query (createTableSQL tableName first)) ;;;
          summary <- processRows tableName records zeroSummary ;;
          clientQuery query commitStatement ;;;
          ret (summaryObject tableName summary)
      end
  end.

(** [processCsvUpload] (lines 836-958), on the decoded text of the
    buffer: the properties of the object returned, or the thrown
    error. *)
Definition processCsvUpload (csvString tableName : string)
    : M DB (list (string * TableSummary)) :=
  tryFinally
    (tryCatch (processCsvBody csvString tableName)
              (fun error => clientQuery query rollbackStatement ;;; throw error))
    release.

(** The [query] tool of the first variant (lines 272-298), on the [sql]
    argument; [!sql] holds for the empty string. *)
Definition callTool_query_v1 (sql : string) : M DB ToolResult :=
  if String.eqb sql "" then throw "Error: SQL query is required"
  else
    tryFinally
      (tryCatch
         (clientQuery query beginReadOnlyStatement ;;;
          rows <- clientQuery query (mkStatement sql []) ;;
          ret (mkToolResult (stringify rows) false))
         (fun error => throw error))
      (tryCatch (clientQuery query rollbackStatement ;;; ret tt)
                (fun err => warn err) ;;;
       release).

(** The [query] tool of the second variant (lines 704-757), on the [sql]
    argument once it is read from the request (the decoding of the
    arguments, lines 692-722, is left out).  In the [finally] block the
    rollback is called and not awaited: the release follows the call, the
    warning follows the rejection. *)
Definition callTool_query_v2 (sql : string) : M DB ToolResult :=
  tryCatch
    (if String.eqb sql "" then throw "Error: No SQL query provided"
     else
       tryFinally
         (tryCatch
            (clientQuery query beginReadOnlyStatement ;;;
             rows <- clientQuery query (mkStatement sql []) ;;
             ret (mkToolResult (stringify rows) false))
            (fun error =>
               ret (mkToolResult ("Error executing SQL query: " ++ error) true)))
         (r <- issue query rollbackStatement ;;
          release ;;;
          match r with
          | Failed e => warn e
          | Rows _ => ret tt
          end))
    (fun error =>
       ret (mkToolResult ("Error preparing SQL query: " ++ error) true)).

(** [Buffer.from(fileData, "base64")] read as UTF-8 text, and
    [JSON.stringify(result, null, 2)]. *)
Variable decode : string -> string.
Variable stringifySummary : list (string * TableSummary) -> string.

(** The [uploadCsv] tool (lines 758-800), on its three arguments; a
    missing [fileName] or [fileData] is the empty string here. *)
Definition callTool_uploadCsv (fileName fileData : string)
    (tableName : option string) : M DB ToolResult :=
  tryCatch
    (if String.eqb fileName "" || String.eqb fileData ""
     then throw "Error: Missing required parameters: fileName and fileData"
     else
       result <- processCsvUpload (decode fileData)
                   (derivedTableName tableName fileName) ;;
       ret (mkToolResult (stringifySummary result) false))
    (fun error => ret (mkToolResult ("Error processing CSV: " ++ error) true)).

End Server.

Arguments testUsableId {DB} row.
Arguments existsInDb {DB} query tableName row.
Arguments applyRow {DB} query tableName row found summary.
Arguments processRow {DB} query tableName row summary.
Arguments processRows {DB} query tableName records summary.
Arguments tableExists {DB} query tableName.
Arguments processCsvBody {DB} query parse csvString tableName.
Arguments processCsvUpload {DB} query parse csvString tableName.
Arguments callTool_query_v1 {DB} query stringify sql.
Arguments callTool_query_v2 {DB} query stringify sql.
Arguments callTool_uploadCsv {DB} query parse decode stringifySummary
  fileName fileData tableName.

(** Projections of a finished run. *)
Definition finalState {DB A : Type} (run : DB * list Event * Completion A) : DB :=
  fst (fst run).
Definition trace {DB A : Type} (run : DB * list Event * Completion A) : list Event :=
  snd (fst run).
Definition completion {DB A : Type} (run : DB * list Event * Completion A)
    : Completion A :=
  snd run.

(** ** A small store to run the code on

    One table of text rows with transactions: enough of a database to
    evaluate the functions above on concrete requests.  A statement is
    recognised by the way its text starts. *)
Module Store.

Record State : Type := mkState {
  committed : list (list Value);       (* the rows that persist *)
  pending : option (list (list Value)); (* the rows seen by an open transaction *)
  readOnly : bool                       (* the open transaction is read-only *)
}.

Definition valueEqb (a b : Value) : bool :=
  match a, b with
  | None, None => true
  | Some x, Some y => String.eqb x y
  | _, _ => false
  end.

Definition view (st : State) : list (list Value) :=
  match pending st with Some rows => rows | None => committed st end.

Definition setView (st : State) (rows : list (list Value)) : State :=
  match pending st with
  | Some _ => mkState (committed st) (Some rows) (readOnly st)
  | None => mkState rows None (readOnly st)
  end.

(** A stored row answers a lookup when it holds every value of the
    lookup. *)
Definition matches (vs : list Value) (row : list Value) : bool :=
  forallb (fun v => existsb (valueEqb v) row) vs.

Definition asResult (row : list Value) : ResultRow :=
  map (fun v => ("?column?", v)) row.

Definition isNull (v : Value) : bool :=
  match v with None => true | Some _ => false end.

Definition query (st : State) (s : Statement) : State * Reply :=
  if String.eqb (text s) "BEGIN TRANSACTION READ ONLY" then
    (mkState (committed st) (Some (committed st)) true, Rows [])
  else if String.eqb (text s) "BEGIN" then
    (mkState (committed st) (Some (committed st)) false, Rows [])
  else if String.eqb (text s) "COMMIT" then
    (mkState (view st) None false, Rows [])
  else if String.eqb (text s) "ROLLBACK" then
    (mkState (committed st) None false, Rows [])
  else if prefix "SELECT 1 FROM " (text s) then
    (st, Rows [[("?column?", Some "1")]])
  else if prefix "SELECT * FROM " (text s) then
    (st, Rows (map asResult (filter (matches (values s)) (view st))))
  else if prefix "CREATE TABLE " (text s) then
    if readOnly st
    then (st, Failed "error: cannot execute CREATE TABLE in a read-only transaction")
    else (st, Rows [])
  else if prefix "INSERT INTO " (text s) then
    if readOnly st
    then (st, Failed "error: cannot execute INSERT in a read-only transaction")
    else if existsb isNull (values s)
    then (st, Failed "error: null value violates not-null constraint")
    else (setView st (view st ++ [values s])%list, Rows [])
  else if prefix "UPDATE " (text s) then
    if readOnly st
    then (st, Failed "error: cannot execute UPDATE in a read-only transaction")
    else (st, Rows [])
  else if prefix "DELETE FROM " (text s) then
    if readOnly st
    then (st, Failed "error: cannot execute DELETE in a read-only transaction")
    else (setView st [], Rows [])
  else (st, Failed "error: syntax error").

(** An empty table, and a table holding one row. *)
Definition empty : State := mkState [] None false.
Definition holding (row : list Value) : State := mkState [row] None false.

(** A parser for the examples: the text is not looked at, the records
    are given. *)
Definition parsed (records : list Record) (csvString : string)
    : Error + list Record := inr records.

Definition stringify (rows : list ResultRow) : string :=
  numberToString (length rows) ++ " row(s)".

End Store.

(** ** Predicates of the statements below *)

(** Every character of [s] satisfies [p]. *)
Fixpoint allChars (p : ascii -> bool) (s : string) : bool :=
  match s with
  | EmptyString => true
  | String c rest => p c && allChars p rest
  end.

(** The character [c] occurs in [s]. *)
Fixpoint occurs (c : ascii) (s : string) : bool :=
  match s with
  | EmptyString => false
  | String d rest => Ascii.eqb c d || occurs c rest
  end.

(** The characters [a-z], [0-9] and [_]. *)
Definition isTableNameChar (c : ascii) : bool :=
  isLower c || isDigit c || Ascii.eqb c "_"%char.

(** From the specification's words, "stripping the extension": the last
    dot of the name and what follows it are removed. *)
Fixpoint stripExtension (s : string) : string :=
  match s with
  | EmptyString => EmptyString
  | String c rest =>
      if Ascii.eqb c "."%char && negb (occurs "."%char rest)
      then EmptyString
      else String c (stripExtension rest)
  end.

(** From the specification's words: strip the extension, map every
    character outside [A-Za-z0-9] to [_], lower-case. *)
Definition specTableName (fileName : string) : string :=
  toLowerCase (replaceNonAlnum (stripExtension fileName)).

(** [a] is a contiguous part of [b]. *)
Definition isInfix (a b : string) : Prop :=
  exists p q, b = p ++ a ++ q.

(** A call that did not fail. *)
Definition succeeded (ev : Event) : Prop :=
  match ev with
  | EvQuery _ (Failed _) => False
  | _ => True
  end.

(** A call that did not fail, or the probe of the table. *)
Definition succeededOrProbe (tableName : string) (ev : Event) : Prop :=
  match ev with
  | EvQuery s (Failed _) => s = testQuery tableName
  | _ => True
  end.

(** A run in which nothing failed before the end: it ends normally, or it
    throws the error of its last call, or it throws an error of its own. *)
Definition clean {DB A : Type} (ok : Event -> Prop)
    (run : DB * list Event * Completion A) : Prop :=
  match completion run with
  | Normal _ => Forall ok (trace run)
  | Throw e =>
      exists pre, Forall ok pre /\
        (trace run = pre \/ exists s, trace run = (pre ++ [EvQuery s (Failed e)])%list)
  end.

(** The events that follow the last query of the guard, by variant. *)
Definition afterRollback_v1 (r : Reply) : list Event :=
  match r with
  | Failed e => [EvWarn e; EvRelease]
  | Rows _ => [EvRelease]
  end.

Definition afterRollback_v2 (r : Reply) : list Event :=
  match r with
  | Failed e => [EvRelease; EvWarn e]
  | Rows _ => [EvRelease]
  end.

(** What the first variant of the [query] tool makes of the reply to the
    last statement of its [try] block (lines 279-288). *)
Definition statementResult_v1 (stringify : list ResultRow -> string)
    (r : Reply) : Completion ToolResult :=
  match r with
  | Rows rows => Normal (mkToolResult (stringify rows) false)
  | Failed e => Throw e
  end.

(** The same for the second variant (lines 731-742). *)
Definition statementResult_v2 (stringify : list ResultRow -> string)
    (r : Reply) : Completion ToolResult :=
  match r with
  | Rows rows => Normal (mkToolResult (stringify rows) false)
  | Failed e => Normal (mkToolResult ("Error executing SQL query: " ++ e) true)
  end.

(** The calls of the [try] block of the [query] tool: the opening of the
    read-only transaction, then the statement when the opening succeeded. *)
Definition guardedCalls (sql : string) (r0 : Reply) (r1 : Reply) : list Event :=
  match r0 with
  | Rows _ => [EvQuery beginReadOnlyStatement r0; EvQuery (mkStatement sql []) r1]
  | Failed _ => [EvQuery beginReadOnlyStatement r0]
  end.

(** The replies on the path of the guard: to the opening of the
    transaction, to the statement (the reply to the opening stands for it
    when the opening failed and the statement was not run), and to the
    rollback; with the state after the rollback. *)
Definition guardReplies {DB : Type} (query : DB -> Statement -> DB * Reply)
    (sql : string) (db : DB) : DB * Reply * Reply * Reply :=
  let (db1, r0) := query db beginReadOnlyStatement in
  let (db2, r1) :=
    if isFailed r0 then (db1, r0) else query db1 (mkStatement sql []) in
  let (db3, r2) := query db2 rollbackStatement in
  (db3, r0, r1, r2).

(** The number of rows a summary accounts for. *)
Definition total (s : TableSummary) : nat := created s + updated s + skipped s.

(** A row with a usable identifier and no other column. *)
Definition idOnly (row : Record) : bool :=
  hasUsableId row && (length (columnsToUpdate row) =? 0)%nat.

(** ** Further predicates on runs and statements *)

(** Every call of a block satisfies [P], however the block ends. *)
Definition sends {DB A : Type} (P : Event -> Prop) (m : M DB A) : Prop :=
  forall db, Forall P (trace (m db)).

(** A block makes at most [n] calls. *)
Definition atMost {DB A : Type} (n : nat) (m : M DB A) : Prop :=
  forall db, length (trace (m db)) <= n.

(** The statements of one row: its lookup by identifier or on all
    columns, its insert, its update. *)
Definition rowStatement (tableName : string) (records : list Record)
    (s : Statement) : Prop :=
  exists row, In row records
    /\ (s = selectByIdQuery tableName row \/ s = selectByAllQuery tableName row
        \/ s = insertQuery tableName row \/ s = updateQuery tableName row).

(** The statements of the ingestion between the opening of the
    transaction and its end. *)
Definition insideStatement (tableName : string) (records : list Record)
    (s : Statement) : Prop :=
  s = beginStatement
  \/ s = testQuery tableName
  \/ (exists first rest, records = first :: rest
                         /\ s = createTableSQL tableName first)
  \/ rowStatement tableName records s.

Definition insideCall (tableName : string) (records : list Record)
    (ev : Event) : Prop :=
  match ev with
  | EvQuery s _ => insideStatement tableName records s
  | _ => False
  end.

(** The kind of a statement, read from the start of its text. *)
Definition isInsert (s : Statement) : bool := prefix "INSERT INTO " (text s).
Definition isUpdate (s : Statement) : bool := prefix "UPDATE " (text s).
Definition isLookup (s : Statement) : bool := prefix "SELECT * FROM " (text s).
Definition isCreate (s : Statement) : bool := prefix "CREATE TABLE " (text s).

(** The number of statements of a kind that succeeded in a trace. *)
Definition countSucceeded (kind : Statement -> bool) (tr : list Event) : nat :=
  length (filter (fun ev => match ev with
                            | EvQuery s (Rows _) => kind s
                            | _ => false
                            end) tr).

(** The calls of a kind in a trace, succeeded or not. *)
Definition countSent (kind : Statement -> bool) (tr : list Event) : nat :=
  length (filter (fun ev => match ev with
                            | EvQuery s _ => kind s
                            | _ => false
                            end) tr).

(** A run whose calls satisfy [P] up to its last one: it ends normally
    after a commit that succeeded, or it throws, after a commit that
    failed or before any commit. *)
Definition endsWithCommit {DB A : Type} (P : Event -> Prop)
    (run : DB * list Event * Completion A) : Prop :=
  exists tr0, Forall P tr0 /\
    match completion run with
    | Normal _ =>
        exists rows, trace run = (tr0 ++ [EvQuery commitStatement (Rows rows)])%list
    | Throw e =>
        trace run = tr0
        \/ trace run = (tr0 ++ [EvQuery commitStatement (Failed e)])%list
    end.



(** ** The other handlers of the second variant *)

(** [String.prototype.split("/")]: the segments between the slashes; a
    string with [n] slashes has [n + 1] segments, empty ones included. *)
Fixpoint splitSlash (s : string) : list string :=
  match s with
  | EmptyString => [EmptyString]
  | String c rest =>
      if Ascii.eqb c "/"%char then EmptyString :: splitSlash rest
      else match splitSlash rest with
           | segment :: segments => String c segment :: segments
           | [] => [String c EmptyString]
           end
  end.

(** [Array.prototype.pop]: the last element ([undefined] for the empty
    array) and the array without it. *)
Definition pop {A : Type} (l : list A) : option A * list A :=
  match rev l with
  | [] => (None, [])
  | x :: before => (Some x, rev before)
  end.

(** [{ uri, mimeType, text }], the one element of [contents]. *)
Record ResourceContents : Type := mkContents {
  uri : string;
  mimeType : string;
  contentsText : string
}.

(** The arguments of a tool call, given as an object; a property that is
    absent or empty is the empty string, [tableName] may be absent. *)
Record ToolArguments : Type := mkArguments {
  argSql : string;
  argFileName : string;
  argFileData : string;
  argTableName : option string
}.

(** Line 638. *)
Definition columnsQuery_v2 (tableName : Value) : Statement :=
  mkStatement
    "SELECT column_name, data_type FROM information_schema.columns WHERE table_name = $1"
    [tableName].

Section Handlers2.
Local Open Scope client_scope.

Variable DB : Type.
Variable query : DB -> Statement -> DB * Reply.
Variable parse : string -> Error + list Record.
Variable stringify : list ResultRow -> string.
Variable decode : string -> string.
Variable stringifySummary : list (string * TableSummary) -> string.

(** [new URL(uri).pathname]: the path of the URI, or the [TypeError] of
    a URI that does not parse. *)
Variable pathnameOf : string -> Error + string.

(** The handler of [ReadResourceRequestSchema] of the second variant
    (lines 624-654).  The two [pop()] take the last segment and the one
    before it; a table name that is [undefined] is sent as [null]. *)
Definition readResource_v2 (requestUri : string) : M DB ResourceContents :=
  match pathnameOf requestUri with
  | inl e => throw e
  | inr pathname =>
      let pathComponents := splitSlash pathname in
      let (schema, pathComponents1) := pop pathComponents in
      let (tableName, _) := pop pathComponents1 in
      if match schema with
         | Some last => String.eqb last "schema"
         | None => false
         end
      then
        tryFinally
          (rows <- clientQuery query (columnsQuery_v2 tableName) ;;
           ret (mkContents requestUri "application/json" (stringify rows)))
          release
      else throw "Error: Invalid resource URI"
  end.

(** The handler of [CallToolRequestSchema] of the second variant (lines
    687-815), for arguments given as an object: the tool is chosen by
    its name, an unknown name is reported by a warning (line 802) and
    answered with an error result, and the outer [try] turns any error
    into a result. *)
Definition callTool_v2 (name : string) (args : ToolArguments) : M DB ToolResult :=
  tryCatch
    (if String.eqb name "query" then
       callTool_query_v2 query stringify (argSql args)
     else if String.eqb name "uploadCsv" then
       callTool_uploadCsv query parse decode stringifySummary
         (argFileName args) (argFileData args) (argTableName args)
     else
       warn ("Unknown tool: " ++ name) ;;;
       ret (mkToolResult ("Unknown tool: " ++ name) true))
    (fun error =>
       ret (mkToolResult ("Error handling tool request: " ++ error) true)).

End Handlers2.

Arguments readResource_v2 {DB} query stringify pathnameOf requestUri.
Arguments callTool_v2 {DB} query parse stringify decode stringifySummary name args.

(** The number of releases in a trace. *)
Definition countReleases (tr : list Event) : nat :=
  length (filter (fun ev => match ev with EvRelease => true | _ => false end) tr).

(** ** The first variant: resources and tools (lines 34-545) *)

(** A JavaScript value read from a row or from the arguments:
    [undefined], or a cell. *)
Definition JsValue : Type := option Value.

(** [row.name]: [undefined] when the row has no such property. *)
Fixpoint field (row : ResultRow) (name : string) : JsValue :=
  match row with
  | [] => None
  | (k, v) :: rest => if String.eqb k name then Some v else field rest name
  end.

(** [`${v}`]. *)
Definition templateOf (v : JsValue) : string :=
  match v with
  | None => "undefined"
  | Some None => "null"
  | Some (Some s) => s
  end.

(** A value in the parameter list: [undefined] is sent as [null]. *)
Definition asParameter (v : JsValue) : Value :=
  match v with
  | None => None
  | Some cell => cell
  end.

(** [a === b] on such values. *)
Definition strictEq (a b : JsValue) : bool :=
  match a, b with
  | None, None => true
  | Some None, Some None => true
  | Some (Some x), Some (Some y) => String.eqb x y
  | _, _ => false
  end.

(** The values handed to [JSON.stringify]. *)
#[local] Unset Elimination Schemes.
Inductive Json : Type :=
| JUndefined
| JNull
| JString (s : string)
| JArray (items : list Json)
| JObject (properties : list (string * Json)).
#[local] Set Elimination Schemes.

Definition jsonOfValue (v : JsValue) : Json :=
  match v with
  | None => JUndefined
  | Some None => JNull
  | Some (Some s) => JString s
  end.

Definition jsonOfRow (row : ResultRow) : Json :=
  JObject (map (fun kv => (fst kv, jsonOfValue (Some (snd kv)))) row).

Definition jsonOfRows (rows : list ResultRow) : Json :=
  JArray (map jsonOfRow rows).

(** The error of reading a property of [undefined]. *)
Definition typeErrorUndefined (property : string) : Error :=
  "TypeError: Cannot read properties of undefined (reading '" ++ property ++ "')".

Definition tablesSQL : string :=
  "SELECT table_name FROM information_schema.tables WHERE table_schema = 'public'".
Definition columnsSQL : string :=
  "SELECT column_name, data_type, is_nullable FROM information_schema.columns WHERE table_name = $1".
Definition sizeSQL : string :=
  "SELECT pg_size_pretty(pg_total_relation_size($1)) as size".
Definition primaryKeysSQL : string :=
  "
    SELECT a.attname
    FROM pg_index i
    JOIN pg_attribute a ON a.attrelid = i.indrelid AND a.attnum = ANY(i.indkey)
    WHERE i.indrelid = $1::regclass AND i.indisprimary
    ".
Definition foreignKeysSQL : string :=
  "
    SELECT
      kcu.column_name,
      ccu.table_name AS foreign_table_name,
      ccu.column_name AS foreign_column_name
    FROM
      information_schema.table_constraints AS tc
      JOIN information_schema.key_column_usage AS kcu
        ON tc.constraint_name = kcu.constraint_name
        AND tc.table_schema = kcu.table_schema
      JOIN information_schema.constraint_column_usage AS ccu
        ON ccu.constraint_name = tc.constraint_name
        AND ccu.table_schema = tc.table_schema
    WHERE tc.constraint_type = 'FOREIGN KEY' AND tc.table_name = $1
    ".
Definition databaseStatsSQL : string :=
  "
    SELECT 
      datname AS database_name,
      pg_size_pretty(pg_database_size(datname)) AS size,
      pg_size_pretty(pg_database_size(datname) - 
                    COALESCE((SELECT sum(pg_relation_size(pg_class.oid))
                              FROM pg_class
                              LEFT JOIN pg_namespace ON pg_namespace.oid = pg_class.relnamespace
                              WHERE pg_namespace.nspname = 'pg_toast'), 0)) AS data_size
    FROM pg_database
    WHERE datname = current_database()
  ".
Definition indicesSQL : string :=
  "
            SELECT
              i.relname as index_name,
              a.attname as column_name,
              ix.indisunique as is_unique
            FROM
              pg_class t,
              pg_class i,
              pg_index ix,
              pg_attribute a
            WHERE
              t.oid = ix.indrelid
              AND i.oid = ix.indexrelid
              AND a.attrelid = t.oid
              AND a.attnum = ANY(ix.indkey)
              AND t.relkind = 'r'
              AND t.relname = $1
            ORDER BY
              t.relname,
              i.relname
            ".
Definition relationshipsSQL : string :=
  "
          SELECT
            kcu.column_name as from_column,
            ccu.column_name as to_column
          FROM
            information_schema.table_constraints AS tc
            JOIN information_schema.key_column_usage AS kcu
              ON tc.constraint_name = kcu.constraint_name
              AND tc.table_schema = kcu.table_schema
            JOIN information_schema.constraint_column_usage AS ccu
              ON ccu.constraint_name = tc.constraint_name
              AND ccu.table_schema = tc.table_schema
          WHERE tc.constraint_type = 'FOREIGN KEY' 
            AND tc.table_name = $1
            AND ccu.table_name = $2
          ".
Definition allRelationshipsSQL : string :=
  "
          SELECT
            tc.table_name as from_table,
            kcu.column_name as from_column,
            ccu.table_name as to_table,
            ccu.column_name as to_column
          FROM
            information_schema.table_constraints AS tc
            JOIN information_schema.key_column_usage AS kcu
              ON tc.constraint_name = kcu.constraint_name
              AND tc.table_schema = kcu.table_schema
            JOIN information_schema.constraint_column_usage AS ccu
              ON ccu.constraint_name = tc.constraint_name
              AND ccu.table_schema = tc.table_schema
          WHERE tc.constraint_type = 'FOREIGN KEY'
        ".

(** The statement that counts the rows of a table, with the name of the
    table between double quotes (lines 139, 167, 309, 360). *)
Definition countSQL (tableName : JsValue) : string :=
  "SELECT COUNT(*) as count FROM " ++ quoted (templateOf tableName).

(** Line 130: the segments of the path that are not empty. *)
Definition pathComponents_v1 (pathname : string) : list string :=
  filter (fun p => negb (String.eqb p "")) (splitSlash pathname).

(** A trace made of queries each followed at once by a release. *)
Fixpoint paired (tr : list Event) : Prop :=
  match tr with
  | [] => True
  | EvQuery _ _ :: EvRelease :: rest => paired rest
  | _ => False
  end.

(** One indirect relationship (lines 446-461): the path, then the tables
    and columns of its two steps. *)
Record Indirect : Type := mkIndirect {
  path : string;
  step1 : JsValue * JsValue * JsValue * JsValue;
  step2 : JsValue * JsValue * JsValue * JsValue
}.

(** Lines 441-465: the relationships from [table1] that reach [table2]
    through one other table, in the order of the two loops. *)
Definition intermediateRelationships (table1 table2 : string)
    (allRows : list ResultRow) : list Indirect :=
  let fromTable1 :=
    filter (fun r => strictEq (field r "from_table") (Some (Some table1)))
           allRows in
  flat_map
    (fun rel1 =>
       flat_map
         (fun rel2 =>
            if strictEq (field rel1 "to_table") (field rel2 "from_table")
               && strictEq (field rel2 "to_table") (Some (Some table2))
            then
              [mkIndirect
                 (table1 ++ " -> " ++ templateOf (field rel1 "to_table")
                    ++ " -> " ++ table2)
                 (Some (Some table1), field rel1 "from_column",
                  field rel1 "to_table", field rel1 "to_column")
                 (field rel2 "from_table", field rel2 "from_column",
                  Some (Some table2), field rel2 "to_column")]
            else [])
         allRows)
    fromTable1.

Definition jsonOfStep (step : JsValue * JsValue * JsValue * JsValue) : Json :=
  let '(fromTable, fromColumn, toTable, toColumn) := step in
  JObject [("from_table", jsonOfValue fromTable);
           ("from_column", jsonOfValue fromColumn);
           ("to_table", jsonOfValue toTable);
           ("to_column", jsonOfValue toColumn)].

Definition jsonOfIndirect (x : Indirect) : Json :=
  JObject [("path", JString (path x));
           ("details", JObject [("step1", jsonOfStep (step1 x));
                                ("step2", jsonOfStep (step2 x))])].

(** Lines 468-475: the two columns of a direct relationship. *)
Definition jsonOfDirect (rows : list ResultRow) : Json :=
  JArray (map (fun r => JObject [("from_column", jsonOfValue (field r "from_column"));
                                 ("to_column", jsonOfValue (field r "to_column"))])
              rows).

Section Handlers1.
Local Open Scope client_scope.

Variable DB : Type.
Variable query : DB -> Statement -> DB * Reply.

(** [JSON.stringify(value, null, 2)], [new URL(uri).pathname] and
    [parseInt(value, 10)] as a JSON value. *)
Variable stringifyJson : Json -> string.
Variable pathnameOf : string -> Error + string.
Variable parseInt10 : JsValue -> Json.

(** [executeQuery] (lines 36-45): a client of its own for one statement,
    released whatever the outcome. *)
Definition executeQuery (s : Statement) : M DB (list ResultRow) :=
  tryFinally (clientQuery query s) release.

(** [rows[0].property]. *)
Definition firstRowField (rows : list ResultRow) (property : string)
    : M DB JsValue :=
  match rows with
  | [] => throw (typeErrorUndefined property)
  | row :: _ => ret (field row property)
  end.

(** Lines 47-50. *)
Definition getTableColumns (tableName : string) : M DB (list ResultRow) :=
  executeQuery (mkStatement columnsSQL [Some tableName]).

(** Lines 52-60. *)
Definition getTablePrimaryKeys (tableName : string) : M DB (list JsValue) :=
  rows <- executeQuery (mkStatement primaryKeysSQL [Some ("public." ++ tableName)]) ;;
  ret (map (fun row => field row "attname") rows).

(** Lines 62-79. *)
Definition getTableForeignKeys (tableName : string) : M DB (list ResultRow) :=
  executeQuery (mkStatement foreignKeysSQL [Some tableName]).

(** Lines 81-84. *)
Definition getTableSize (tableName : JsValue) : M DB JsValue :=
  rows <- executeQuery
            (mkStatement sizeSQL [Some ("public." ++ templateOf tableName)]) ;;
  firstRowField rows "size".

(** Lines 86-100: [result.rows[0]], [undefined] when there is no row. *)
Definition getDatabaseStats : M DB (option ResultRow) :=
  rows <- executeQuery (mkStatement databaseStatsSQL []) ;;
  ret (match rows with [] => None | row :: _ => Some row end).

(** Lines 137-146: the size and the row count of each table. *)
Fixpoint tableDetailsLoop (tables : list ResultRow) (tableDetails : list Json)
    : M DB (list Json) :=
  match tables with
  | [] => ret tableDetails
  | table :: rest =>
      size <- getTableSize (field table "table_name") ;;
      countResult <- executeQuery
                       (mkStatement (countSQL (field table "table_name")) []) ;;
      rowCount <- firstRowField countResult "count" ;;
      tableDetailsLoop rest
        (tableDetails ++ [JObject [("name", jsonOfValue (field table "table_name"));
                                   ("size", jsonOfValue size);
                                   ("rowCount", jsonOfValue rowCount)]])%list
  end.

(** [{ ...stats, tables: tableDetails }]: the properties of the first
    row of the statistics, if any, then [tables]. *)
Definition statsWithTables (stats : option ResultRow) (tableDetails : list Json)
    : Json :=
  JObject
    ((match stats with
      | Some row => map (fun kv => (fst kv, jsonOfValue (Some (snd kv)))) row
      | None => []
      end) ++ [("tables", JArray tableDetails)])%list.

(** The handler of [ReadResourceRequestSchema] of the first variant
    (lines 127-195). *)
Definition readResource_v1 (requestUri : string) : M DB ResourceContents :=
  match pathnameOf requestUri with
  | inl e => throw e
  | inr pathname =>
      match pathComponents_v1 pathname with
      | [only] =>
          if String.eqb only "stats" then
            stats <- getDatabaseStats ;;
            tables <- executeQuery (mkStatement tablesSQL []) ;;
            tableDetails <- tableDetailsLoop tables [] ;;
            ret (mkContents requestUri "application/json"
                   (stringifyJson (statsWithTables stats tableDetails)))
          else throw "Error: Invalid resource URI"
      | [tableName; resourceType] =>
          if String.eqb resourceType "schema" then
            columns <- getTableColumns tableName ;;
            primaryKeys <- getTablePrimaryKeys tableName ;;
            foreignKeys <- getTableForeignKeys tableName ;;
            tableSize <- getTableSize (Some (Some tableName)) ;;
            countResult <- executeQuery
                             (mkStatement (countSQL (Some (Some tableName))) []) ;;
            rowCount <- firstRowField countResult "count" ;;
            ret (mkContents requestUri "application/json"
                   (stringifyJson
                      (JObject [("tableName", JString tableName);
                                ("columns", jsonOfRows columns);
                                ("primaryKeys", JArray (map jsonOfValue primaryKeys));
                                ("foreignKeys", jsonOfRows foreignKeys);
                                ("tableSize", jsonOfValue tableSize);
                                ("rowCount", jsonOfValue rowCount)])))
          else if String.eqb resourceType "data" then
            rows <- executeQuery
                      (mkStatement ("SELECT * FROM " ++ quoted tableName
                                      ++ " LIMIT 1000") []) ;;
            ret (mkContents requestUri "application/json"
                   (stringifyJson (jsonOfRows rows)))
          else throw "Error: Invalid resource URI"
      | _ => throw "Error: Invalid resource URI"
      end
  end.

(** The [describe_table] tool (lines 299-352), on its [table_name]
    argument; the empty string stands for a missing one. *)
Definition callTool_describe_table (tableName : string) : M DB ToolResult :=
  if String.eqb tableName "" then throw "Error: Table name is required"
  else
    tryCatch
      (columns <- getTableColumns tableName ;;
       primaryKeys <- getTablePrimaryKeys tableName ;;
       foreignKeys <- getTableForeignKeys tableName ;;
       tableSize <- getTableSize (Some (Some tableName)) ;;
       countResult <- executeQuery
                        (mkStatement (countSQL (Some (Some tableName))) []) ;;
       rowCount <- firstRowField countResult "count" ;;
       sampleData <- executeQuery
                       (mkStatement ("SELECT * FROM " ++ quoted tableName
                                       ++ " LIMIT 5") []) ;;
       indices <- executeQuery (mkStatement indicesSQL [Some tableName]) ;;
       ret (mkToolResult
              (stringifyJson
                 (JObject [("tableName", JString tableName);
                           ("rowCount", jsonOfValue rowCount);
                           ("tableSize", jsonOfValue tableSize);
                           ("columns", jsonOfRows columns);
                           ("primaryKeys", JArray (map jsonOfValue primaryKeys));
                           ("foreignKeys", jsonOfRows foreignKeys);
                           ("indices", jsonOfRows indices);
                           ("sampleData", jsonOfRows sampleData)]))
              false))
      (fun error => throw error).

(** The [count_rows] tool (lines 353-382): the condition, when there is
    one, is appended to the statement as it is. *)
Definition callTool_count_rows (tableName condition : string) : M DB ToolResult :=
  if String.eqb tableName "" then throw "Error: Table name is required"
  else
    tryCatch
      (let sql := countSQL (Some (Some tableName)) in
       let sql := if String.eqb condition "" then sql
                  else sql ++ " WHERE " ++ condition in
       rows <- executeQuery (mkStatement sql []) ;;
       count <- firstRowField rows "count" ;;
       ret (mkToolResult
              (stringifyJson
                 (JObject [("table", JString tableName);
                           ("count", parseInt10 count);
                           ("condition", if String.eqb condition "" then JNull
                                         else JString condition)]))
              false))
      (fun error => throw error).

(** The [find_relationships] tool (lines 383-487). *)
Definition callTool_find_relationships (table1 table2 : string) : M DB ToolResult :=
  if String.eqb table1 "" || String.eqb table2 ""
  then throw "Error: Both table names are required"
  else
    tryCatch
      (fkTable1ToTable2 <- executeQuery
                             (mkStatement relationshipsSQL [Some table1; Some table2]) ;;
       fkTable2ToTable1 <- executeQuery
                             (mkStatement relationshipsSQL [Some table2; Some table1]) ;;
       allFKRelationships <- executeQuery (mkStatement allRelationshipsSQL []) ;;
       ret (mkToolResult
              (stringifyJson
                 (JObject
                    [("direct",
                      JObject [(table1 ++ " -> " ++ table2, jsonOfDirect fkTable1ToTable2);
                               (table2 ++ " -> " ++ table1, jsonOfDirect fkTable2ToTable1)]);
                     ("indirect",
                      JArray (map jsonOfIndirect
                                (intermediateRelationships table1 table2
                                   allFKRelationships)))]))
              false))
      (fun error => throw error).

End Handlers1.

Arguments executeQuery {DB} query s.
Arguments firstRowField {DB} rows property.
Arguments getTableColumns {DB} query tableName.
Arguments getTablePrimaryKeys {DB} query tableName.
Arguments getTableForeignKeys {DB} query tableName.
Arguments getTableSize {DB} query tableName.
Arguments getDatabaseStats {DB} query.
Arguments tableDetailsLoop {DB} query tables tableDetails.
Arguments readResource_v1 {DB} query stringifyJson pathnameOf requestUri.
Arguments callTool_describe_table {DB} query stringifyJson tableName.
Arguments callTool_count_rows {DB} query stringifyJson parseInt10 tableName condition.
Arguments callTool_find_relationships {DB} query stringifyJson table1 table2.

(** The [name] of a table detail of the statistics. *)
Definition detailName (detail : Json) : Json :=
  match detail with
  | JObject ((key, name) :: _) => if String.eqb key "name" then name else JUndefined
  | _ => JUndefined
  end.

(** A store that answers every statement with the same rows. *)
Definition answering (rows : list ResultRow) (db : unit) (s : Statement)
    : unit * Reply := (db, Rows rows).

(** A call that is not a [CREATE TABLE] statement. *)
Definition notCreate (ev : Event) : Prop :=
  match ev with
  | EvQuery s _ => isCreate s = false
  | _ => True
  end.

(** ** Further predicates of the ingestion *)

(** A text without the character [$]: it holds no placeholder. *)
Definition noDollar (s : string) : bool := negb (occurs "$"%char s).

(** PostgreSQL counts the placeholders [$n] of a text when it prepares
    it, and rejects the statement when parameters are bound to a text
    that asks for none ("bind message supplies 1 parameters, but
    prepared statement requires 0").  A store has this rule when it
    rejects every statement that comes with parameters and whose text
    holds no [$]. *)
Definition rejectsUnboundParameters {DB : Type}
    (query : DB -> Statement -> DB * Reply) : Prop :=
  forall db s,
    values s <> [] -> noDollar (text s) = true ->
    isFailed (snd (query db s)) = true.

(** A call that is a query or a release; a warning goes to the console,
    not to the client. *)
Definition usesClient (ev : Event) : bool :=
  match ev with
  | EvWarn _ => false
  | _ => true
  end.

(** The lower-case form of a letter [A-Z]; any other code unit is left
    as it is. *)
Definition lowerLetter (c : ascii) : ascii :=
  if isUpper c then ascii_of_nat (nat_of_ascii c + 32) else c.

(** Two code units that are equal or are the same letter of [A-Z] and
    [a-z] in two cases; two strings that are so, code unit by code
    unit. *)
Definition sameLetter (a b : ascii) : bool :=
  Ascii.eqb (lowerLetter a) (lowerLetter b).

Fixpoint sameLetters (a b : string) : bool :=
  match a, b with
  | EmptyString, EmptyString => true
  | String x a', String y b' => sameLetter x y && sameLetters a' b'
  | _, _ => false
  end.

(** The calls of a batch up to the first lookup on all columns, that
    lookup being rejected. *)
Definition beforeRows (tableName : string) (first : Record) (ev : Event) : Prop :=
  match ev with
  | EvQuery s r =>
      s = beginStatement \/ s = testQuery tableName
      \/ s = createTableSQL tableName first
      \/ (s = selectByAllQuery tableName first /\ isFailed r = true)
  | _ => False
  end.

(** The statements of rows that have an identifier: the lookup by
    identifier and the update. *)
Definition byIdentifier (tableName : string) (records : list Record)
    (ev : Event) : Prop :=
  match ev with
  | EvQuery s _ =>
      exists row, In row records
        /\ (s = selectByIdQuery tableName row \/ s = updateQuery tableName row)
  | _ => False
  end.

(** ** A store that checks what PostgreSQL checks

    The small store above runs every text it recognises.  This one adds
    what PostgreSQL and its wire protocol do before a statement runs, as
    far as the examples below need it:
    - a text sent without parameters goes through the simple protocol
      and may hold several statements, separated by semicolons and run
      in order up to the first that fails;
    - a text sent with parameters is one statement, and must hold as
      many placeholders [$n] as there are parameters;
    - a condition that is missing after [WHERE] is a syntax error;
    - the table may not exist;
    - a statement that fails inside a transaction aborts it, and every
      statement is then rejected until the transaction is ended.
    There is one table; the name in a text is not read.  As in the small
    store a row is a list of values without column names: a lookup finds
    the rows that hold its parameters, an insert adds its parameters as
    a row, an update changes nothing.  The reply to a text of several
    statements is the reply to the last one that ran (the client gives
    one result for each). *)
Module Pg.

Definition Table : Type := list (list Value).

Record State : Type := mkState {
  table : option Table;            (* what persists: the table, if it exists *)
  inside : option (option Table);  (* in a transaction: the table as it sees it *)
  readOnly : bool;                 (* the transaction is read-only *)
  aborted : bool                   (* a statement of the transaction has failed *)
}.

Definition view (st : State) : option Table :=
  match inside st with Some t => t | None => table st end.

Definition setView (st : State) (t : option Table) : State :=
  match inside st with
  | Some _ => mkState (table st) (Some t) (readOnly st) (aborted st)
  | None => mkState t None false false
  end.

(** A failure: inside a transaction it aborts the transaction. *)
Definition fail (st : State) (e : Error) : State * Reply :=
  (match inside st with
   | Some t => mkState (table st) (Some t) (readOnly st) true
   | None => st
   end,
   Failed e).

Definition isQuote (c : ascii) : bool :=
  Ascii.eqb c "034"%char || Ascii.eqb c "'"%char.

(** Reading a text: outside of quotes, or inside quotes opened by the
    given character. *)
Definition nextMode (mode : option ascii) (c : ascii) : option ascii :=
  match mode with
  | Some q => if Ascii.eqb c q then None else Some q
  | None => if isQuote c then Some c else None
  end.

(** The number written by the digits at the start of a string. *)
Fixpoint leadingNumber (acc : nat) (s : string) : nat :=
  match s with
  | EmptyString => acc
  | String c rest =>
      if isDigit c then leadingNumber (10 * acc + (nat_of_ascii c - 48)) rest
      else acc
  end.

(** The number of parameters a text asks for: the highest [n] of its
    placeholders [$n], quoted names and literals apart. *)
Fixpoint placeholdersFrom (mode : option ascii) (s : string) : nat :=
  match s with
  | EmptyString => 0
  | String c rest =>
      match mode with
      | None =>
          if Ascii.eqb c "$"%char
          then Nat.max (leadingNumber 0 rest) (placeholdersFrom None rest)
          else placeholdersFrom (nextMode None c) rest
      | Some _ => placeholdersFrom (nextMode mode c) rest
      end
  end.

Definition placeholders (s : string) : nat := placeholdersFrom None s.

(** The pieces of a text between the semicolons that are not quoted. *)
Fixpoint splitStatements (mode : option ascii) (s : string) : list string :=
  match s with
  | EmptyString => [EmptyString]
  | String c rest =>
      match mode, Ascii.eqb c ";"%char with
      | None, true => EmptyString :: splitStatements None rest
      | _, _ =>
          match splitStatements (nextMode mode c) rest with
          | piece :: pieces => String c piece :: pieces
          | [] => [String c EmptyString]
          end
      end
  end.

Fixpoint trimLeft (s : string) : string :=
  match s with
  | String c rest =>
      if Ascii.eqb c " "%char || Ascii.eqb c "010"%char then trimLeft rest else s
  | EmptyString => EmptyString
  end.

(** The statements of a text: its pieces without the blanks before
    them, the empty ones left out. *)
Definition statementsOf (s : string) : list string :=
  filter (fun piece => negb (String.eqb piece ""))
         (map trimLeft (splitStatements None s)).

(** [suffix] is the end of [s]. *)
Definition endsWith (suffix s : string) : bool :=
  String.eqb (substring (String.length s - String.length suffix)
                        (String.length suffix) s)
             suffix.

Definition parameterError (asked given : nat) : Error :=
  match given with
  | 0 => "error: there is no parameter $" ++ numberToString asked
  | _ => "error: bind message supplies " ++ numberToString given
           ++ " parameters, but prepared statement requires "
           ++ numberToString asked
  end.

Definition onTable (st : State) (k : Table -> State * Reply) : State * Reply :=
  match view st with
  | Some rows => k rows
  | None => fail st "error: relation does not exist"
  end.

Definition writing (st : State) (what : string) (k : State * Reply)
    : State * Reply :=
  if readOnly st
  then fail st ("error: cannot execute " ++ what ++ " in a read-only transaction")
  else k.

(** One statement that is not the opening or the end of a transaction. *)
Definition statement (st : State) (txt : string) (vs : list Value)
    : State * Reply :=
  if negb (placeholders txt =? length vs)%nat then
    fail st (parameterError (placeholders txt) (length vs))
  else if endsWith " WHERE " txt || endsWith " WHERE" txt then
    fail st "error: syntax error at end of input"
  else if prefix "SELECT 1 FROM " txt then
    onTable st (fun rows =>
      (st, Rows (match rows with
                 | [] => []
                 | _ :: _ => [[("?column?", Some "1")]]
                 end)))
  else if prefix "SELECT * FROM " txt then
    onTable st (fun rows =>
      (st, Rows (map Store.asResult (filter (Store.matches vs) rows))))
  else if prefix "CREATE TABLE " txt then
    writing st "CREATE TABLE"
      (match view st with
       | Some _ => fail st "error: relation already exists"
       | None => (setView st (Some []), Rows [])
       end)
  else if prefix "INSERT INTO " txt then
    writing st "INSERT"
      (onTable st (fun rows => (setView st (Some (rows ++ [vs])%list), Rows [])))
  else if prefix "UPDATE " txt then
    writing st "UPDATE" (onTable st (fun rows => (st, Rows [])))
  else if prefix "DELETE FROM " txt then
    writing st "DELETE" (onTable st (fun rows => (setView st (Some []), Rows [])))
  else fail st "error: syntax error".

Definition isBegin (txt : string) : bool :=
  String.eqb txt "BEGIN" || String.eqb txt "BEGIN TRANSACTION READ ONLY".

Definition isEnd (txt : string) : bool :=
  String.eqb txt "COMMIT" || String.eqb txt "ROLLBACK".

(** One statement, with the transaction it runs in.  In an aborted
    transaction [COMMIT] rolls back like [ROLLBACK]; any other statement
    is rejected. *)
Definition run (st : State) (txt : string) (vs : list Value) : State * Reply :=
  if aborted st then
    if isEnd txt then (mkState (table st) None false false, Rows [])
    else (st, Failed "error: current transaction is aborted, commands ignored until end of transaction block")
  else if isBegin txt then
    match inside st with
    | Some _ => (st, Rows [])
    | None =>
        (mkState (table st) (Some (table st))
           (String.eqb txt "BEGIN TRANSACTION READ ONLY") false,
         Rows [])
    end
  else if String.eqb txt "COMMIT" then
    (mkState (view st) None false false, Rows [])
  else if String.eqb txt "ROLLBACK" then
    (mkState (table st) None false false, Rows [])
  else statement st txt vs.

(** The statements of a text sent without parameters, in order, up to
    the first that fails; the reply is the one to the last statement
    run. *)
Fixpoint runAll (st : State) (texts : list string) (last : Reply)
    : State * Reply :=
  match texts with
  | [] => (st, last)
  | txt :: rest =>
      match run st txt [] with
      | (st1, Rows rows) => runAll st1 rest (Rows rows)
      | (st1, Failed e) => (st1, Failed e)
      end
  end.

Definition query (st : State) (s : Statement) : State * Reply :=
  match values s with
  | [] => runAll st (statementsOf (text s)) (Rows [])
  | vs =>
      if negb (placeholders (text s) =? length vs)%nat then
        fail st (parameterError (placeholders (text s)) (length vs))
      else
        match statementsOf (text s) with
        | [txt] => run st txt vs
        | _ => fail st "error: cannot insert multiple commands into a prepared statement"
        end
  end.

(** A database without the table, and one whose table holds the given
    rows. *)
Definition without : State := mkState None None false false.
Definition holding (rows : Table) : State := mkState (Some rows) None false false.

End Pg.

(** ** A parser for the examples

    What csv-parse gives with [columns: true], [skip_empty_lines: true]
    and [trim: true] for a text without quotes: lines end at the line
    feeds and cells at the commas, blanks around a cell are dropped, the
    first line that is not empty names the columns, and every other
    line that is not empty gives a record, which must have as many
    cells as there are columns.  A record is built from the empty object
    [{}] by the assignments [record[column] = cell], in the order of the
    columns; its properties are listed in that order when no column name
    is a number. *)
Module Csv.

Fixpoint splitAt (sep : ascii) (s : string) : list string :=
  match s with
  | EmptyString => [EmptyString]
  | String c rest =>
      if Ascii.eqb c sep then EmptyString :: splitAt sep rest
      else match splitAt sep rest with
           | piece :: pieces => String c piece :: pieces
           | [] => [String c EmptyString]
           end
  end.

Definition isBlank (c : ascii) : bool :=
  Ascii.eqb c " "%char || Ascii.eqb c "009"%char.

Fixpoint trimStart (s : string) : string :=
  match s with
  | String c rest => if isBlank c then trimStart rest else s
  | EmptyString => EmptyString
  end.

(** The string without the blanks at its end. *)
Fixpoint trimEnd (s : string) : string :=
  match s with
  | EmptyString => EmptyString
  | String c rest =>
      match trimEnd rest with
      | EmptyString => if isBlank c then EmptyString else String c EmptyString
      | kept => String c kept
      end
  end.

Definition trim (s : string) : string := trimEnd (trimStart s).

(** [record[column] = cell] on an object made by [{}].  The name
    [__proto__] is the accessor of the prototype, which ignores a value
    that is not an object: the assignment of a cell adds no property.
    Any other name becomes a property of the record, or takes the new
    cell when it is one already. *)
Fixpoint setCell (record : Record) (column cell : string) : Record :=
  match record with
  | [] => [(column, Some cell)]
  | (k, v) :: rest =>
      if String.eqb k column then (k, Some cell) :: rest
      else (k, v) :: setCell rest column cell
  end.

Definition assign (record : Record) (column cell : string) : Record :=
  if String.eqb column "__proto__" then record else setCell record column cell.

Fixpoint recordOf (record : Record) (columns cells : list string) : Record :=
  match columns, cells with
  | column :: columns', cell :: cells' =>
      recordOf (assign record column cell) columns' cells'
  | _, _ => record
  end.

Fixpoint recordsOf (columns : list string) (lines : list (list string))
    : Error + list Record :=
  match lines with
  | [] => inr []
  | cells :: rest =>
      if (length cells =? length columns)%nat then
        match recordsOf columns rest with
        | inr records => inr (recordOf [] columns cells :: records)
        | inl e => inl e
        end
      else inl "Error: Invalid Record Length"
  end.

(** A text written line by line, a line feed after each line. *)
Fixpoint text (lines : list string) : string :=
  match lines with
  | [] => EmptyString
  | line :: rest => line ++ String "010"%char (text rest)
  end.

Definition parse (csvString : string) : Error + list Record :=
  let lines := filter (fun line => negb (String.eqb line ""))
                      (splitAt "010"%char csvString) in
  match map (fun line => map trim (splitAt ","%char line)) lines with
  | [] => inr []
  | columns :: rest => recordsOf columns rest
  end.

End Csv.

(** ** Table names *)

Lemma sanitized_char (c : ascii) :
  isTableNameChar (toLowerChar (if isAlnum c then c else "_"%char)) = true.
Proof.
  destruct c as [b0 b1 b2 b3 b4 b5 b6 b7];
    destruct b0, b1, b2, b3, b4, b5, b6, b7; vm_compute; reflexivity.
Qed.

Lemma sanitized_string (s : string) :
  allChars isTableNameChar (toLowerCase (replaceNonAlnum s)) = true.
Proof.
  induction s as [|c rest IH]; simpl.
  - reflexivity.
  - rewrite sanitized_char, IH. reflexivity.
Qed.

Lemma allChars_occurs (p : ascii -> bool) (c : ascii) (s : string) :
  allChars p s = true -> p c = false -> occurs c s = false.
Proof.
  induction s as [|d rest IH]; simpl; intros Hall Hc.
  - reflexivity.
  - apply andb_true_iff in Hall. destruct Hall as [Hd Hrest].
    rewrite (IH Hrest Hc), orb_false_r.
    destruct (Ascii.eqb_spec c d) as [->|]; congruence.
Qed.

Lemma beforeFirstDot_app (name rest : string) :
  occurs "."%char name = false ->
  beforeFirstDot (name ++ String "."%char rest) = name.
Proof.
  induction name as [|c name IH]; cbn [occurs beforeFirstDot append]; intros Hno.
  - try rewrite Ascii.eqb_refl; reflexivity.
  - apply orb_false_iff in Hno. destruct Hno as [Hc Hrest].
    rewrite Ascii.eqb_sym in Hc. rewrite Hc, (IH Hrest). reflexivity.
Qed.

Lemma beforeFirstDot_nodot (name : string) :
  occurs "."%char name = false -> beforeFirstDot name = name.
Proof.
  induction name as [|c name IH]; cbn [occurs beforeFirstDot append]; intros Hno.
  - try rewrite Ascii.eqb_refl; reflexivity.
  - apply orb_false_iff in Hno. destruct Hno as [Hc Hrest].
    rewrite Ascii.eqb_sym in Hc. rewrite Hc, (IH Hrest). reflexivity.
Qed.

Lemma stripExtension_app (name rest : string) :
  occurs "."%char name = false -> occurs "."%char rest = false ->
  stripExtension (name ++ String "."%char rest) = name.
Proof.
  intros Hname Hrest.
  induction name as [|c name IH]; cbn [stripExtension append].
  - rewrite Hrest. reflexivity.
  - cbn [occurs] in Hname. apply orb_false_iff in Hname.
    destruct Hname as [Hc Hname]. rewrite Ascii.eqb_sym in Hc.
    rewrite Hc, (IH Hname). reflexivity.
Qed.

(** The derived table name is made of the characters of the file name
    before its first dot, each one outside [A-Za-z0-9] turned into [_], in
    lower case.  For a file name with a single dot this is the name
    without its extension, as the specification words it. *)
Lemma derivedTableName_first_segment (name rest : string) :
  occurs "."%char name = false ->
  derivedTableName None (name ++ String "."%char rest)
    = toLowerCase (replaceNonAlnum name)
  /\ derivedTableName None name = toLowerCase (replaceNonAlnum name)
  /\ (occurs "."%char rest = false ->
      derivedTableName None (name ++ String "."%char rest)
        = specTableName (name ++ String "."%char rest)).
Proof.
  intros Hname. unfold derivedTableName, getTableNameFromFileName, specTableName.
  rewrite (beforeFirstDot_app name rest Hname), (beforeFirstDot_nodot name Hname).
  repeat split.
  intros Hrest. rewrite (stripExtension_app name rest Hname Hrest). reflexivity.
Qed.

(** C6 (evaluation).  ["My Report.csv"] gives ["my_report"].  On
    ["report.v2.csv"] the code keeps ["report"], where the name without
    its extension is ["report.v2"] and gives ["report_v2"]; two files
    ["report.v1.csv"] and ["report.v2.csv"] get the same table. *)
Theorem C6_two_dots_keep_first_segment :
  derivedTableName None "My Report.csv" = "my_report"
  /\ specTableName "My Report.csv" = "my_report"
  /\ derivedTableName None "report.v2.csv" = "report"
  /\ specTableName "report.v2.csv" = "report_v2"
  /\ derivedTableName None "report.v2.csv" <> specTableName "report.v2.csv"
  /\ derivedTableName None "report.v1.csv" = derivedTableName None "report.v2.csv".
Proof.
  repeat split; try reflexivity. vm_compute. discriminate.
Qed.

(** C10.  Whatever the file name, the derived table name is made of the
    characters [a-z], [0-9] and [_] only; it holds no double quote, no
    single quote and no semicolon. *)
Theorem C10_derived_name_is_safe (fileName : string) :
  allChars isTableNameChar (getTableNameFromFileName fileName) = true
  /\ occurs "034"%char (getTableNameFromFileName fileName) = false
  /\ occurs "'"%char (getTableNameFromFileName fileName) = false
  /\ occurs ";"%char (getTableNameFromFileName fileName) = false.
Proof.
  assert (H : allChars isTableNameChar (getTableNameFromFileName fileName) = true)
    by apply sanitized_string.
  repeat split; [exact H | | | ];
    apply (allChars_occurs isTableNameChar _ _ H); reflexivity.
Qed.

(** ** Statement texts *)

Lemma append_assoc (a b c : string) : (a ++ b) ++ c = a ++ (b ++ c).
Proof.
  induction a as [|x a IH]; cbn [append]; [reflexivity | now rewrite IH].
Qed.

Lemma append_empty_r (a : string) : a ++ "" = a.
Proof.
  induction a as [|x a IH]; cbn [append]; [reflexivity | now rewrite IH].
Qed.

Lemma isInfix_refl (a : string) : isInfix a a.
Proof. exists "", "". cbn [append]. now rewrite append_empty_r. Qed.

Lemma isInfix_app_l (a b p : string) : isInfix a b -> isInfix a (p ++ b).
Proof.
  intros [u [v ->]]. exists (p ++ u), v. now rewrite append_assoc.
Qed.

Lemma isInfix_app_r (a b q : string) : isInfix a b -> isInfix a (b ++ q).
Proof.
  intros [u [v ->]]. exists u, (v ++ q). now rewrite !append_assoc.
Qed.

Create HintDb infix.
#[local] Hint Resolve isInfix_refl isInfix_app_l isInfix_app_r : infix.

Lemma isInfix_join (sep x : string) (parts : list string) :
  In x parts -> isInfix x (join sep parts).
Proof.
  induction parts as [|p rest IH]; intros Hin; [contradiction|].
  destruct rest as [|p' rest'].
  - destruct Hin as [->|[]]. cbn [join]. auto with infix.
  - change (join sep (p :: p' :: rest')) with (p ++ sep ++ join sep (p' :: rest')).
    destruct Hin as [->|Hin]; auto with infix.
Qed.

Lemma In_mapi_from {A B : Type} (f : A -> nat -> B) (x : A) (l : list A) (n : nat) :
  In x l -> exists i, In (f x i) (mapi_from n f l).
Proof.
  revert n. induction l as [|y rest IH]; intros n Hin; [contradiction|].
  destruct Hin as [->|Hin].
  - exists n. now left.
  - destruct (IH (S n) Hin) as [i Hi]. exists i. now right.
Qed.

Lemma isInfix_indexed (sep x : string) (f : string -> nat -> string)
    (cols : list string) :
  In x cols -> (forall i, isInfix (quoted x) (f x i)) ->
  isInfix (quoted x) (join sep (mapi f cols)).
Proof.
  intros Hin Hf. destruct (In_mapi_from f x cols 0 Hin) as [i Hi].
  unfold mapi. destruct (isInfix_join sep _ _ Hi) as [u [v ->]].
  destruct (Hf i) as [u' [v' ->]].
  exists (u ++ u'), (v' ++ v). now rewrite !append_assoc.
Qed.

Lemma isInfix_columnDefinition (col : string) :
  isInfix (quoted col) (columnDefinition col).
Proof.
  unfold columnDefinition. destruct (String.eqb _ _); auto with infix.
Qed.

(** The text of a statement depends on the column names of the row only;
    the values of the row go to the parameter list. *)
Lemma values_not_in_text (tableName : string) (row row' : Record) :
  keys row = keys row' ->
  text (selectByIdQuery tableName row) = text (selectByIdQuery tableName row')
  /\ text (selectByAllQuery tableName row) = text (selectByAllQuery tableName row')
  /\ text (insertQuery tableName row) = text (insertQuery tableName row')
  /\ text (updateQuery tableName row) = text (updateQuery tableName row').
Proof.
  intros H.
  unfold selectByIdQuery, selectByAllQuery, insertQuery, updateQuery,
    whereClause, setClause, columnsToUpdate; cbn [text].
  rewrite H. repeat split.
Qed.

Lemma values_in_parameters (tableName : string) (row : Record) :
  values (selectByAllQuery tableName row) = vals row
  /\ values (insertQuery tableName row) = vals row
  /\ values (selectByIdQuery tableName row) = [get row "id"]
  /\ values (updateQuery tableName row)
     = get row "id" :: map (get row) (columnsToUpdate row).
Proof. repeat split. Qed.

(** C8 (evaluation).  For the row [{name: "x"}] the lookup on all columns
    and the insert are built with the bare numbers [1] where the
    placeholder [$1] is meant, and so is the SET clause of the update of
    [{id: "7", name: "x"}] with [2]; the values are in the parameter
    lists and no [$] stands in the first two texts. *)
Theorem C8_placeholders_lack_dollar :
  selectByAllQuery "t" [("name", Some "x")]
    = mkStatement ("SELECT * FROM " ++ quoted "t" ++ " WHERE "
                     ++ quoted "name" ++ " = 1") [Some "x"]
  /\ insertQuery "t" [("name", Some "x")]
    = mkStatement ("INSERT INTO " ++ quoted "t" ++ " (" ++ quoted "name"
                     ++ ") VALUES (1)") [Some "x"]
  /\ updateQuery "t" [("id", Some "7"); ("name", Some "x")]
    = mkStatement ("UPDATE " ++ quoted "t" ++ " SET " ++ quoted "name"
                     ++ " = 2 WHERE " ++ quoted "id" ++ " = $1")
        [Some "7"; Some "x"]
  /\ selectByIdQuery "t" [("id", Some "7"); ("name", Some "x")]
    = mkStatement ("SELECT * FROM " ++ quoted "t" ++ " WHERE "
                     ++ quoted "id" ++ " = $1") [Some "7"]
  /\ occurs "$"%char (text (selectByAllQuery "t" [("name", Some "x")])) = false
  /\ occurs "$"%char (text (insertQuery "t" [("name", Some "x")])) = false.
Proof. repeat split. Qed.

(** ** Runs of the ingestion loop *)

Section Runs.
Local Open Scope client_scope.

Variable DB : Type.
Variable query : DB -> Statement -> DB * Reply.

Lemma bind_ret {A B : Type} (a : A) (k : A -> M DB B) (db : DB) :
  bind (ret a) k db = k a db.
Proof. unfold bind, ret. destruct (k a db) as [[db1 tr] c]. reflexivity. Qed.

Lemma bind_throw {A B : Type} (e : Error) (k : A -> M DB B) (db : DB) :
  bind (throw e) k db = (db, [], Throw e).
Proof. reflexivity. Qed.

Lemma bind_query {B : Type} (s : Statement)
    (k : list ResultRow -> M DB B) (db : DB) :
  bind (clientQuery query s) k db
  = match query db s with
    | (db1, Rows rows) =>
        match k rows db1 with
        | (db2, tr2, c) => (db2, EvQuery s (Rows rows) :: tr2, c)
        end
    | (db1, Failed e) => (db1, [EvQuery s (Failed e)], Throw e)
    end.
Proof.
  unfold bind, clientQuery. destruct (query db s) as [db1 [rows|e]]; reflexivity.
Qed.

(** The call [row.hasOwnProperty("id")] of a row that has a column named
    [hasOwnProperty] throws, and no statement is sent for the row. *)
Lemma processRow_shadowed (tableName : string) (row : Record)
    (summary : TableSummary) (db : DB) :
  hasOwnPropertyIsMethod row = false ->
  processRow query tableName row summary db
  = (db, [], Throw (typeErrorNotFunction "row.hasOwnProperty")).
Proof.
  intros H. unfold processRow, existsInDb, testUsableId. rewrite H.
  reflexivity.
Qed.

(** The run of the body of the loop on one row, by cases on the row and
    on the replies. *)
Lemma processRow_run (tableName : string) (row : Record)
    (summary : TableSummary) (db : DB) :
  processRow query tableName row summary db
  = if hasOwnPropertyIsMethod row then
      let lookup := if hasUsableId row then selectByIdQuery tableName row
                    else selectByAllQuery tableName row in
      match query db lookup with
      | (db1, Failed e) => (db1, [EvQuery lookup (Failed e)], Throw e)
      | (db1, Rows rows) =>
          if (0 <? length rows)%nat then
            if hasUsableId row then
              if (0 <? length (columnsToUpdate row))%nat then
                match query db1 (updateQuery tableName row) with
                | (db2, Rows res) =>
                    (db2, [EvQuery lookup (Rows rows);
                           EvQuery (updateQuery tableName row) (Rows res)],
                     Normal (addUpdated summary))
                | (db2, Failed e) =>
                    (db2, [EvQuery lookup (Rows rows);
                           EvQuery (updateQuery tableName row) (Failed e)],
                     Throw e)
                end
              else (db1, [EvQuery lookup (Rows rows)], Normal summary)
            else (db1, [EvQuery lookup (Rows rows)], Normal (addSkipped summary))
          else
            match query db1 (insertQuery tableName row) with
            | (db2, Rows res) =>
                (db2, [EvQuery lookup (Rows rows);
                       EvQuery (insertQuery tableName row) (Rows res)],
                 Normal (addCreated summary))
            | (db2, Failed e) =>
                (db2, [EvQuery lookup (Rows rows);
                       EvQuery (insertQuery tableName row) (Failed e)],
                 Throw e)
            end
      end
    else (db, [], Throw (typeErrorNotFunction "row.hasOwnProperty")).
Proof.
  unfold processRow, existsInDb, applyRow, testUsableId.
  destruct (hasOwnPropertyIsMethod row); [|reflexivity].
  unfold bind at 1. rewrite bind_ret. cbv zeta.
  destruct (hasUsableId row); rewrite bind_query;
    match goal with
    | |- context [query db ?s] => destruct (query db s) as [db1 [rows|e]]
    end; try reflexivity;
    cbn [ret]; destruct (0 <? length rows)%nat;
    rewrite ?bind_ret; try destruct (0 <? length (columnsToUpdate row))%nat;
    try reflexivity;
    rewrite bind_query;
    match goal with
    | |- context [query ?d ?s] => destruct (query d s) as [db2 [res|e]]
    end; reflexivity.
Qed.

(** A row without a usable identifier: the lookup on all columns, then
    the insert when no row comes back. *)
Lemma processRow_without_id (tableName : string) (row : Record)
    (summary : TableSummary) (db : DB) :
  hasOwnPropertyIsMethod row = true ->
  hasUsableId row = false ->
  let lookup := selectByAllQuery tableName row in
  let insert := insertQuery tableName row in
  processRow query tableName row summary db
  = match query db lookup with
    | (db1, Failed e) => (db1, [EvQuery lookup (Failed e)], Throw e)
    | (db1, Rows (hit :: hits)) =>
        (db1, [EvQuery lookup (Rows (hit :: hits))],
         Normal (addSkipped summary))
    | (db1, Rows []) =>
        match query db1 insert with
        | (db2, Rows res) =>
            (db2, [EvQuery lookup (Rows []); EvQuery insert (Rows res)],
             Normal (addCreated summary))
        | (db2, Failed e) =>
            (db2, [EvQuery lookup (Rows []); EvQuery insert (Failed e)],
             Throw e)
        end
    end.
Proof.
  intros Hm Hid. cbv zeta.
  unfold processRow, existsInDb, applyRow, testUsableId. rewrite Hm, Hid.
  unfold bind at 1. rewrite bind_ret, bind_query.
  destruct (query db (selectByAllQuery tableName row)) as [db1 [rows|e]];
    [|reflexivity].
  destruct rows as [|hit hits]; cbn [ret length Nat.ltb Nat.leb].
  - rewrite bind_query.
    destruct (query db1 (insertQuery tableName row)) as [db2 [res|e]];
      reflexivity.
  - reflexivity.
Qed.

Lemma processRows_cons (tableName : string) (row : Record)
    (rest : list Record) (summary : TableSummary) (db : DB) :
  processRows query tableName (row :: rest) summary db
  = match processRow query tableName row summary db with
    | (db1, tr1, Normal summary1) =>
        match processRows query tableName rest summary1 db1 with
        | (db2, tr2, c) => (db2, (tr1 ++ tr2)%list, c)
        end
    | (db1, tr1, Throw e) => (db1, tr1, Throw e)
    end.
Proof. reflexivity. Qed.

Lemma processRows_app (tableName : string) (before after : list Record) :
  forall (summary : TableSummary) (db : DB),
    processRows query tableName (before ++ after) summary db
    = match processRows query tableName before summary db with
      | (db1, tr1, Normal summary1) =>
          match processRows query tableName after summary1 db1 with
          | (db2, tr2, c) => (db2, (tr1 ++ tr2)%list, c)
          end
      | (db1, tr1, Throw e) => (db1, tr1, Throw e)
      end.
Proof.
  induction before as [|row rest IH]; intros summary db.
  - cbn [app processRows ret].
    destruct (processRows query tableName after summary db) as [[db2 tr2] c].
    reflexivity.
  - cbn [app]. rewrite !processRows_cons.
    destruct (processRow query tableName row summary db) as [[db1 tr1] [s1|e]];
      [|reflexivity].
    rewrite IH.
    destruct (processRows query tableName rest s1 db1) as [[db2 tr2] [s2|e]];
      [|reflexivity].
    destruct (processRows query tableName after s2 db2) as [[db3 tr3] c].
    now rewrite app_assoc.
Qed.

(** C9 (amended).  A row with no column is not set apart in the loop.
    Wherever it stands in the batch, once the rows before it are done
    the lookup on all columns is built for it with an empty condition
    and no parameter, and is sent.  What follows is decided by the
    reply: a rejection is thrown and ends the loop; a row that comes
    back makes the record skipped; no row makes it inserted, with an
    empty list of columns, and created. *)
Theorem C9_empty_row_is_looked_up (tableName : string)
    (before after : list Record) (summary summary1 : TableSummary)
    (db db1 : DB) (tr1 : list Event) :
  processRows query tableName before summary db = (db1, tr1, Normal summary1) ->
  let lookup :=
    mkStatement ("SELECT * FROM " ++ quoted tableName ++ " WHERE ") [] in
  let insert :=
    mkStatement ("INSERT INTO " ++ quoted tableName ++ " () VALUES ()") [] in
  processRows query tableName (before ++ [] :: after) summary db
  = match query db1 lookup with
    | (db2, Failed e) => (db2, (tr1 ++ [EvQuery lookup (Failed e)])%list, Throw e)
    | (db2, Rows (hit :: hits)) =>
        let '(db3, tr3, c) :=
          processRows query tableName after (addSkipped summary1) db2 in
        (db3, (tr1 ++ EvQuery lookup (Rows (hit :: hits)) :: tr3)%list, c)
    | (db2, Rows []) =>
        match query db2 insert with
        | (db3, Failed e) =>
            (db3,
             (tr1 ++ [EvQuery lookup (Rows []); EvQuery insert (Failed e)])%list,
             Throw e)
        | (db3, Rows res) =>
            let '(db4, tr4, c) :=
              processRows query tableName after (addCreated summary1) db3 in
            (db4,
             (tr1 ++ EvQuery lookup (Rows []) :: EvQuery insert (Rows res) :: tr4)%list,
             c)
        end
    end.
Proof.
  intros Hbefore. cbv zeta. rewrite processRows_app, Hbefore, processRows_cons.
  rewrite (processRow_without_id tableName [] summary1 db1 eq_refl eq_refl).
  cbv zeta.
  change (selectByAllQuery tableName [])
    with (mkStatement ("SELECT * FROM " ++ quoted tableName ++ " WHERE ") []).
  change (insertQuery tableName [])
    with (mkStatement ("INSERT INTO " ++ quoted tableName ++ " () VALUES ()") []).
  destruct (query db1 _) as [db2 [[|hit hits]|e]]; [| |reflexivity].
  - destruct (query db2 _) as [db3 [res|e]]; [|reflexivity].
    destruct (processRows query tableName after (addCreated summary1) db3)
      as [[db4 tr4] c].
    reflexivity.
  - destruct (processRows query tableName after (addSkipped summary1) db2)
      as [[db3 tr3] c].
    reflexivity.
Qed.

End Runs.

(** ** The read-only query tool *)

Section Guard.

Variable DB : Type.
Variable query : DB -> Statement -> DB * Reply.
Variable stringify : list ResultRow -> string.

Ltac unfold_guard :=
  unfold callTool_query_v1, callTool_query_v2, tryFinally, tryCatch, bind,
    clientQuery, issue, release, warn, ret, throw, trace, completion,
    finalState.

(** The shape of a run of both variants on a statement that is not
    empty: the calls of the [try] block, the rollback, then the release
    (and the warning when the rollback failed). *)
Lemma guard_runs (sql : string) (db : DB) :
  sql <> "" ->
  let '(db3, r0, r1, r2) := guardReplies query sql db in
  callTool_query_v1 query stringify sql db
  = (db3,
     (guardedCalls sql r0 r1 ++ EvQuery rollbackStatement r2
        :: afterRollback_v1 r2)%list,
     statementResult_v1 stringify r1)
  /\ callTool_query_v2 query stringify sql db
     = (db3,
        (guardedCalls sql r0 r1 ++ EvQuery rollbackStatement r2
           :: afterRollback_v2 r2)%list,
        statementResult_v2 stringify r1).
Proof.
  intros Hsql. apply String.eqb_neq in Hsql.
  unfold guardReplies. unfold_guard. rewrite Hsql.
  destruct (query db beginReadOnlyStatement) as [db1 [rows0|e0]] eqn:H0;
    cbn [isFailed].
  - destruct (query db1 (mkStatement sql [])) as [db2 [rows1|e1]] eqn:H1;
      destruct (query db2 rollbackStatement) as [db3 [rows2|e2]] eqn:H2;
      cbn; rewrite ?H2; split; reflexivity.
  - destruct (query db1 rollbackStatement) as [db3 [rows2|e2]] eqn:H2;
      cbn; rewrite ?H2; split; reflexivity.
Qed.

(** C4 (amended).  The second variant of the tool never throws: it returns
    a result, and when the statement fails the result carries the text of
    the error with [isError] set.  The first variant throws the error of
    the failed statement to its caller, after the rollback and the
    release. *)
Theorem C4_failed_statement_by_variant (sql : string) (db db1 db2 : DB)
    (rows : list ResultRow) (e : Error) :
  sql <> "" ->
  query db beginReadOnlyStatement = (db1, Rows rows) ->
  query db1 (mkStatement sql []) = (db2, Failed e) ->
  completion (callTool_query_v2 query stringify sql db)
    = Normal (mkToolResult ("Error executing SQL query: " ++ e) true)
  /\ completion (callTool_query_v1 query stringify sql db) = Throw e
  /\ (forall sql' db', exists result,
        completion (callTool_query_v2 query stringify sql' db') = Normal result).
Proof.
  intros Hsql H0 H1.
  assert (Hrun := guard_runs sql db Hsql). unfold guardReplies in Hrun.
  rewrite H0 in Hrun. cbn [isFailed] in Hrun. rewrite H1 in Hrun.
  destruct (query db2 rollbackStatement) as [db3 r2].
  destruct Hrun as [R1 R2]. rewrite R1, R2.
  repeat split.
  intros sql' db'. destruct (String.eqb_spec sql' "") as [->|Hsql'].
  - eexists. reflexivity.
  - assert (Hrun' := guard_runs sql' db' Hsql').
    destruct (guardReplies query sql' db') as [[[db3' r0'] r1'] r2'].
    destruct Hrun' as [_ R2']. rewrite R2'.
    destruct r1'; eexists; reflexivity.
Qed.

End Guard.

(** ** All or nothing *)

Section Atomicity.

Variable DB : Type.
Variable query : DB -> Statement -> DB * Reply.
Variable parse : string -> Error + list Record.

Lemma clean_ret {A : Type} (ok : Event -> Prop) (a : A) (db : DB) :
  clean ok (ret a db).
Proof. constructor. Qed.

Lemma clean_throw {A : Type} (ok : Event -> Prop) (e : Error) (db : DB) :
  clean ok (@throw DB A e db).
Proof. exists []. split; [constructor | now left]. Qed.

Lemma clean_clientQuery (ok : Event -> Prop) (s : Statement) (db : DB) :
  (forall ev, succeeded ev -> ok ev) ->
  clean ok (clientQuery query s db).
Proof.
  intros Hok. unfold clean, clientQuery, completion, trace.
  destruct (query db s) as [db1 [rows|e]]; cbn [fst snd].
  - constructor; [apply Hok; exact I | constructor].
  - exists []. split; [constructor | right; now exists s].
Qed.

Lemma clean_bind {A B : Type} (ok : Event -> Prop) (m : M DB A)
    (k : A -> M DB B) (db : DB) :
  clean ok (m db) -> (forall a db1, clean ok (k a db1)) ->
  clean ok (bind m k db).
Proof.
  unfold clean, bind, completion, trace. intros Hm Hk.
  destruct (m db) as [[db1 tr1] [a|e]]; cbn [fst snd] in *.
  - specialize (Hk a db1).
    destruct (k a db1) as [[db2 tr2] [b|e]]; cbn [fst snd] in *.
    + apply Forall_app. now split.
    + destruct Hk as [pre [Hpre Htr]]. exists (tr1 ++ pre)%list. split.
      * apply Forall_app. now split.
      * destruct Htr as [->|[s ->]]; [now left | right; exists s].
        now rewrite app_assoc.
  - exact Hm.
Qed.

Lemma clean_weaken {A : Type} (ok ok' : Event -> Prop)
    (run : DB * list Event * Completion A) :
  (forall ev, ok ev -> ok' ev) -> clean ok run -> clean ok' run.
Proof.
  unfold clean. intros Hsub. destruct (completion run) as [a|e].
  - apply Forall_impl, Hsub.
  - intros [pre [Hpre Htr]]. exists pre. split; [|exact Htr].
    revert Hpre. apply Forall_impl, Hsub.
Qed.

Lemma succeeded_or_probe (tableName : string) (ev : Event) :
  succeeded ev -> succeededOrProbe tableName ev.
Proof. destruct ev as [s [rows|e]| |e']; cbn; tauto. Qed.

Lemma clean_tableExists (tableName : string) (db : DB) :
  clean (succeededOrProbe tableName) (tableExists query tableName db).
Proof.
  unfold clean, tableExists, tryCatch, bind, clientQuery, ret, completion, trace.
  destruct (query db (testQuery tableName)) as [db1 [rows|e]]; cbn.
  - repeat constructor.
  - repeat constructor.
Qed.

Lemma clean_testUsableId (ok : Event -> Prop) (row : Record) (db : DB) :
  clean ok (@testUsableId DB row db).
Proof.
  unfold testUsableId.
  destruct (hasOwnPropertyIsMethod row); [apply clean_ret | apply clean_throw].
Qed.

Lemma clean_processRow (tableName : string) (row : Record)
    (summary : TableSummary) (db : DB) :
  clean succeeded (processRow query tableName row summary db).
Proof.
  unfold processRow, existsInDb, applyRow.
  apply clean_bind.
  - apply clean_bind; [apply clean_testUsableId | intros usable db1].
    destruct usable; apply clean_bind;
      try (apply clean_clientQuery; auto); intros; apply clean_ret.
  - intros found db1. destruct found.
    + apply clean_bind; [apply clean_testUsableId | intros usable db2].
      destruct usable; [destruct (0 <? _)%nat|]; try apply clean_ret.
      apply clean_bind;
        [apply clean_clientQuery; auto | intros; apply clean_ret].
    + apply clean_bind;
        [apply clean_clientQuery; auto | intros; apply clean_ret].
Qed.

Lemma clean_processRows (tableName : string) (records : list Record) :
  forall (summary : TableSummary) (db : DB),
    clean succeeded (processRows query tableName records summary db).
Proof.
  induction records as [|row rest IH]; intros summary db.
  - apply clean_ret.
  - cbn [processRows]. apply clean_bind.
    + apply clean_processRow.
    + intros summary1 db1. apply IH.
Qed.

Lemma clean_processCsvBody (csvString tableName : string) (db : DB) :
  clean (succeededOrProbe tableName)
        (processCsvBody query parse csvString tableName db).
Proof.
  unfold processCsvBody.
  destruct (parse csvString) as [e|[|first rest]].
  - apply clean_throw.
  - apply clean_ret.
  - apply clean_bind;
      [apply clean_clientQuery, succeeded_or_probe | intros _ db1].
    apply clean_bind; [apply clean_tableExists | intros present db2].
    apply clean_bind.
    { destruct present;
        [apply clean_ret | apply clean_clientQuery, succeeded_or_probe]. }
    intros _ db3. apply clean_bind.
    { apply (clean_weaken succeeded);
        [apply succeeded_or_probe | apply clean_processRows]. }
    intros summary db4.
    apply clean_bind;
      [apply clean_clientQuery, succeeded_or_probe | intros; apply clean_ret].
Qed.

(** What the [catch] and [finally] blocks add to a run of the [try] block
    (lines 950-955). *)
Lemma processCsvUpload_unfold (csvString tableName : string) (db : DB) :
  processCsvUpload query parse csvString tableName db
  = match processCsvBody query parse csvString tableName db with
    | (db1, tr1, Normal result) => (db1, (tr1 ++ [EvRelease])%list, Normal result)
    | (db1, tr1, Throw e) =>
        let (db2, r) := query db1 rollbackStatement in
        (db2, (tr1 ++ [EvQuery rollbackStatement r; EvRelease])%list,
         Throw (match r with Failed e' => e' | Rows _ => e end))
    end.
Proof.
  unfold processCsvUpload, tryFinally, tryCatch, bind, clientQuery, release, throw.
  destruct (processCsvBody query parse csvString tableName db)
    as [[db1 tr1] [result|e]]; [reflexivity|].
  destruct (query db1 rollbackStatement) as [db2 [rows|e']]; cbn;
    rewrite <- ?app_assoc; reflexivity.
Qed.

Lemma failed_position (pre0 tail pre post : list Event) (x0 x : Event) :
  (pre0 ++ x0 :: tail = pre ++ x :: post)%list ->
  ~ In x pre0 -> ~ In x tail ->
  pre = pre0 /\ x = x0 /\ post = tail.
Proof.
  revert pre. induction pre0 as [|a pre0 IH]; intros pre Heq Hpre Htail.
  - destruct pre as [|y pre]; cbn in Heq; inversion Heq; subst.
    + auto.
    + exfalso. apply Htail. apply in_or_app. right. now left.
  - destruct pre as [|y pre]; cbn in Heq; inversion Heq; subst.
    + exfalso. apply Hpre. now left.
    + destruct (IH pre H1) as [-> [-> ->]]; auto.
      intros Hin. apply Hpre. now right.
Qed.

(** C5.  When a statement of the ingestion other than the probe of the
    table fails (the opening, the creation of the table, a lookup, an
    insert, an update, the commit), the only calls that follow it are the
    rollback and the release: no statement of a later row is sent; the
    call throws, so no summary is returned; and nothing had failed before
    except, possibly, the probe. *)
Theorem C5_failure_rolls_back_and_throws (csvString tableName : string)
    (db : DB) (pre post : list Event) (s : Statement) (e : Error) :
  trace (processCsvUpload query parse csvString tableName db)
    = (pre ++ EvQuery s (Failed e) :: post)%list ->
  s <> testQuery tableName ->
  s <> rollbackStatement ->
  exists r : Reply,
    post = [EvQuery rollbackStatement r; EvRelease]
    /\ completion (processCsvUpload query parse csvString tableName db)
       = Throw (match r with Failed e' => e' | Rows _ => e end)
    /\ Forall (succeededOrProbe tableName) pre.
Proof.
  intros Htr Hprobe Hrollback.
  rewrite processCsvUpload_unfold in *.
  assert (Hclean := clean_processCsvBody csvString tableName db).
  assert (Hnot : forall l, Forall (succeededOrProbe tableName) l ->
                           ~ In (EvQuery s (Failed e)) l).
  { intros l Hl Hin. rewrite Forall_forall in Hl.
    apply Hprobe. exact (Hl _ Hin). }
  unfold clean, completion, trace in *.
  destruct (processCsvBody query parse csvString tableName db)
    as [[db1 tr1] [result|e0]]; cbn [fst snd] in *.
  - exfalso.
    assert (Hin : In (EvQuery s (Failed e)) (tr1 ++ [EvRelease])%list)
      by (rewrite Htr; apply in_or_app; right; now left).
    apply in_app_or in Hin. destruct Hin as [Hin|[Hin|[]]].
    + exact (Hnot _ Hclean Hin).
    + discriminate Hin.
  - destruct (query db1 rollbackStatement) as [db2 r]. cbn [fst snd] in *.
    assert (Htail : ~ In (EvQuery s (Failed e))
                      [EvQuery rollbackStatement r; EvRelease]).
    { intros [Hin|[Hin|[]]]; [|discriminate Hin].
      inversion Hin. apply Hrollback. congruence. }
    destruct Hclean as [pre0 [Hpre0 [->|[s0 ->]]]].
    + exfalso.
      assert (Hin : In (EvQuery s (Failed e))
                       (pre0 ++ [EvQuery rollbackStatement r; EvRelease])%list)
        by (rewrite Htr; apply in_or_app; right; now left).
      apply in_app_or in Hin. destruct Hin as [Hin|Hin].
      * exact (Hnot _ Hpre0 Hin).
      * exact (Htail Hin).
    + rewrite <- app_assoc in Htr. cbn [app] in Htr.
      destruct (failed_position _ _ _ _ _ _ Htr (Hnot _ Hpre0) Htail)
        as [-> [Hx ->]].
      inversion Hx; subst. exists r. repeat split. exact Hpre0.
Qed.

End Atomicity.

(** ** The summary *)

Section Accounting.

Variable DB : Type.
Variable query : DB -> Statement -> DB * Reply.
Variable parse : string -> Error + list Record.

Lemma bind_normal {A B : Type} (m : M DB A) (k : A -> M DB B) (db : DB) (b : B) :
  completion (bind m k db) = Normal b ->
  exists db1 tr1 a,
    m db = (db1, tr1, Normal a) /\ completion (k a db1) = Normal b.
Proof.
  unfold bind, completion.
  destruct (m db) as [[db1 tr1] [a|e]]; cbn [snd]; [|discriminate].
  intros H. exists db1, tr1, a. split; [reflexivity|].
  destruct (k a db1) as [[db2 tr2] c]. exact H.
Qed.

Lemma trace_bind {A B : Type} (m : M DB A) (k : A -> M DB B) (db : DB) :
  trace (bind m k db)
  = (trace (m db)
       ++ match completion (m db) with
          | Normal a => trace (k a (finalState (m db)))
          | Throw _ => []
          end)%list.
Proof.
  unfold bind, trace, completion, finalState.
  destruct (m db) as [[db1 tr1] [a|e]]; cbn [fst snd].
  - destruct (k a db1) as [[db2 tr2] c]. reflexivity.
  - now rewrite app_nil_r.
Qed.

(** A row that is not reduced to its identifier adds one to the summary. *)
Lemma processRow_total (tableName : string) (row : Record)
    (summary summary1 : TableSummary) (db : DB) :
  idOnly row = false ->
  completion (processRow query tableName row summary db) = Normal summary1 ->
  total summary1 = total summary + 1.
Proof.
  rewrite processRow_run. unfold idOnly, completion, total.
  destruct (hasOwnPropertyIsMethod row); [|discriminate].
  cbv zeta. destruct (hasUsableId row); cbn [andb]; intros Hid;
    match goal with
    | |- context [query db ?s] => destruct (query db s) as [db1 [rows|e]]
    end; try discriminate;
    destruct (0 <? length rows)%nat;
    try (destruct (Nat.ltb_spec 0 (length (columnsToUpdate row))) as [_|Hle];
         [|apply Nat.eqb_neq in Hid; lia]);
    try match goal with
        | |- context [query ?d ?s] => destruct (query d s) as [db2 [res|e]]
        end;
    cbn; intros H; inversion H; cbn; lia.
Qed.

(** A row reduced to its identifier that the lookup finds changes no
    counter and sends no other statement (lines 919-932). *)
Lemma processRow_id_only_found (tableName : string) (row : Record)
    (summary : TableSummary) (db db1 : DB) (hit : ResultRow)
    (hits : list ResultRow) :
  hasOwnPropertyIsMethod row = true ->
  idOnly row = true ->
  query db (selectByIdQuery tableName row) = (db1, Rows (hit :: hits)) ->
  processRow query tableName row summary db
  = (db1, [EvQuery (selectByIdQuery tableName row) (Rows (hit :: hits))],
     Normal summary).
Proof.
  unfold idOnly. intros Hm Hid Hsel. apply andb_true_iff in Hid.
  destruct Hid as [Hid Hcols]. apply Nat.eqb_eq in Hcols.
  rewrite processRow_run, Hm, Hid. cbv zeta. rewrite Hsel, Hcols. reflexivity.
Qed.

Lemma processRows_total (tableName : string) (records : list Record) :
  forall (summary summary1 : TableSummary) (db : DB),
    Forall (fun row => idOnly row = false) records ->
    completion (processRows query tableName records summary db)
      = Normal summary1 ->
    total summary1 = total summary + length records.
Proof.
  induction records as [|row rest IH]; intros summary summary1 db Hall Hrun.
  - cbn in Hrun. inversion Hrun. cbn. lia.
  - inversion Hall as [|? ? Hrow Hrest]; subst.
    cbn [processRows] in Hrun.
    destruct (bind_normal _ _ _ _ Hrun) as [db1 [tr1 [s1 [Hfirst Hnext]]]].
    assert (H1 : total s1 = total summary + 1).
    { apply (processRow_total tableName row summary s1 db Hrow).
      now rewrite Hfirst. }
    rewrite (IH _ _ _ Hrest Hnext), H1. cbn [length]. lia.
Qed.

Lemma summaryObject_entries (tableName name : string)
    (counters summary : TableSummary) :
  In (name, summary) (summaryObject tableName counters) ->
  name = tableName /\ summary = counters.
Proof.
  unfold summaryObject. destruct (String.eqb tableName "__proto__");
    [contradiction|].
  intros [H|[]]. inversion H. now split.
Qed.

Lemma summaryObject_named (tableName : string) (counters : TableSummary) :
  tableName <> "__proto__" ->
  summaryObject tableName counters = [(tableName, counters)].
Proof.
  intros H. apply String.eqb_neq in H. unfold summaryObject. now rewrite H.
Qed.

(** The accounting of the summary: when no row of the batch is reduced to
    its identifier and the call returns, the three counters of the table
    add up to the number of rows.  The object returned holds them under
    the name of the table, unless that name is [__proto__]. *)
Lemma summary_accounting (csvString tableName : string)
    (records : list Record) (db : DB)
    (result : list (string * TableSummary)) :
  parse csvString = inr records ->
  Forall (fun row => idOnly row = false) records ->
  completion (processCsvUpload query parse csvString tableName db)
    = Normal result ->
  (forall name summary, In (name, summary) result ->
     name = tableName /\ total summary = length records)
  /\ (tableName <> "__proto__" -> exists summary, result = [(tableName, summary)]).
Proof.
  intros Hparse Hall. rewrite processCsvUpload_unfold.
  destruct (processCsvBody query parse csvString tableName db)
    as [[db1 tr1] [res|e]] eqn:Hbody.
  - cbn. intros H; inversion H; subst result.
    assert (Hc : completion (processCsvBody query parse csvString tableName db)
                 = Normal res) by now rewrite Hbody.
    clear Hbody H. unfold processCsvBody in Hc. rewrite Hparse in Hc.
    destruct records as [|first rest].
    + inversion Hc. split.
      * intros name summary [Heq|[]]. inversion Heq. now split.
      * intros _. now exists zeroSummary.
    + destruct (bind_normal _ _ _ _ Hc) as [d1 [t1 [a1 [_ Hc1]]]].
      destruct (bind_normal _ _ _ _ Hc1) as [d2 [t2 [a2 [_ Hc2]]]].
      destruct (bind_normal _ _ _ _ Hc2) as [d3 [t3 [a3 [_ Hc3]]]].
      destruct (bind_normal _ _ _ _ Hc3) as [d4 [t4 [summary [Hrows Hc4]]]].
      destruct (bind_normal _ _ _ _ Hc4) as [d5 [t5 [a5 [_ Hc5]]]].
      inversion Hc5.
      assert (Htotal : total summary = length (first :: rest)).
      { apply (processRows_total tableName _ zeroSummary summary d3 Hall).
        now rewrite Hrows. }
      split.
      * intros name summary' Hin.
        destruct (summaryObject_entries _ _ _ _ Hin) as [-> ->].
        now split.
      * intros Hname. exists summary. now apply summaryObject_named.
  - destruct (query db1 rollbackStatement) as [db2 r]. discriminate.
Qed.

Lemma clientQuery_run (s : Statement) (db : DB) :
  clientQuery query s db
  = (fst (query db s), [EvQuery s (snd (query db s))],
     match snd (query db s) with
     | Rows rows => Normal rows
     | Failed e => Throw e
     end).
Proof. unfold clientQuery. now destruct (query db s). Qed.

Lemma tableExists_trace (tableName : string) (db : DB) :
  exists r, trace (tableExists query tableName db)
            = [EvQuery (testQuery tableName) r].
Proof.
  unfold tableExists, tryCatch, bind, clientQuery, ret, trace.
  destruct (query db (testQuery tableName)) as [db1 [rows|e]];
    eexists; reflexivity.
Qed.

(** The ingestion starts with the opening of the transaction and, when
    that succeeds, goes on with the probe of the table under the name it
    was given. *)
Lemma processCsvUpload_starts (csvString tableName : string)
    (first : Record) (rest : list Record) (db : DB) :
  parse csvString = inr (first :: rest) ->
  exists r0 tr,
    trace (processCsvUpload query parse csvString tableName db)
      = EvQuery beginStatement r0 :: tr
    /\ (isFailed r0 = false ->
        exists r1 tr', tr = EvQuery (testQuery tableName) r1 :: tr').
Proof.
  intros Hparse.
  assert (Hbody : exists r0 tr,
            trace (processCsvBody query parse csvString tableName db)
              = EvQuery beginStatement r0 :: tr
            /\ (isFailed r0 = false ->
                exists r1 tr', tr = EvQuery (testQuery tableName) r1 :: tr')).
  { unfold processCsvBody. rewrite Hparse, trace_bind, clientQuery_run.
    cbn [trace completion finalState fst snd].
    destruct (query db beginStatement) as [db1 [rows|e]];
      cbn [fst snd app isFailed].
    - eexists _, _. split; [reflexivity|]. intros _.
      rewrite trace_bind.
      destruct (tableExists_trace tableName db1) as [r1 ->].
      eexists _, _. reflexivity.
    - eexists _, _. split; [reflexivity|]. discriminate. }
  destruct Hbody as [r0 [tr [Htr Hnext]]].
  rewrite processCsvUpload_unfold.
  destruct (processCsvBody query parse csvString tableName db)
    as [[db1 tr1] [res|e]]; cbn [trace fst snd] in Htr; subst tr1.
  - exists r0, (tr ++ [EvRelease])%list. split; [reflexivity|].
    intros Hok. destruct (Hnext Hok) as [r1 [tr' ->]].
    eexists _, _. reflexivity.
  - destruct (query db1 rollbackStatement) as [db2 r].
    exists r0, (tr ++ [EvQuery rollbackStatement r; EvRelease])%list.
    split; [reflexivity|].
    intros Hok. destruct (Hnext Hok) as [r1 [tr' ->]].
    eexists _, _. reflexivity.
Qed.

(** C7 (amended).  Every table name and column name of the ingestion
    stands between double quotes in the text of the statements built with
    it, and no name is rejected: whatever its characters, the double
    quote among them, the name of the caller is passed on as it is and
    the ingestion opens the transaction and probes the table under that
    name. *)
Theorem C7_names_are_quoted_never_rejected (tableName col : string)
    (row : Record) :
  In col (keys row) ->
  (isInfix (quoted tableName) (text (testQuery tableName))
   /\ isInfix (quoted tableName) (text (createTableSQL tableName row))
   /\ isInfix (quoted tableName) (text (selectByIdQuery tableName row))
   /\ isInfix (quoted tableName) (text (selectByAllQuery tableName row))
   /\ isInfix (quoted tableName) (text (insertQuery tableName row))
   /\ isInfix (quoted tableName) (text (updateQuery tableName row)))
  /\ (isInfix (quoted col) (text (createTableSQL tableName row))
      /\ isInfix (quoted col) (text (selectByAllQuery tableName row))
      /\ isInfix (quoted col) (text (insertQuery tableName row))
      /\ (col <> "id" -> isInfix (quoted col) (text (updateQuery tableName row))))
  /\ (forall fileName, tableName <> "" ->
        derivedTableName (Some tableName) fileName = tableName)
  /\ (forall csvString rest db,
        parse csvString = inr (row :: rest) ->
        exists r0 tr,
          trace (processCsvUpload query parse csvString tableName db)
            = EvQuery beginStatement r0 :: tr
          /\ (isFailed r0 = false ->
              exists r1 tr', tr = EvQuery (testQuery tableName) r1 :: tr')).
Proof.
  intros Hcol.
  unfold testQuery, createTableSQL, selectByIdQuery, selectByAllQuery,
    insertQuery, updateQuery, whereClause, setClause; cbn [text].
  split; [repeat split; auto 6 with infix|].
  split; [repeat split|split].
  - apply isInfix_app_l, isInfix_app_l, isInfix_app_l, isInfix_app_r.
    apply in_map with (f := columnDefinition) in Hcol.
    destruct (isInfix_join ", " _ _ Hcol) as [u [v ->]].
    destruct (isInfix_columnDefinition col) as [u' [v' ->]].
    exists (u ++ u'), (v' ++ v). now rewrite !append_assoc.
  - apply isInfix_app_l, isInfix_app_l, isInfix_app_l.
    apply isInfix_indexed; [exact Hcol | intros i; auto with infix].
  - apply isInfix_app_l, isInfix_app_l, isInfix_app_l, isInfix_app_r.
    apply isInfix_join, in_map, Hcol.
  - intros Hid.
    apply isInfix_app_l, isInfix_app_l, isInfix_app_l, isInfix_app_r.
    apply isInfix_indexed; [|intros i; auto with infix].
    unfold columnsToUpdate. apply filter_In. split; [exact Hcol|].
    apply negb_true_iff, String.eqb_neq, Hid.
  - intros fileName Hne. unfold derivedTableName.
    apply String.eqb_neq in Hne. now rewrite Hne.
  - intros csvString rest db Hparse.
    exact (processCsvUpload_starts csvString tableName row rest db Hparse).
Qed.

End Accounting.

(** ** The code run on the small store *)

(** C1 (evaluation).  The table holds the row with identifier ["5"] and
    the batch is the one row [{id: "5"}]: the call returns, and the three
    counters are zero for a batch of one row. *)
Theorem C1_id_only_row_is_not_counted :
  let records : list Record := [[("id", Some "5")]] in
  let run := processCsvUpload Store.query (Store.parsed records) "id" "t"
               (Store.holding [Some "5"]) in
  completion run = Normal [("t", mkSummary 0 0 0)]
  /\ length records = 1
  /\ trace run
     = [EvQuery beginStatement (Rows []);
        EvQuery (testQuery "t") (Rows [[("?column?", Some "1")]]);
        EvQuery (selectByIdQuery "t" [("id", Some "5")])
                (Rows [[("?column?", Some "5")]]);
        EvQuery commitStatement (Rows []);
        EvRelease].
Proof. repeat split. Qed.

(** C4 (as stated) fails on the first variant: the error of the rejected
    statement is thrown, no result is returned. *)
Lemma C4_counterexample_first_variant_throws :
  completion (callTool_query_v1 Store.query Store.stringify "DELETE FROM t"
                (Store.holding [Some "5"]))
  = Throw "error: cannot execute DELETE in a read-only transaction".
Proof. reflexivity. Qed.

Lemma C4_failed_statement_by_variant_witness :
  let st := Store.holding [Some "5"] in
  let st1 := Store.mkState [[Some "5"]] (Some [[Some "5"]]) true in
  let e := "error: cannot execute DELETE in a read-only transaction" in
  "DELETE FROM t" <> ""
  /\ Store.query st beginReadOnlyStatement = (st1, Rows [])
  /\ Store.query st1 (mkStatement "DELETE FROM t" []) = (st1, Failed e)
  /\ completion (callTool_query_v2 Store.query Store.stringify "DELETE FROM t" st)
     = Normal (mkToolResult ("Error executing SQL query: " ++ e) true).
Proof.
  cbv zeta. split; [discriminate|]. do 2 (split; [reflexivity|]).
  refine (proj1 (C4_failed_statement_by_variant
                   Store.State Store.query Store.stringify "DELETE FROM t"
                   (Store.holding [Some "5"])
                   (Store.mkState [[Some "5"]] (Some [[Some "5"]]) true)
                   (Store.mkState [[Some "5"]] (Some [[Some "5"]]) true)
                   [] "error: cannot execute DELETE in a read-only transaction"
                   _ eq_refl eq_refl)).
  discriminate.
Defined.

Lemma C5_failure_rolls_back_and_throws_witness :
  let good : Record := [("name", Some "x")] in
  let bad : Record := [("name", None)] in
  let run := processCsvUpload Store.query (Store.parsed [good; bad; good]) ""
               "t" Store.empty in
  let e := "error: null value violates not-null constraint" in
  trace run
  = ([EvQuery beginStatement (Rows []);
      EvQuery (testQuery "t") (Rows [[("?column?", Some "1")]]);
      EvQuery (selectByAllQuery "t" good) (Rows []);
      EvQuery (insertQuery "t" good) (Rows []);
      EvQuery (selectByAllQuery "t" bad) (Rows [])]
       ++ EvQuery (insertQuery "t" bad) (Failed e)
       :: [EvQuery rollbackStatement (Rows []); EvRelease])%list
  /\ completion run = Throw e
  /\ finalState run = Store.empty.
Proof.
  cbv zeta.
  destruct (C5_failure_rolls_back_and_throws
              Store.State Store.query
              (Store.parsed [[("name", Some "x")]; [("name", None)];
                             [("name", Some "x")]])
              "" "t" Store.empty
              [EvQuery beginStatement (Rows []);
               EvQuery (testQuery "t") (Rows [[("?column?", Some "1")]]);
               EvQuery (selectByAllQuery "t" [("name", Some "x")]) (Rows []);
               EvQuery (insertQuery "t" [("name", Some "x")]) (Rows []);
               EvQuery (selectByAllQuery "t" [("name", None)]) (Rows [])]
              [EvQuery rollbackStatement (Rows []); EvRelease]
              (insertQuery "t" [("name", None)])
              "error: null value violates not-null constraint"
              eq_refl)
    as [r [Hpost [Hthrow _]]]; try discriminate.
  inversion Hpost; subst r.
  split; [reflexivity|]. split; [exact Hthrow | reflexivity].
Defined.

Lemma C7_names_are_quoted_never_rejected_witness :
  let name := "a" ++ dquote ++ "b" in
  let row : Record := [("c", Some "1")] in
  In "c" (keys row)
  /\ isInfix (quoted "c") (text (insertQuery name row))
  /\ derivedTableName (Some name) "f.csv" = name.
Proof.
  pose proof (C7_names_are_quoted_never_rejected
                Store.State Store.query (Store.parsed [[("c", Some "1")]])
                ("a" ++ dquote ++ "b") "c" [("c", Some "1")]
                (or_introl eq_refl)) as H.
  cbv zeta. split; [now left|]. split.
  - exact (proj1 (proj2 (proj2 (proj1 (proj2 H))))).
  - apply (proj1 (proj2 (proj2 H))). discriminate.
Defined.

(** C7 (as stated) fails: a table name and a column name that hold a
    double quote go through the [uploadCsv] tool; the statements are
    built with them and executed, and the row is created. *)
Lemma C7_counterexample_quote_in_names :
  let name := "a" ++ dquote ++ "b" in
  let row : Record := [("c" ++ dquote, Some "1")] in
  let run := callTool_uploadCsv Store.query (Store.parsed [row])
               (fun fileData => fileData) (fun _ => "summary")
               "f.csv" "Yywx" (Some name) Store.empty in
  occurs "034"%char name = true
  /\ occurs "034"%char ("c" ++ dquote) = true
  /\ In (EvQuery (insertQuery name row) (Rows [])) (trace run)
  /\ completion run = Normal (mkToolResult "summary" false)
  /\ Store.committed (finalState run) = [[Some "1"]].
Proof.
  cbv zeta. repeat split; try reflexivity.
  vm_compute. do 3 right. left. reflexivity.
Qed.

(** * Further properties of the ingestion *)

Section Calls.

Variable DB : Type.
Variable query : DB -> Statement -> DB * Reply.
Variable parse : string -> Error + list Record.

Lemma sends_ret {A : Type} (P : Event -> Prop) (a : A) : sends P (@ret DB A a).
Proof. intros db. constructor. Qed.

Lemma sends_throw {A : Type} (P : Event -> Prop) (e : Error) :
  sends P (@throw DB A e).
Proof. intros db. constructor. Qed.

Lemma sends_clientQuery (P : Event -> Prop) (s : Statement) :
  (forall r, P (EvQuery s r)) -> sends P (clientQuery query s).
Proof.
  intros HP db. unfold clientQuery, trace.
  destruct (query db s) as [db1 r]. cbn. constructor; [apply HP | constructor].
Qed.

Lemma sends_bind {A B : Type} (P : Event -> Prop) (m : M DB A)
    (k : A -> M DB B) :
  sends P m -> (forall a, sends P (k a)) -> sends P (bind m k).
Proof.
  intros Hm Hk db. rewrite trace_bind. apply Forall_app. split; [apply Hm|].
  destruct (completion (m db)); [apply Hk | constructor].
Qed.

Lemma sends_tryCatch {A : Type} (P : Event -> Prop) (body : M DB A)
    (handler : Error -> M DB A) :
  sends P body -> (forall e, sends P (handler e)) ->
  sends P (tryCatch body handler).
Proof.
  intros Hb Hh db. specialize (Hb db). unfold tryCatch, trace in *.
  destruct (body db) as [[db1 tr1] [a|e]]; cbn [fst snd] in *; [exact Hb|].
  specialize (Hh e db1). unfold trace in Hh.
  destruct (handler e db1) as [[db2 tr2] c]. cbn [fst snd] in *.
  apply Forall_app. now split.
Qed.

Lemma sends_tryFinally {A : Type} (P : Event -> Prop) (body : M DB A)
    (fin : M DB unit) :
  sends P body -> sends P fin -> sends P (tryFinally body fin).
Proof.
  intros Hb Hf db. specialize (Hb db). unfold tryFinally, trace in *.
  destruct (body db) as [[db1 tr1] c]. cbn [fst snd] in *.
  specialize (Hf db1). unfold trace in Hf.
  destruct (fin db1) as [[db2 tr2] [u|e]]; cbn [fst snd] in *;
    apply Forall_app; now split.
Qed.

Lemma sends_weaken {A : Type} (P Q : Event -> Prop) (m : M DB A) :
  (forall ev, P ev -> Q ev) -> sends P m -> sends Q m.
Proof. intros HPQ Hm db. eapply Forall_impl; [exact HPQ | apply Hm]. Qed.

Lemma sends_testUsableId (P : Event -> Prop) (row : Record) :
  sends P (@testUsableId DB row).
Proof.
  unfold testUsableId.
  destruct (hasOwnPropertyIsMethod row); [apply sends_ret | apply sends_throw].
Qed.

(** The calls of one row are statements of that row. *)
Lemma sends_processRow (tableName : string) (row : Record)
    (summary : TableSummary) (P : Event -> Prop) :
  (forall s r, rowStatement tableName [row] s -> P (EvQuery s r)) ->
  sends P (processRow query tableName row summary).
Proof.
  intros HP.
  assert (Hrow : forall s, (s = selectByIdQuery tableName row
                            \/ s = selectByAllQuery tableName row
                            \/ s = insertQuery tableName row
                            \/ s = updateQuery tableName row) ->
                           forall r, P (EvQuery s r)).
  { intros s Hs r. apply HP. exists row. split; [now left | exact Hs]. }
  unfold processRow, existsInDb, applyRow.
  apply sends_bind.
  - apply sends_bind; [apply sends_testUsableId | intros usable].
    destruct usable; apply sends_bind;
      try (apply sends_clientQuery, Hrow; tauto); intros; apply sends_ret.
  - intros found. destruct found.
    + apply sends_bind; [apply sends_testUsableId | intros usable].
      destruct usable; [destruct (0 <? _)%nat|]; try apply sends_ret.
      apply sends_bind;
        [apply sends_clientQuery, Hrow; tauto | intros; apply sends_ret].
    + apply sends_bind;
        [apply sends_clientQuery, Hrow; tauto | intros; apply sends_ret].
Qed.

Lemma sends_processRows (tableName : string) (records : list Record)
    (P : Event -> Prop) :
  (forall s r, rowStatement tableName records s -> P (EvQuery s r)) ->
  forall summary, sends P (processRows query tableName records summary).
Proof.
  induction records as [|row rest IH]; intros HP summary.
  - apply sends_ret.
  - cbn [processRows]. apply sends_bind.
    + apply sends_processRow. intros s r [row' [[<-|[]] Hs]].
      apply HP. exists row. split; [now left | exact Hs].
    + intros summary1. apply IH. intros s r [row' [Hin Hs]].
      apply HP. exists row'. split; [now right | exact Hs].
Qed.

Lemma sends_tableExists (tableName : string) (P : Event -> Prop) :
  (forall r, P (EvQuery (testQuery tableName) r)) ->
  sends P (tableExists query tableName).
Proof.
  intros HP. unfold tableExists. apply sends_tryCatch.
  - apply sends_bind; [apply sends_clientQuery, HP | intros; apply sends_ret].
  - intros e. apply sends_ret.
Qed.

Lemma sends_processCsvBody (csvString tableName : string) (P : Event -> Prop) :
  (forall s r, P (EvQuery s r)) ->
  sends P (processCsvBody query parse csvString tableName).
Proof.
  intros HP. unfold processCsvBody.
  destruct (parse csvString) as [e|[|first rest]].
  - apply sends_throw.
  - apply sends_ret.
  - apply sends_bind; [apply sends_clientQuery, HP | intros _].
    apply sends_bind; [apply sends_tableExists, HP | intros present].
    apply sends_bind.
    { destruct present; [apply sends_ret | apply sends_clientQuery, HP]. }
    intros _. apply sends_bind.
    { apply sends_processRows. intros s r _. apply HP. }
    intros summary.
    apply sends_bind; [apply sends_clientQuery, HP | intros; apply sends_ret].
Qed.

Lemma endsWithCommit_bind {A B : Type} (P : Event -> Prop) (m : M DB A)
    (k : A -> M DB B) (db : DB) :
  sends P m -> (forall a db1, endsWithCommit P (k a db1)) ->
  endsWithCommit P (bind m k db).
Proof.
  intros Hm Hk. specialize (Hm db). unfold endsWithCommit, bind, trace, completion in *.
  destruct (m db) as [[db1 tr1] [a|e]]; cbn [fst snd] in *.
  - specialize (Hk a db1).
    destruct (k a db1) as [[db2 tr2] c]; cbn [fst snd] in *.
    destruct Hk as [tr0 [H0 Hc]]. exists (tr1 ++ tr0)%list. split.
    + apply Forall_app. now split.
    + destruct c as [b|e].
      * destruct Hc as [rows ->]. exists rows. now rewrite app_assoc.
      * destruct Hc as [->| ->]; [now left | right; now rewrite app_assoc].
  - exists tr1. split; [exact Hm | now left].
Qed.

Lemma endsWithCommit_commit {A : Type} (P : Event -> Prop) (a : A) (db : DB) :
  endsWithCommit P (bind (clientQuery query commitStatement) (fun _ => ret a) db).
Proof.
  unfold endsWithCommit, bind, clientQuery, ret, trace, completion.
  destruct (query db commitStatement) as [db1 [rows|e]]; cbn [fst snd];
    exists []; (split; [constructor|]).
  - exists rows. reflexivity.
  - right. reflexivity.
Qed.

Lemma processCsvBody_ends_with_commit (csvString tableName : string)
    (first : Record) (rest : list Record) (db : DB) :
  parse csvString = inr (first :: rest) ->
  endsWithCommit (insideCall tableName (first :: rest))
                 (processCsvBody query parse csvString tableName db).
Proof.
  intros Hparse. unfold processCsvBody. rewrite Hparse.
  apply endsWithCommit_bind.
  { apply sends_clientQuery. intros r. now left. }
  intros _ db1. apply endsWithCommit_bind.
  { apply sends_tableExists. intros r. right. now left. }
  intros present db2. apply endsWithCommit_bind.
  { destruct present; [apply sends_ret|].
    apply sends_clientQuery. intros r. right; right; left.
    now exists first, rest. }
  intros _ db3. apply endsWithCommit_bind.
  { apply sends_processRows. intros s r Hs. now do 3 right. }
  intros summary db4. apply endsWithCommit_commit.
Qed.

Lemma insideStatement_text (tableName : string) (records : list Record)
    (s : Statement) :
  insideStatement tableName records s ->
  text s <> "COMMIT" /\ text s <> "ROLLBACK".
Proof.
  intros [->|[->|[[first [rest [_ ->]]]|[row [_ [->|[->|[->| ->]]]]]]]];
    split; cbn; discriminate.
Qed.

(** How a call on a batch that has records ends. *)
Lemma processCsvUpload_end (csvString tableName : string)
    (first : Record) (rest : list Record) (db : DB) :
  parse csvString = inr (first :: rest) ->
  match completion (processCsvUpload query parse csvString tableName db) with
  | Normal _ =>
      exists tr0 rows,
        trace (processCsvUpload query parse csvString tableName db)
          = (tr0 ++ [EvQuery commitStatement (Rows rows); EvRelease])%list
        /\ Forall (insideCall tableName (first :: rest)) tr0
  | Throw e =>
      exists tr0 r,
        trace (processCsvUpload query parse csvString tableName db)
          = (tr0 ++ [EvQuery rollbackStatement r; EvRelease])%list
        /\ (Forall (insideCall tableName (first :: rest)) tr0
            \/ exists e' tr1,
                 tr0 = (tr1 ++ [EvQuery commitStatement (Failed e')])%list
                 /\ Forall (insideCall tableName (first :: rest)) tr1)
  end.
Proof.
  intros Hparse.
  assert (Hbody := processCsvBody_ends_with_commit csvString tableName first rest db Hparse).
  rewrite processCsvUpload_unfold.
  unfold endsWithCommit, trace, completion in *.
  destruct (processCsvBody query parse csvString tableName db)
    as [[db1 tr1] [result|e]]; cbn [fst snd] in *.
  - destruct Hbody as [tr0 [H0 [rows ->]]]. exists tr0, rows. split.
    + now rewrite <- app_assoc.
    + exact H0.
  - destruct (query db1 rollbackStatement) as [db2 r]. cbn [fst snd].
    destruct Hbody as [tr0 [H0 [->| ->]]].
    + exists tr0, r. split; [reflexivity | now left].
    + exists (tr0 ++ [EvQuery commitStatement (Failed e)])%list, r.
      split; [reflexivity|]. right. now exists e, tr0.
Qed.

(** The transaction of a batch that has records is ended once, by the
    last statement of the call: by a commit that succeeded when the call
    returns, and then no rollback was sent; by a rollback when the call
    throws, and then no commit had succeeded. *)
Theorem commit_when_returning_rollback_when_throwing (csvString tableName : string)
    (first : Record) (rest : list Record) (db : DB) :
  parse csvString = inr (first :: rest) ->
  match completion (processCsvUpload query parse csvString tableName db) with
  | Normal _ =>
      exists tr0 rows,
        trace (processCsvUpload query parse csvString tableName db)
          = (tr0 ++ [EvQuery commitStatement (Rows rows); EvRelease])%list
        /\ (forall s r, In (EvQuery s r) tr0 ->
              text s <> "COMMIT" /\ text s <> "ROLLBACK")
  | Throw _ =>
      exists tr0 r,
        trace (processCsvUpload query parse csvString tableName db)
          = (tr0 ++ [EvQuery rollbackStatement r; EvRelease])%list
        /\ (forall s r', In (EvQuery s r') tr0 ->
              text s <> "ROLLBACK" /\ (text s = "COMMIT" -> isFailed r' = true))
  end.
Proof.
  intros Hparse.
  assert (Hend := processCsvUpload_end csvString tableName first rest db Hparse).
  assert (Hin : forall tr0 s r,
            Forall (insideCall tableName (first :: rest)) tr0 ->
            In (EvQuery s r) tr0 -> text s <> "COMMIT" /\ text s <> "ROLLBACK").
  { intros tr0 s r H0 Hs. rewrite Forall_forall in H0.
    exact (insideStatement_text _ _ _ (H0 _ Hs)). }
  destruct (completion (processCsvUpload query parse csvString tableName db))
    as [result|e].
  - destruct Hend as [tr0 [rows [Htr H0]]]. exists tr0, rows.
    split; [exact Htr | intros s r; apply Hin, H0].
  - destruct Hend as [tr0 [r [Htr [H0|[e' [tr1 [Heq H1]]]]]]]; exists tr0, r;
      (split; [exact Htr|]); intros s r' Hs.
    + destruct (Hin tr0 s r' H0 Hs) as [Hc Hr].
      split; [exact Hr | intros Heq; contradiction].
    + subst tr0. apply in_app_or in Hs. destruct Hs as [Hs|[Hs|[]]].
      * destruct (Hin tr1 s r' H1 Hs) as [Hc Hr].
        split; [exact Hr | intros Heq; contradiction].
      * inversion Hs; subst. split; [cbn; discriminate | reflexivity].
Qed.

Lemma processCsvUpload_release_last (csvString tableName : string) (db : DB) :
  exists tr,
    trace (processCsvUpload query parse csvString tableName db)
      = (tr ++ [EvRelease])%list
    /\ Forall (fun ev => ev <> EvRelease) tr.
Proof.
  assert (Hbody := sends_processCsvBody csvString tableName
                     (fun ev => ev <> EvRelease)
                     (fun s r => ltac:(discriminate)) db).
  rewrite processCsvUpload_unfold. unfold trace in *.
  destruct (processCsvBody query parse csvString tableName db)
    as [[db1 tr1] [result|e]]; cbn [fst snd] in *.
  - exists tr1. split; [reflexivity | exact Hbody].
  - destruct (query db1 rollbackStatement) as [db2 r]. cbn [fst snd].
    exists (tr1 ++ [EvQuery rollbackStatement r])%list. split.
    + now rewrite <- app_assoc.
    + apply Forall_app. split; [exact Hbody|].
      constructor; [discriminate | constructor].
Qed.

(** The connection is released once in every call, by its last call. *)
Theorem connection_released_once_at_the_end (csvString tableName : string)
    (db : DB) :
  exists tr,
    trace (processCsvUpload query parse csvString tableName db)
      = (tr ++ [EvRelease])%list
    /\ ~ In EvRelease tr
    /\ countReleases (trace (processCsvUpload query parse csvString tableName db))
       = 1.
Proof.
  destruct (processCsvUpload_release_last csvString tableName db)
    as [tr [Htr Hno]].
  exists tr. split; [exact Htr|]. split.
  - intros Hin. rewrite Forall_forall in Hno. now apply (Hno _ Hin).
  - rewrite Htr. unfold countReleases. rewrite filter_app, length_app.
    assert (Hz : filter (fun ev => match ev with
                                   | EvRelease => true
                                   | _ => false
                                   end) tr = []).
    { clear Htr. induction Hno as [|ev tr Hev Htr IH]; [reflexivity|].
      cbn. destruct ev; try exact IH. now elim Hev. }
    rewrite Hz. reflexivity.
Qed.

End Calls.

Section Cost.

Variable DB : Type.
Variable query : DB -> Statement -> DB * Reply.
Variable parse : string -> Error + list Record.

Lemma atMost_ret {A : Type} (a : A) : atMost 0 (@ret DB A a).
Proof. intros db. cbn. lia. Qed.

Lemma atMost_clientQuery (s : Statement) : atMost 1 (clientQuery query s).
Proof.
  intros db. unfold clientQuery, trace. destruct (query db s). cbn. lia.
Qed.

Lemma atMost_bind {A B : Type} (a b : nat) (m : M DB A) (k : A -> M DB B) :
  atMost a m -> (forall x, atMost b (k x)) -> atMost (a + b) (bind m k).
Proof.
  intros Hm Hk db. rewrite trace_bind, length_app. specialize (Hm db).
  destruct (completion (m db)) as [x|e].
  - specialize (Hk x (finalState (m db))). lia.
  - cbn. lia.
Qed.

Lemma atMost_le {A : Type} (a b : nat) (m : M DB A) :
  a <= b -> atMost a m -> atMost b m.
Proof. intros Hle Hm db. specialize (Hm db). lia. Qed.

Lemma atMost_testUsableId (row : Record) : atMost 0 (@testUsableId DB row).
Proof.
  unfold testUsableId. intros db.
  destruct (hasOwnPropertyIsMethod row); cbn; lia.
Qed.

Lemma atMost_processRow (tableName : string) (row : Record)
    (summary : TableSummary) :
  atMost 2 (processRow query tableName row summary).
Proof.
  unfold processRow, existsInDb, applyRow.
  apply (atMost_bind 1 1).
  - apply (atMost_bind 0 1); [apply atMost_testUsableId | intros usable].
    destruct usable; apply (atMost_bind 1 0);
      try apply atMost_clientQuery; intros; apply atMost_ret.
  - intros found. destruct found.
    + apply (atMost_bind 0 1); [apply atMost_testUsableId | intros usable].
      destruct usable; [destruct (0 <? _)%nat|];
        try (apply (atMost_le 0 1); [lia | apply atMost_ret]).
      apply (atMost_bind 1 0);
        [apply atMost_clientQuery | intros; apply atMost_ret].
    + apply (atMost_bind 1 0);
        [apply atMost_clientQuery | intros; apply atMost_ret].
Qed.

Lemma atMost_processRows (tableName : string) (records : list Record) :
  forall summary,
    atMost (2 * length records) (processRows query tableName records summary).
Proof.
  induction records as [|row rest IH]; intros summary.
  - apply atMost_ret.
  - cbn [processRows length].
    apply (atMost_le (2 + 2 * length rest)); [lia|].
    apply atMost_bind; [apply atMost_processRow | intros s1; apply IH].
Qed.

Lemma atMost_tableExists (tableName : string) :
  atMost 1 (tableExists query tableName).
Proof.
  intros db. unfold tableExists, tryCatch, bind, clientQuery, ret, trace.
  destruct (query db (testQuery tableName)) as [db1 [rows|e]]; cbn; lia.
Qed.

(** The cost of a call: at most two statements for each record (its
    lookup, then its insert or its update), and six calls around them
    (the opening, the probe, the creation of the table, the commit, the
    rollback, the release). *)
Theorem ingestion_sends_at_most_two_statements_per_record
    (csvString tableName : string) (records : list Record) (db : DB) :
  parse csvString = inr records ->
  length (trace (processCsvUpload query parse csvString tableName db))
    <= 2 * length records + 6.
Proof.
  intros Hparse. rewrite processCsvUpload_unfold.
  assert (Hbody : length (trace (processCsvBody query parse csvString tableName db))
                  <= 2 * length records + 4).
  { unfold processCsvBody. rewrite Hparse. destruct records as [|first rest].
    - cbn. lia.
    - apply (atMost_le (1 + (1 + (1 + (2 * length (first :: rest) + (1 + 0)))))); [lia|].
      apply atMost_bind; [apply atMost_clientQuery | intros _].
      apply atMost_bind; [apply atMost_tableExists | intros present].
      apply atMost_bind.
      { destruct present;
          [apply (atMost_le 0 1); [lia | apply atMost_ret]
          | apply atMost_clientQuery]. }
      intros _. apply atMost_bind; [apply atMost_processRows | intros summary].
      apply atMost_bind; [apply atMost_clientQuery | intros; apply atMost_ret]. }
  unfold trace in *.
  destruct (processCsvBody query parse csvString tableName db)
    as [[db1 tr1] [result|e]]; cbn [fst snd] in *.
  - rewrite length_app. cbn. lia.
  - destruct (query db1 rollbackStatement) as [db2 r]. cbn [fst snd].
    rewrite length_app. cbn. lia.
Qed.

(** With no record, or with a text that does not parse, no transaction
    is opened.  An empty batch gives the summary of zeros and the release
    is the only call; a parse error sends a rollback all the same, then
    the release, and is thrown (the error of the rollback is thrown in
    its place when the rollback fails). *)
Theorem no_transaction_without_records (csvString tableName : string) (db : DB) :
  (parse csvString = inr [] ->
   processCsvUpload query parse csvString tableName db
   = (db, [EvRelease], Normal [(tableName, mkSummary 0 0 0)]))
  /\ (forall e, parse csvString = inl e ->
      processCsvUpload query parse csvString tableName db
      = (fst (query db rollbackStatement),
         [EvQuery rollbackStatement (snd (query db rollbackStatement)); EvRelease],
         Throw (match snd (query db rollbackStatement) with
                | Failed e' => e'
                | Rows _ => e
                end))).
Proof.
  split; [intros Hparse | intros e Hparse];
    rewrite processCsvUpload_unfold; unfold processCsvBody; rewrite Hparse.
  - reflexivity.
  - cbn. destruct (query db rollbackStatement) as [db1 r]. reflexivity.
Qed.

End Cost.

Section Reconciliation.

Variable DB : Type.
Variable query : DB -> Statement -> DB * Reply.
Variable parse : string -> Error + list Record.

Lemma countSucceeded_app (kind : Statement -> bool) (a b : list Event) :
  countSucceeded kind (a ++ b) = countSucceeded kind a + countSucceeded kind b.
Proof. unfold countSucceeded. now rewrite filter_app, length_app. Qed.

Lemma countSent_app (kind : Statement -> bool) (a b : list Event) :
  countSent kind (a ++ b) = countSent kind a + countSent kind b.
Proof. unfold countSent. now rewrite filter_app, length_app. Qed.

(** A run of a bound block that ends normally: both parts ended normally,
    and its trace is theirs, one after the other. *)
Lemma bind_normal_trace {A B : Type} (m : M DB A) (k : A -> M DB B) (db : DB)
    (b : B) :
  completion (bind m k db) = Normal b ->
  exists db1 tr1 a,
    m db = (db1, tr1, Normal a)
    /\ completion (k a db1) = Normal b
    /\ trace (bind m k db) = (tr1 ++ trace (k a db1))%list.
Proof.
  intros H. destruct (bind_normal DB m k db b H) as [db1 [tr1 [a [Hm Hk]]]].
  exists db1, tr1, a. repeat split; try assumption.
  rewrite trace_bind, Hm. reflexivity.
Qed.

(** One row: the counters move with the statements that succeeded. *)
Lemma processRow_counts (tableName : string) (row : Record)
    (summary summary1 : TableSummary) (db : DB) :
  completion (processRow query tableName row summary db) = Normal summary1 ->
  let tr := trace (processRow query tableName row summary db) in
  created summary1 = created summary + countSucceeded isInsert tr
  /\ updated summary1 = updated summary + countSucceeded isUpdate tr
  /\ countSent isLookup tr = 1
  /\ countSucceeded isCreate tr = 0.
Proof.
  rewrite processRow_run. unfold completion, trace.
  destruct (hasOwnPropertyIsMethod row); [|discriminate].
  cbv zeta. destruct (hasUsableId row);
    match goal with
    | |- context [query db ?s] => destruct (query db s) as [db1 [rows|e]]
    end; try discriminate;
    destruct (0 <? length rows)%nat;
    try destruct (0 <? length (columnsToUpdate row))%nat;
    try match goal with
        | |- context [query ?d ?s] => destruct (query d s) as [db2 [res|e]]
        end;
    cbn; intros H; inversion H; cbn; repeat split; lia.
Qed.

Lemma processRows_counts (tableName : string) (records : list Record) :
  forall (summary summary1 : TableSummary) (db : DB),
    completion (processRows query tableName records summary db)
      = Normal summary1 ->
    let tr := trace (processRows query tableName records summary db) in
    created summary1 = created summary + countSucceeded isInsert tr
    /\ updated summary1 = updated summary + countSucceeded isUpdate tr
    /\ countSent isLookup tr = length records
    /\ countSucceeded isCreate tr = 0.
Proof.
  induction records as [|row rest IH]; intros summary summary1 db Hrun.
  - cbn in Hrun. inversion Hrun. cbn. repeat split; lia.
  - cbn [processRows] in *.
    destruct (bind_normal_trace _ _ _ _ Hrun) as [db1 [tr1 [s1 [Hm [Hk Htr]]]]].
    cbv zeta. rewrite Htr, !countSucceeded_app, countSent_app.
    assert (H1 : completion (processRow query tableName row summary db) = Normal s1)
      by now rewrite Hm.
    destruct (processRow_counts tableName row summary s1 db H1) as [Hc [Hu [Hl Hn]]].
    rewrite Hm in Hc, Hu, Hl, Hn. cbn [trace fst snd] in Hc, Hu, Hl, Hn.
    destruct (IH s1 summary1 db1 Hk) as [Hc' [Hu' [Hl' Hn']]].
    cbn [length]. repeat split; lia.
Qed.

(** The summary tells what was done: when the call returns, the counters
    it holds for the table are the numbers of statements executed,
    [created] of [INSERT] statements and [updated] of [UPDATE]
    statements; each record was looked up once, and one [CREATE TABLE]
    at most was executed.  The counters are returned under the name of
    the table; for a batch that has records and the name [__proto__]
    the object returned has no property. *)
Theorem summary_counts_the_statements_executed (csvString tableName : string)
    (records : list Record) (db : DB) (result : list (string * TableSummary)) :
  parse csvString = inr records ->
  completion (processCsvUpload query parse csvString tableName db)
    = Normal result ->
  let tr := trace (processCsvUpload query parse csvString tableName db) in
  (forall name summary, In (name, summary) result ->
     name = tableName
     /\ created summary = countSucceeded isInsert tr
     /\ updated summary = countSucceeded isUpdate tr)
  /\ (tableName <> "__proto__" -> exists summary, result = [(tableName, summary)])
  /\ (tableName = "__proto__" -> records <> [] -> result = [])
  /\ countSent isLookup tr = length records
  /\ countSucceeded isCreate tr <= 1.
Proof.
  intros Hparse. rewrite processCsvUpload_unfold.
  destruct (processCsvBody query parse csvString tableName db)
    as [[db1 tr1] [res|e]] eqn:Hbody.
  2:{ destruct (query db1 rollbackStatement) as [db2 r]. discriminate. }
  cbn [completion trace fst snd]. intros H; inversion H; subst result. clear H.
  assert (Hc : completion (processCsvBody query parse csvString tableName db)
               = Normal res) by now rewrite Hbody.
  assert (Ht : trace (processCsvBody query parse csvString tableName db) = tr1)
    by now rewrite Hbody.
  clear Hbody. unfold processCsvBody in Hc, Ht. rewrite Hparse in Hc, Ht.
  destruct records as [|first rest].
  - inversion Hc. cbn in Ht. subst tr1. cbn. repeat split; try lia.
    + destruct H as [H|[]]. now inversion H.
    + destruct H as [H|[]]. now inversion H.
    + destruct H as [H|[]]. now inversion H.
    + intros _. now exists zeroSummary.
    + intros _ Hne. now elim Hne.
  - destruct (bind_normal_trace _ _ _ _ Hc) as [d1 [t1 [a1 [Hm1 [Hc1 Ht1]]]]].
    destruct (bind_normal_trace _ _ _ _ Hc1) as [d2 [t2 [a2 [Hm2 [Hc2 Ht2]]]]].
    destruct (bind_normal_trace _ _ _ _ Hc2) as [d3 [t3 [a3 [Hm3 [Hc3 Ht3]]]]].
    destruct (bind_normal_trace _ _ _ _ Hc3) as [d4 [t4 [summary [Hm4 [Hc4 Ht4]]]]].
    destruct (bind_normal_trace _ _ _ _ Hc4) as [d5 [t5 [a5 [Hm5 [Hc5 Ht5]]]]].
    rewrite Ht1, Ht2, Ht3, Ht4, Ht5 in Ht. cbn [ret trace fst snd] in Ht.
    inversion Hc5 as [Hres]. clear Hc5.
    assert (Hrows : completion (processRows query tableName (first :: rest)
                                  zeroSummary d3) = Normal summary)
      by now rewrite Hm4.
    destruct (processRows_counts tableName _ zeroSummary summary d3 Hrows)
      as [Hcr [Hup [Hlk Hno]]].
    rewrite Hm4 in Hcr, Hup, Hlk, Hno. cbn [trace fst snd] in Hcr, Hup, Hlk, Hno.
    (* the calls around the rows *)
    assert (E1 : exists r, t1 = [EvQuery beginStatement r]).
    { unfold clientQuery in Hm1. destruct (query db beginStatement) as [x r].
      inversion Hm1. now exists r. }
    assert (E2 : exists r, t2 = [EvQuery (testQuery tableName) r]).
    { destruct (tableExists_trace DB query tableName d1) as [r Hr].
      rewrite Hm2 in Hr. now exists r. }
    assert (E3 : t3 = [] \/ exists r, t3 = [EvQuery (createTableSQL tableName first) r]).
    { destruct a2.
      - left. cbn in Hm3. now inversion Hm3.
      - right. unfold clientQuery in Hm3.
        destruct (query d2 (createTableSQL tableName first)) as [x r].
        inversion Hm3. now exists r. }
    assert (E5 : exists r, t5 = [EvQuery commitStatement r]).
    { unfold clientQuery in Hm5. destruct (query d4 commitStatement) as [x r].
      inversion Hm5. now exists r. }
    destruct E1 as [r1 ->], E2 as [r2 ->], E5 as [r5 ->].
    subst tr1.
    assert (Hnum : created summary
                   = countSucceeded isInsert
                       (([EvQuery beginStatement r1]
                         ++ [EvQuery (testQuery tableName) r2]
                         ++ t3 ++ t4 ++ [EvQuery commitStatement r5] ++ [])
                        ++ [EvRelease])
                   /\ updated summary
                      = countSucceeded isUpdate
                          (([EvQuery beginStatement r1]
                            ++ [EvQuery (testQuery tableName) r2]
                            ++ t3 ++ t4 ++ [EvQuery commitStatement r5] ++ [])
                           ++ [EvRelease])
                   /\ countSent isLookup
                        (([EvQuery beginStatement r1]
                          ++ [EvQuery (testQuery tableName) r2]
                          ++ t3 ++ t4 ++ [EvQuery commitStatement r5] ++ [])
                         ++ [EvRelease])
                      = length (first :: rest)
                   /\ countSucceeded isCreate
                        (([EvQuery beginStatement r1]
                          ++ [EvQuery (testQuery tableName) r2]
                          ++ t3 ++ t4 ++ [EvQuery commitStatement r5] ++ [])
                         ++ [EvRelease]) <= 1).
    { rewrite !countSucceeded_app, !countSent_app.
      assert (Z1 : forall kind, kind = isInsert \/ kind = isUpdate ->
                countSucceeded kind [EvQuery beginStatement r1] = 0
                /\ countSucceeded kind [EvQuery (testQuery tableName) r2] = 0
                /\ countSucceeded kind [EvQuery commitStatement r5] = 0
                /\ countSucceeded kind ([] : list Event) = 0
                /\ countSucceeded kind [EvRelease] = 0
                /\ forall r, countSucceeded kind
                               [EvQuery (createTableSQL tableName first) r] = 0).
      { intros kind [->| ->]; repeat split; try intros r;
          destruct r1, r2, r5; try destruct r; reflexivity. }
      destruct (Z1 isInsert (or_introl eq_refl)) as [I1 [I2 [I3 [I4 [I5 I6]]]]].
      destruct (Z1 isUpdate (or_intror eq_refl)) as [U1 [U2 [U3 [U4 [U5 U6]]]]].
      assert (L : countSent isLookup [EvQuery beginStatement r1] = 0
                  /\ countSent isLookup [EvQuery (testQuery tableName) r2] = 0
                  /\ countSent isLookup [EvQuery commitStatement r5] = 0)
        by (repeat split; reflexivity).
      destruct L as [L1 [L2 L3]].
      assert (C : countSucceeded isCreate [EvQuery beginStatement r1] = 0
                  /\ countSucceeded isCreate [EvQuery (testQuery tableName) r2] = 0
                  /\ countSucceeded isCreate [EvQuery commitStatement r5] = 0)
        by (repeat split; destruct r1, r2, r5; reflexivity).
      destruct C as [C1 [C2 C3]].
      rewrite I1, I2, I3, I5, U1, U2, U3, U5, L1, L2, L3, C1, C2, C3, Hno.
      replace (countSucceeded isInsert []) with 0 by reflexivity.
      replace (countSucceeded isUpdate []) with 0 by reflexivity.
      replace (countSent isLookup []) with 0 by reflexivity.
      replace (countSucceeded isCreate []) with 0 by reflexivity.
      replace (countSent isLookup [EvRelease]) with 0 by reflexivity.
      replace (countSucceeded isCreate [EvRelease]) with 0 by reflexivity.
      destruct E3 as [->|[r3 ->]].
      + rewrite I4, U4.
        replace (countSent isLookup []) with 0 by reflexivity.
        replace (countSucceeded isCreate []) with 0 by reflexivity.
        cbn [zeroSummary created updated] in Hcr, Hup. repeat split; lia.
      + rewrite I6, U6.
        replace (countSent isLookup [EvQuery (createTableSQL tableName first) r3])
          with 0 by reflexivity.
        assert (countSucceeded isCreate
                  [EvQuery (createTableSQL tableName first) r3] <= 1)
          by (destruct r3; cbn; lia).
        cbn [zeroSummary created updated] in Hcr, Hup. repeat split; lia. }
    destruct Hnum as [N1 [N2 [N3 N4]]]. subst res.
    split; [|split; [|split; [|split; [exact N3 | exact N4]]]].
    + intros name summary' Hin.
      destruct (summaryObject_entries _ _ _ _ Hin) as [-> ->]. now repeat split.
    + intros Hname. exists summary.
      exact (summaryObject_named tableName summary Hname).
    + intros -> _. reflexivity.
Qed.

End Reconciliation.

Section AtomicStore.

Variable DB : Type.
Variable query : DB -> Statement -> DB * Reply.
Variable parse : string -> Error + list Record.

(** What persists in the database, and whether a transaction is open. *)
Variable Persistent : Type.
Variable persistent : DB -> Persistent.
Variable inTransaction : DB -> Prop.

(** The store's part: [BEGIN] changes nothing that persists and opens a
    transaction when it succeeds; in a transaction a statement other than
    [COMMIT] and [ROLLBACK] changes nothing that persists and leaves the
    transaction open; a [COMMIT] that fails and a [ROLLBACK] change
    nothing that persists. *)
Hypothesis begin_keeps :
  forall db, persistent (fst (query db beginStatement)) = persistent db.
Hypothesis begin_opens :
  forall db db1 rows,
    query db beginStatement = (db1, Rows rows) -> inTransaction db1.
Hypothesis statement_keeps :
  forall db s,
    inTransaction db -> text s <> "COMMIT" -> text s <> "ROLLBACK" ->
    persistent (fst (query db s)) = persistent db
    /\ inTransaction (fst (query db s)).
Hypothesis failed_commit_keeps :
  forall db db1 e,
    inTransaction db -> query db commitStatement = (db1, Failed e) ->
    persistent db1 = persistent db.
Hypothesis rollback_keeps :
  forall db, persistent (fst (query db rollbackStatement)) = persistent db.

Variable p0 : Persistent.












End AtomicStore.

Section Reingestion.

Variable DB : Type.
Variable query : DB -> Statement -> DB * Reply.

Variable Found : DB -> Prop.
Variable tableName : string.
Variable records : list Record.

(** The store finds every identifier of the batch, in the states [Found]
    that the calls go through; an update that is accepted leaves it in
    such a state.  Nothing is asked of the replies to the updates. *)
Hypothesis lookup_finds :
  forall db row, Found db -> In row records ->
    exists db1 hit hits,
      query db (selectByIdQuery tableName row) = (db1, Rows (hit :: hits))
      /\ Found db1.
Hypothesis update_keeps_found :
  forall db row db1 rows, Found db -> In row records ->
    query db (updateQuery tableName row) = (db1, Rows rows) -> Found db1.
Hypothesis rows_have_id :
  Forall (fun row => hasUsableId row = true) records.

Lemma byIdentifier_not_insert (tr : list Event) :
  Forall (byIdentifier tableName records) tr -> countSent isInsert tr = 0.
Proof.
  unfold countSent. induction 1 as [|ev tr Hev Htr IH]; [reflexivity|].
  cbn [filter]. destruct ev as [s r| |e]; cbn in Hev; try contradiction.
  destruct Hev as [row [_ [->| ->]]]; exact IH.
Qed.

Lemma reingest_part (part : list Record) :
  incl part records ->
  forall db summary, Found db ->
    Forall (byIdentifier tableName records)
           (trace (processRows query tableName part summary db))
    /\ forall summary1,
         completion (processRows query tableName part summary db)
           = Normal summary1 ->
         created summary1 = created summary
         /\ skipped summary1 = skipped summary.
Proof.
  induction part as [|row rest IH]; intros Hincl db summary Hdb.
  - cbn. split; [constructor|]. intros s1 H. inversion H. now split.
  - assert (Hrow : In row records) by (apply Hincl; now left).
    assert (Hrest : incl rest records)
      by (intros x Hx; apply Hincl; now right).
    assert (Hid : hasUsableId row = true).
    { rewrite Forall_forall in rows_have_id. now apply rows_have_id. }
    destruct (lookup_finds db row Hdb Hrow) as [db1 [hit [hits [Hsel H1]]]].
    assert (Hl : byIdentifier tableName records
                   (EvQuery (selectByIdQuery tableName row) (Rows (hit :: hits))))
      by (exists row; split; [exact Hrow | now left]).
    assert (Hu : forall r, byIdentifier tableName records
                             (EvQuery (updateQuery tableName row) r))
      by (intros r; exists row; split; [exact Hrow | now right]).
    rewrite processRows_cons, processRow_run, Hid.
    destruct (hasOwnPropertyIsMethod row).
    2:{ cbn. split; [constructor | discriminate]. }
    cbv zeta. rewrite Hsel.
    change (0 <? length (hit :: hits))%nat with true. cbv iota.
    destruct (0 <? length (columnsToUpdate row))%nat.
    + destruct (query db1 (updateQuery tableName row)) as [db2 [res|e]] eqn:Hupd.
      * destruct (IH Hrest db2 (addUpdated summary)
                    (update_keeps_found db1 row db2 res H1 Hrow Hupd))
          as [Htr Hsum].
        unfold trace, completion in *.
        destruct (processRows query tableName rest (addUpdated summary) db2)
          as [[db3 tr3] c]. cbn [fst snd] in *. split.
        -- constructor; [exact Hl|]. constructor; [apply Hu | exact Htr].
        -- exact Hsum.
      * cbn. split; [|discriminate].
        constructor; [exact Hl|]. constructor; [apply Hu | constructor].
    + destruct (IH Hrest db1 summary H1) as [Htr Hsum].
      unfold trace, completion in *.
      destruct (processRows query tableName rest summary db1)
        as [[db3 tr3] c]. cbn [fst snd] in *. split.
      * constructor; [exact Hl | exact Htr].
      * exact Hsum.
Qed.

(** Rows that the store finds by their identifier are never inserted.
    When every row of the batch has a usable identifier and every lookup
    by identifier comes back with a row, the loop sends lookups by
    identifier and updates only: no [INSERT] and no lookup on all
    columns, whatever the replies to the updates; and when it ends
    normally [created] and [skipped] are as they were. *)
Theorem rows_found_by_id_are_updated_not_inserted (db : DB)
    (summary : TableSummary) :
  Found db ->
  let run := processRows query tableName records summary db in
  Forall (byIdentifier tableName records) (trace run)
  /\ countSent isInsert (trace run) = 0
  /\ forall summary1,
       completion run = Normal summary1 ->
       created summary1 = created summary /\ skipped summary1 = skipped summary.
Proof.
  intros Hdb. cbv zeta.
  destruct (reingest_part records (incl_refl _) db summary Hdb) as [Htr Hsum].
  split; [exact Htr|]. split; [|exact Hsum].
  now apply byIdentifier_not_insert.
Qed.

End Reingestion.

(** * Further properties of the table names and of the statements *)

Lemma sanitized_char_fixed (c : ascii) :
  isTableNameChar c = true ->
  toLowerChar (if isAlnum c then c else "_"%char) = c.
Proof.
  destruct c as [b0 b1 b2 b3 b4 b5 b6 b7];
    destruct b0, b1, b2, b3, b4, b5, b6, b7; vm_compute;
    intros H; try reflexivity; discriminate H.
Qed.

Lemma sanitized_string_fixed (s : string) :
  allChars isTableNameChar s = true -> toLowerCase (replaceNonAlnum s) = s.
Proof.
  induction s as [|c rest IH]; cbn [allChars replaceNonAlnum toLowerCase];
    intros H; [reflexivity|].
  apply andb_true_iff in H. destruct H as [Hc Hrest].
  now rewrite (sanitized_char_fixed c Hc), (IH Hrest).
Qed.

(** The derivation of a table name is idempotent: a derived name is its
    own derived name. *)
Theorem derived_name_is_a_fixed_point (fileName : string) :
  getTableNameFromFileName (getTableNameFromFileName fileName)
  = getTableNameFromFileName fileName.
Proof.
  assert (H : allChars isTableNameChar (getTableNameFromFileName fileName) = true)
    by apply sanitized_string.
  unfold getTableNameFromFileName at 1.
  rewrite beforeFirstDot_nodot.
  - apply sanitized_string_fixed, H.
  - apply (allChars_occurs isTableNameChar _ _ H). reflexivity.
Qed.

Lemma lowerLetter_dot (c : ascii) :
  Ascii.eqb (lowerLetter c) "."%char = Ascii.eqb c "."%char.
Proof.
  destruct c as [b0 b1 b2 b3 b4 b5 b6 b7];
    destruct b0, b1, b2, b3, b4, b5, b6, b7; vm_compute; reflexivity.
Qed.

Lemma lowerLetter_sanitized (c : ascii) :
  toLowerChar (if isAlnum (lowerLetter c) then lowerLetter c else "_"%char)
  = toLowerChar (if isAlnum c then c else "_"%char).
Proof.
  destruct c as [b0 b1 b2 b3 b4 b5 b6 b7];
    destruct b0, b1, b2, b3, b4, b5, b6, b7; vm_compute; reflexivity.
Qed.

(** The derivation does not see the case of the letters [A-Z]: two file
    names that are the same up to the case of these letters get the same
    table. *)
Theorem derived_name_ignores_letter_case (fileName fileName' : string) :
  sameLetters fileName fileName' = true ->
  getTableNameFromFileName fileName = getTableNameFromFileName fileName'.
Proof.
  unfold getTableNameFromFileName. revert fileName'.
  induction fileName as [|x rest IH]; intros [|y rest'] H;
    try discriminate H; [reflexivity|].
  cbn [sameLetters] in H. apply andb_true_iff in H. destruct H as [Hxy Hrest].
  unfold sameLetter in Hxy. apply Ascii.eqb_eq in Hxy.
  cbn [beforeFirstDot].
  rewrite <- (lowerLetter_dot x), <- (lowerLetter_dot y), Hxy.
  destruct (Ascii.eqb (lowerLetter y) "."%char); [reflexivity|].
  cbn [replaceNonAlnum toLowerCase].
  rewrite <- (lowerLetter_sanitized x), <- (lowerLetter_sanitized y), Hxy.
  now rewrite (IH rest' Hrest).
Qed.

Lemma derived_name_ignores_letter_case_witness :
  sameLetters "Sales.CSV" "sales.csv" = true
  /\ getTableNameFromFileName "Sales.CSV" = getTableNameFromFileName "sales.csv".
Proof.
  split; [reflexivity|].
  exact (derived_name_ignores_letter_case "Sales.CSV" "sales.csv" eq_refl).
Defined.

(** The derived table name is empty exactly for the empty file name and
    for the file names that start with a dot. *)
Theorem derived_name_empty_iff_leading_dot (fileName : string) :
  getTableNameFromFileName fileName = ""
  <-> fileName = "" \/ exists rest, fileName = String "."%char rest.
Proof.
  unfold getTableNameFromFileName. destruct fileName as [|c rest].
  - split; [now left | reflexivity].
  - cbn [beforeFirstDot]. destruct (Ascii.eqb_spec c "."%char) as [->|Hc].
    + split; [intros _; right; now exists rest | reflexivity].
    + cbn [replaceNonAlnum toLowerCase]. split; [discriminate|].
      intros [H|[rest' H]]; [discriminate|]. inversion H. contradiction.
Qed.

Lemma nth_error_mapi_from {A B : Type} (f : A -> nat -> B) (l : list A)
    (n i : nat) (x : A) :
  nth_error l i = Some x -> nth_error (mapi_from n f l) i = Some (f x (n + i)).
Proof.
  revert n i. induction l as [|y rest IH]; intros n i H.
  - destruct i; discriminate H.
  - destruct i as [|i]; cbn in *.
    + inversion H. now rewrite Nat.add_0_r.
    + rewrite (IH (S n) i H). f_equal. f_equal. lia.
Qed.

Lemma get_of_unique_key (row : Record) (col : string) (v : Value) :
  NoDup (keys row) -> In (col, v) row -> get row col = v.
Proof.
  induction row as [|[k w] rest IH]; intros Hnd Hin; [contradiction|].
  cbn [get]. inversion Hnd as [|? ? Hk Hrest]; subst.
  destruct Hin as [Heq|Hin].
  - inversion Heq; subst. now rewrite String.eqb_refl.
  - destruct (String.eqb_spec k col) as [->|Hne].
    + exfalso. apply Hk. change (In (fst (col, v)) (map fst rest)).
      now apply in_map.
    + now apply IH.
Qed.

(** Columns, positions and parameters go together.  In the lookup on all
    columns and in the insert, the column at index [i] of the row is
    named at index [i] of the text, with the number [i + 1], and its
    value is the parameter at index [i]. *)
Theorem lookup_and_insert_parameters_follow_the_columns (tableName : string)
    (row : Record) (i : nat) (col : string) (v : Value) :
  nth_error row i = Some (col, v) ->
  nth_error (values (selectByAllQuery tableName row)) i = Some v
  /\ nth_error (values (insertQuery tableName row)) i = Some v
  /\ (exists conditions,
        text (selectByAllQuery tableName row)
          = "SELECT * FROM " ++ quoted tableName ++ " WHERE "
              ++ join " AND " conditions
        /\ length conditions = length row
        /\ nth_error conditions i
           = Some (quoted col ++ " = " ++ numberToString (i + 1)))
  /\ (exists names numbers,
        text (insertQuery tableName row)
          = "INSERT INTO " ++ quoted tableName ++ " (" ++ join ", " names
              ++ ") VALUES (" ++ join ", " numbers ++ ")"
        /\ nth_error names i = Some (quoted col)
        /\ nth_error numbers i = Some (numberToString (i + 1))).
Proof.
  intros H.
  assert (Hk : nth_error (keys row) i = Some col)
    by (unfold keys; rewrite nth_error_map, H; reflexivity).
  assert (Hv : nth_error (vals row) i = Some v)
    by (unfold vals; rewrite nth_error_map, H; reflexivity).
  assert (Hlen : forall (B : Type) (f : string -> nat -> B) l n,
            length (mapi_from n f l) = length l).
  { intros B f l. induction l as [|y rest IH]; intros n; cbn;
      [reflexivity | now rewrite IH]. }
  repeat split; try exact Hv.
  - eexists. split; [reflexivity|]. split.
    + unfold mapi. rewrite Hlen. unfold keys. apply length_map.
    + unfold mapi. now rewrite (nth_error_mapi_from _ _ 0 i col Hk).
  - eexists _, _. split; [reflexivity|]. split.
    + now rewrite nth_error_map, Hk.
    + unfold mapi. now rewrite (nth_error_mapi_from _ _ 0 i col Hk).
Qed.

Lemma lookup_and_insert_parameters_follow_the_columns_witness :
  nth_error [("name", Some "x"); ("city", Some "y")] 1 = Some ("city", Some "y")
  /\ nth_error (values (insertQuery "t" [("name", Some "x"); ("city", Some "y")])) 1
     = Some (Some "y").
Proof.
  split; [reflexivity|].
  exact (proj1 (proj2 (lookup_and_insert_parameters_follow_the_columns
                         "t" [("name", Some "x"); ("city", Some "y")] 1
                         "city" (Some "y") eq_refl))).
Defined.

(** In the update the identifier is the first parameter and is not
    among the columns that are set; the column at index [i] of the SET
    clause has the number [i + 2] and its value is the parameter at index
    [i + 1]. *)
Theorem update_parameters_follow_the_columns (tableName : string)
    (row : Record) (i : nat) (col : string) :
  nth_error (columnsToUpdate row) i = Some col ->
  col <> "id"
  /\ nth_error (values (updateQuery tableName row)) 0 = Some (get row "id")
  /\ nth_error (values (updateQuery tableName row)) (S i) = Some (get row col)
  /\ (exists assignments,
        text (updateQuery tableName row)
          = "UPDATE " ++ quoted tableName ++ " SET " ++ join ", " assignments
              ++ " WHERE " ++ quoted "id" ++ " = $1"
        /\ nth_error assignments i
           = Some (quoted col ++ " = " ++ numberToString (i + 2)))
  /\ (NoDup (keys row) -> forall v, In (col, v) row -> get row col = v).
Proof.
  intros H. split.
  - apply nth_error_In in H. unfold columnsToUpdate in H.
    apply filter_In in H. destruct H as [_ H].
    apply negb_true_iff, String.eqb_neq in H. exact H.
  - split; [reflexivity|]. split.
    + cbn [updateQuery values nth_error]. now rewrite nth_error_map, H.
    + split.
      * eexists. split; [reflexivity|].
        unfold mapi. rewrite (nth_error_mapi_from _ _ 0 i col H). reflexivity.
      * intros Hnd v Hin. now apply get_of_unique_key.
Qed.

Lemma update_parameters_follow_the_columns_witness :
  nth_error (columnsToUpdate [("id", Some "7"); ("name", Some "x")]) 0
    = Some "name"
  /\ nth_error (values (updateQuery "t" [("id", Some "7"); ("name", Some "x")])) 1
     = Some (Some "x").
Proof.
  split; [reflexivity|].
  exact (proj1 (proj2 (proj2 (update_parameters_follow_the_columns
                                "t" [("id", Some "7"); ("name", Some "x")] 0
                                "name" eq_refl)))).
Defined.

(** * The handlers of the second variant *)

Section Handlers2Facts.

Variable DB : Type.
Variable query : DB -> Statement -> DB * Reply.
Variable parse : string -> Error + list Record.
Variable stringify : list ResultRow -> string.
Variable decode : string -> string.
Variable stringifySummary : list (string * TableSummary) -> string.
Variable pathnameOf : string -> Error + string.

(** What the [uploadCsv] tool makes of a run of [processCsvUpload]. *)
Lemma callTool_uploadCsv_run (fileName fileData : string)
    (tableName : option string) (db : DB) :
  fileName <> "" -> fileData <> "" ->
  callTool_uploadCsv query parse decode stringifySummary
    fileName fileData tableName db
  = (let '(db1, tr, c) :=
       processCsvUpload query parse (decode fileData)
         (derivedTableName tableName fileName) db in
     (db1, tr,
      match c with
      | Normal result => Normal (mkToolResult (stringifySummary result) false)
      | Throw e => Normal (mkToolResult ("Error processing CSV: " ++ e) true)
      end)).
Proof.
  intros Hn Hd. apply String.eqb_neq in Hn, Hd.
  unfold callTool_uploadCsv, tryCatch, bind, ret. rewrite Hn, Hd. cbn [orb].
  destruct (processCsvUpload query parse (decode fileData)
              (derivedTableName tableName fileName) db) as [[db1 tr] [result|e]];
    now rewrite app_nil_r.
Qed.

(** The [uploadCsv] tool never throws, and its answer tells how the
    transaction ended: for a batch that has records, the answer without
    error flag comes after a commit that succeeded, the answer with the
    error flag after a rollback. *)
Theorem uploadCsv_answer_tells_commit_from_rollback (fileName fileData : string)
    (tableName : option string) (first : Record) (rest : list Record) (db : DB) :
  fileName <> "" -> fileData <> "" ->
  parse (decode fileData) = inr (first :: rest) ->
  let run := callTool_uploadCsv query parse decode stringifySummary
               fileName fileData tableName db in
  exists result,
    completion run = Normal result
    /\ (isError result = false ->
        exists tr0 rows,
          trace run = (tr0 ++ [EvQuery commitStatement (Rows rows); EvRelease])%list)
    /\ (isError result = true ->
        exists tr0 r,
          trace run = (tr0 ++ [EvQuery rollbackStatement r; EvRelease])%list).
Proof.
  intros Hn Hd Hparse. cbv zeta.
  rewrite (callTool_uploadCsv_run fileName fileData tableName db Hn Hd).
  assert (H := processCsvUpload_end DB query parse
                 (decode fileData) (derivedTableName tableName fileName)
                 first rest db Hparse).
  unfold completion, trace in *.
  destruct (processCsvUpload query parse (decode fileData)
              (derivedTableName tableName fileName) db) as [[db1 tr] [result|e]];
    cbn [fst snd] in *.
  - destruct H as [tr0 [rows [-> _]]]. eexists. split; [reflexivity|].
    split; [intros _; now exists tr0, rows | discriminate].
  - destruct H as [tr0 [r [-> _]]]. eexists. split; [reflexivity|].
    split; [discriminate | intros _; now exists tr0, r].
Qed.

(** The tool handler of the second variant never throws, whatever the
    name of the tool and the arguments: it answers with a result.  It
    releases the connection once when it used the client, and a name
    that is neither [query] nor [uploadCsv] is reported by a warning
    and answered with the error flag, without any call to the client. *)
Theorem callTool_v2_never_throws_and_releases_once (name : string)
    (args : ToolArguments) (db : DB) :
  let run := callTool_v2 query parse stringify decode stringifySummary
               name args db in
  exists result,
    completion run = Normal result
    /\ (existsb usesClient (trace run) = false
        \/ countReleases (trace run) = 1)
    /\ (name <> "query" -> name <> "uploadCsv" ->
        result = mkToolResult ("Unknown tool: " ++ name) true
        /\ trace run = [EvWarn ("Unknown tool: " ++ name)]).
Proof.
  cbv zeta. unfold callTool_v2, tryCatch.
  destruct (String.eqb_spec name "query") as [->|Hq].
  - destruct (String.eqb_spec (argSql args) "") as [Hs|Hs].
    + rewrite Hs. eexists. cbn. split; [reflexivity|].
      split; [left; reflexivity|]. intros H; now elim H.
    + assert (Hrun := guard_runs DB query stringify (argSql args) db Hs).
      destruct (guardReplies query (argSql args) db) as [[[db3 r0] r1] r2].
      destruct Hrun as [_ ->].
      destruct r1 as [rows1|e1]; cbn [statementResult_v2];
        (eexists; split; [reflexivity|]; split; [right | intros H; now elim H]);
        cbn [trace fst snd]; unfold countReleases;
        destruct r0, r2; reflexivity.
  - destruct (String.eqb_spec name "uploadCsv") as [->|Hu].
    + destruct (String.eqb_spec (argFileName args) "") as [Hn|Hn];
        [|destruct (String.eqb_spec (argFileData args) "") as [Hd|Hd]].
      * unfold callTool_uploadCsv, tryCatch. rewrite Hn. cbn.
        eexists. split; [reflexivity|]. split; [left; reflexivity|].
        intros _ H; now elim H.
      * unfold callTool_uploadCsv, tryCatch. apply String.eqb_neq in Hn.
        rewrite Hn, Hd. cbn.
        eexists. split; [reflexivity|]. split; [left; reflexivity|].
        intros _ H; now elim H.
      * rewrite (callTool_uploadCsv_run _ _ (argTableName args) db Hn Hd).
        destruct (processCsvUpload_release_last DB query parse
                    (decode (argFileData args))
                    (derivedTableName (argTableName args) (argFileName args)) db)
          as [tr [Htr Hno]].
        unfold trace, completion in *.
        destruct (processCsvUpload query parse _ _ db) as [[db1 tr1] c].
        cbn [fst snd] in *. subst tr1.
        assert (Hcount : countReleases (tr ++ [EvRelease]) = 1).
        { unfold countReleases. rewrite filter_app, length_app. cbn.
          assert (Hz : filter (fun ev => match ev with
                                         | EvRelease => true
                                         | _ => false
                                         end) tr = []).
          { clear -Hno. induction Hno as [|ev tr Hev Htr IH]; [reflexivity|].
            cbn. destruct ev; try exact IH. now elim Hev. }
          rewrite Hz. reflexivity. }
        destruct c as [result|e]; eexists; (split; [reflexivity|]);
          (split; [right; exact Hcount | intros _ H; now elim H]).
    + eexists. cbn. split; [reflexivity|]. split; [left; reflexivity|].
      intros _ _. split; reflexivity.
Qed.

Lemma splitSlash_not_empty (s : string) : splitSlash s <> [].
Proof.
  induction s as [|c rest IH]; cbn [splitSlash]; [discriminate|].
  destruct (Ascii.eqb c "/"%char); [discriminate|].
  destruct (splitSlash rest); [contradiction | discriminate].
Qed.

Lemma splitSlash_app (a b : string) :
  splitSlash (a ++ String "/"%char b) = (splitSlash a ++ splitSlash b)%list.
Proof.
  induction a as [|c a IH]; cbn [append splitSlash].
  - reflexivity.
  - destruct (Ascii.eqb c "/"%char).
    + now rewrite IH.
    + rewrite IH. assert (Ha := splitSlash_not_empty a).
      destruct (splitSlash a) as [|h t]; [contradiction | reflexivity].
Qed.

Lemma splitSlash_segment (t : string) :
  occurs "/"%char t = false -> splitSlash t = [t].
Proof.
  induction t as [|c t IH]; cbn [occurs splitSlash]; intros H; [reflexivity|].
  apply orb_false_iff in H. destruct H as [Hc Ht].
  rewrite Ascii.eqb_sym in Hc. rewrite Hc, (IH Ht). reflexivity.
Qed.

Lemma pop_last {A : Type} (l : list A) (x : A) : pop (l ++ [x]) = (Some x, l).
Proof. unfold pop. rewrite rev_app_distr. cbn. now rewrite rev_involutive. Qed.

(** The table of a resource is read from the end of the path: for a path
    that ends with [/table/last], the resource is refused with no call to
    the client unless [last] is [schema]; when it is, the columns of
    [table] are asked for with the name as parameter, and the connection
    is released whether the query succeeds or fails. *)
Theorem readResource_v2_reads_the_table_before_schema
    (requestUri dir table last : string) (db : DB) :
  pathnameOf requestUri
    = inr (dir ++ String "/"%char (table ++ String "/"%char last)) ->
  occurs "/"%char table = false ->
  occurs "/"%char last = false ->
  readResource_v2 query stringify pathnameOf requestUri db
  = if String.eqb last "schema" then
      match query db (columnsQuery_v2 (Some table)) with
      | (db1, Rows rows) =>
          (db1, [EvQuery (columnsQuery_v2 (Some table)) (Rows rows); EvRelease],
           Normal (mkContents requestUri "application/json" (stringify rows)))
      | (db1, Failed e) =>
          (db1, [EvQuery (columnsQuery_v2 (Some table)) (Failed e); EvRelease],
           Throw e)
      end
    else (db, [], Throw "Error: Invalid resource URI").
Proof.
  intros Hpath Htable Hlast. unfold readResource_v2. rewrite Hpath.
  rewrite !splitSlash_app, (splitSlash_segment table Htable),
    (splitSlash_segment last Hlast), app_assoc, pop_last, pop_last.
  destruct (String.eqb last "schema"); [|reflexivity].
  unfold tryFinally, bind, clientQuery, release, ret.
  destruct (query db (columnsQuery_v2 (Some table))) as [db1 [rows|e]];
    reflexivity.
Qed.

End Handlers2Facts.

(** * The resources and tools of the first variant *)

Lemma splitSlash_segments_have_no_slash (s : string) :
  Forall (fun p => occurs "/"%char p = false) (splitSlash s).
Proof.
  induction s as [|c rest IH]; cbn [splitSlash].
  - repeat constructor.
  - destruct (Ascii.eqb c "/"%char) eqn:Hc.
    + constructor; [reflexivity | exact IH].
    + destruct (splitSlash rest) as [|h t]; [repeat constructor|].
      * cbn [occurs]. rewrite Ascii.eqb_sym, Hc. reflexivity.
      * inversion IH as [|? ? Hh Ht]; subst. constructor; [|exact Ht].
        cbn [occurs]. rewrite Ascii.eqb_sym, Hc, Hh. reflexivity.
Qed.

Lemma pathComponents_v1_app (a b : string) :
  pathComponents_v1 (a ++ String "/"%char b)
  = (pathComponents_v1 a ++ pathComponents_v1 b)%list.
Proof. unfold pathComponents_v1. now rewrite splitSlash_app, filter_app. Qed.

Lemma pathComponents_v1_segment (p : string) :
  p <> "" -> occurs "/"%char p = false -> pathComponents_v1 p = [p].
Proof.
  intros Hne Hno. unfold pathComponents_v1.
  rewrite (splitSlash_segment p Hno). cbn [filter].
  apply String.eqb_neq in Hne. now rewrite Hne.
Qed.

Lemma pathComponents_v1_leading_slash (rest : string) :
  pathComponents_v1 (String "/"%char rest) = pathComponents_v1 rest.
Proof. exact (pathComponents_v1_app "" rest). Qed.

Lemma pathComponents_v1_before_slash (p rest : string) :
  p <> "" -> occurs "/"%char p = false ->
  (rest = "" \/ exists t, rest = String "/"%char t) ->
  pathComponents_v1 (p ++ rest) = p :: pathComponents_v1 rest.
Proof.
  intros Hne Hno [->|[t ->]].
  - rewrite append_empty_r. now apply pathComponents_v1_segment.
  - rewrite pathComponents_v1_app, (pathComponents_v1_leading_slash t),
      (pathComponents_v1_segment p Hne Hno). reflexivity.
Qed.

(** The components of a path (line 130).  Whatever the path, no
    component is empty and none holds a slash; and a path written from
    components that are not empty and hold no slash, with a slash before
    each and one more at the end or not, is read back as these
    components. *)
Theorem path_components_are_read_back (pathname : string)
    (components : list string) :
  Forall (fun p => p <> "" /\ occurs "/"%char p = false) components ->
  Forall (fun p => p <> "" /\ occurs "/"%char p = false)
         (pathComponents_v1 pathname)
  /\ pathComponents_v1 (fold_right (fun p rest => String "/"%char (p ++ rest))
                                   "" components)
     = components
  /\ pathComponents_v1 (fold_right (fun p rest => String "/"%char (p ++ rest))
                                   "/" components)
     = components.
Proof.
  intros Hall. split.
  - unfold pathComponents_v1. apply Forall_forall. intros p Hp.
    apply filter_In in Hp. destruct Hp as [Hin Hne].
    apply negb_true_iff, String.eqb_neq in Hne. split; [exact Hne|].
    assert (H := splitSlash_segments_have_no_slash pathname).
    rewrite Forall_forall in H. now apply H.
  - assert (Hgen : forall tail,
              (tail = "" \/ exists t, tail = String "/"%char t) ->
              pathComponents_v1 tail = [] ->
              pathComponents_v1
                (fold_right (fun p rest => String "/"%char (p ++ rest))
                            tail components) = components).
    { intros tail Hshape Htail.
      induction Hall as [|p rest [Hne Hno] Hrest IH];
        cbn [fold_right]; [exact Htail|].
      rewrite pathComponents_v1_leading_slash.
      rewrite pathComponents_v1_before_slash; [now rewrite IH | exact Hne
        | exact Hno |].
      destruct rest as [|q rest']; cbn [fold_right];
        [exact Hshape | right; eexists; reflexivity]. }
    split; apply Hgen; try reflexivity; [now left | right; now exists ""].
Qed.

Lemma path_components_are_read_back_witness :
  Forall (fun p => p <> "" /\ occurs "/"%char p = false) ["orders"; "schema"]
  /\ pathComponents_v1 "/orders/schema/" = ["orders"; "schema"].
Proof.
  assert (H : Forall (fun p => p <> "" /\ occurs "/"%char p = false)
                     ["orders"; "schema"])
    by (repeat constructor; discriminate).
  split; [exact H|].
  exact (proj2 (proj2 (path_components_are_read_back "" ["orders"; "schema"] H))).
Defined.

Section Handlers1Facts.

Variable DB : Type.
Variable query : DB -> Statement -> DB * Reply.
Variable stringifyJson : Json -> string.
Variable pathnameOf : string -> Error + string.
Variable parseInt10 : JsValue -> Json.

Lemma paired_app (a b : list Event) : paired a -> paired b -> paired (a ++ b).
Proof.
  intros Ha Hb.
  assert (H : forall n a, length a <= n -> paired a -> paired (a ++ b)).
  { clear a Ha. induction n as [|n IH]; intros a Hlen Ha.
    - destruct a; [exact Hb | cbn in Hlen; lia].
    - destruct a as [|x [|y rest]]; [exact Hb | destruct x; contradiction |].
      destruct x; try contradiction. destruct y; try contradiction.
      cbn [app paired] in *. apply IH; [cbn in Hlen; lia | exact Ha]. }
  exact (H (length a) a (le_n _) Ha).
Qed.

Lemma paired_bind {A B : Type} (m : M DB A) (k : A -> M DB B) :
  (forall db, paired (trace (m db))) ->
  (forall a db, paired (trace (k a db))) ->
  forall db, paired (trace (bind m k db)).
Proof.
  intros Hm Hk db. rewrite trace_bind. apply paired_app; [apply Hm|].
  destruct (completion (m db)); [apply Hk | exact I].
Qed.

Lemma paired_rethrow {A : Type} (m : M DB A) :
  (forall db, paired (trace (m db))) ->
  forall db, paired (trace (tryCatch m (fun error => throw error) db)).
Proof.
  intros Hm db. specialize (Hm db). unfold tryCatch, throw, trace in *.
  destruct (m db) as [[db1 tr1] [a|e]]; cbn [fst snd] in *;
    [exact Hm | now rewrite app_nil_r].
Qed.

Lemma paired_executeQuery (s : Statement) (db : DB) :
  paired (trace (executeQuery query s db)).
Proof.
  unfold executeQuery, tryFinally, clientQuery, release, trace.
  destruct (query db s) as [db1 [rows|e]]; exact I.
Qed.

Lemma paired_firstRowField (rows : list ResultRow) (property : string) (db : DB) :
  paired (trace (@firstRowField DB rows property db)).
Proof. destruct rows; exact I. Qed.

Lemma paired_getTableSize (tableName : JsValue) (db : DB) :
  paired (trace (getTableSize query tableName db)).
Proof.
  unfold getTableSize. apply paired_bind;
    [apply paired_executeQuery | intros; apply paired_firstRowField].
Qed.

Lemma paired_tableDetailsLoop (tables : list ResultRow) :
  forall tableDetails db,
    paired (trace (tableDetailsLoop query tables tableDetails db)).
Proof.
  induction tables as [|table rest IH]; intros tableDetails db; [exact I|].
  cbn [tableDetailsLoop].
  apply paired_bind; [apply paired_getTableSize | intros size db1].
  apply paired_bind; [apply paired_executeQuery | intros countResult db2].
  apply paired_bind; [apply paired_firstRowField | intros rowCount db3].
  apply IH.
Qed.

Ltac paired_steps :=
  repeat first
    [ exact I
    | apply paired_executeQuery
    | apply paired_firstRowField
    | apply paired_getTableSize
    | apply paired_tableDetailsLoop
    | apply paired_rethrow
    | apply paired_bind; [|intros ? ?]
    | intros ? ].

(** No connection is held from one statement to the next nor left
    unreleased by the resources and tools of the first variant: in every
    run, on success and on failure, each statement is followed at once by
    the release of its client. *)
Theorem first_variant_releases_after_each_statement (db : DB) :
  (forall requestUri,
      paired (trace (readResource_v1 query stringifyJson pathnameOf requestUri db)))
  /\ (forall tableName,
      paired (trace (callTool_describe_table query stringifyJson tableName db)))
  /\ (forall tableName condition,
      paired (trace (callTool_count_rows query stringifyJson parseInt10
                       tableName condition db)))
  /\ (forall table1 table2,
      paired (trace (callTool_find_relationships query stringifyJson
                       table1 table2 db))).
Proof.
  repeat split.
  - intros requestUri. unfold readResource_v1.
    destruct (pathnameOf requestUri) as [e|pathname]; [exact I|].
    destruct (pathComponents_v1 pathname) as [|c1 [|c2 [|c3 rest]]];
      try exact I.
    + destruct (String.eqb c1 "stats"); [|exact I].
      unfold getDatabaseStats. revert db. paired_steps.
    + destruct (String.eqb c2 "schema"); [|destruct (String.eqb c2 "data")].
      * unfold getTableColumns, getTablePrimaryKeys, getTableForeignKeys.
        revert db. paired_steps.
      * revert db. paired_steps.
      * exact I.
  - intros tableName. unfold callTool_describe_table.
    destruct (String.eqb tableName ""); [exact I|].
    unfold getTableColumns, getTablePrimaryKeys, getTableForeignKeys.
    revert db. paired_steps.
  - intros tableName condition. unfold callTool_count_rows.
    destruct (String.eqb tableName ""); [exact I|].
    revert db. paired_steps.
  - intros table1 table2. unfold callTool_find_relationships.
    destruct (String.eqb table1 "" || String.eqb table2 ""); [exact I|].
    revert db. paired_steps.
Qed.

(** The database is contacted for the three kinds of resource only: the
    statistics ([/stats]), the schema and the data of a table
    ([/table/schema], [/table/data]).  Any other path is refused with
    the error [Invalid resource URI] and no call to the client. *)
Theorem readResource_v1_contacts_the_database_for_three_kinds
    (requestUri pathname : string) (db : DB) :
  pathnameOf requestUri = inr pathname ->
  let accepted :=
    match pathComponents_v1 pathname with
    | [only] => String.eqb only "stats"
    | [_; kind] => String.eqb kind "schema" || String.eqb kind "data"
    | _ => false
    end in
  let run := readResource_v1 query stringifyJson pathnameOf requestUri db in
  if accepted
  then exists s r tr, trace run = EvQuery s r :: EvRelease :: tr
  else run = (db, [], Throw "Error: Invalid resource URI").
Proof.
  intros Hpath. cbv zeta. unfold readResource_v1. rewrite Hpath.
  assert (Hexec : forall (B : Type) s (k : list ResultRow -> M DB B) d,
            exists r tr, trace (bind (executeQuery query s) k d)
                         = EvQuery s r :: EvRelease :: tr).
  { intros B s k d. rewrite trace_bind.
    unfold executeQuery, tryFinally, clientQuery, release, trace, completion,
      finalState.
    destruct (query d s) as [d1 [rows|e]]; cbn [fst snd app];
      eexists _, _; reflexivity. }
  destruct (pathComponents_v1 pathname) as [|c1 [|c2 [|c3 rest]]];
    try reflexivity.
  - destruct (String.eqb c1 "stats"); [|reflexivity].
    unfold getDatabaseStats. rewrite trace_bind.
    destruct (Hexec _ (mkStatement databaseStatsSQL [])
                (fun rows => ret (match rows with
                                  | [] => None
                                  | row :: _ => Some row
                                  end)) db) as [r [tr Htr]].
    rewrite Htr. eexists _, _, _. reflexivity.
  - destruct (String.eqb c2 "schema"); cbn [orb].
    + unfold getTableColumns.
      destruct (Hexec _ (mkStatement columnsSQL [Some c1])
                  (fun columns =>
                     bind (getTablePrimaryKeys query c1) (fun primaryKeys =>
                     bind (getTableForeignKeys query c1) (fun foreignKeys =>
                     bind (getTableSize query (Some (Some c1))) (fun tableSize =>
                     bind (executeQuery query
                             (mkStatement (countSQL (Some (Some c1))) []))
                       (fun countResult =>
                     bind (firstRowField countResult "count") (fun rowCount =>
                     ret (mkContents requestUri "application/json"
                            (stringifyJson
                               (JObject [("tableName", JString c1);
                                         ("columns", jsonOfRows columns);
                                         ("primaryKeys",
                                          JArray (map jsonOfValue primaryKeys));
                                         ("foreignKeys", jsonOfRows foreignKeys);
                                         ("tableSize", jsonOfValue tableSize);
                                         ("rowCount", jsonOfValue rowCount)])))))))))
                  db) as [r [tr Htr]].
      eexists _, _, _. exact Htr.
    + destruct (String.eqb c2 "data"); [|reflexivity].
      destruct (Hexec _ (mkStatement ("SELECT * FROM " ++ quoted c1 ++ " LIMIT 1000") [])
                  (fun rows => ret (mkContents requestUri "application/json"
                                      (stringifyJson (jsonOfRows rows)))) db)
        as [r [tr Htr]].
      eexists _, _, _. exact Htr.
Qed.

Lemma strictEq_eq (a b : JsValue) : strictEq a b = true <-> a = b.
Proof.
  destruct a as [[x|]|], b as [[y|]|]; cbn; split; intros H;
    try discriminate; try reflexivity.
  - apply String.eqb_eq in H. now subst.
  - inversion H. apply String.eqb_refl.
Qed.

End Handlers1Facts.

(** The indirect relationships are the two-step paths, all of them and
    nothing else: one for each pair of foreign keys of which the first
    leaves [table1], the second reaches [table2], and the first arrives
    where the second leaves. *)
Theorem indirect_relationships_are_the_two_step_paths (table1 table2 : string)
    (allRows : list ResultRow) (x : Indirect) :
  In x (intermediateRelationships table1 table2 allRows)
  <-> exists rel1 rel2,
        In rel1 allRows /\ In rel2 allRows
        /\ field rel1 "from_table" = Some (Some table1)
        /\ field rel1 "to_table" = field rel2 "from_table"
        /\ field rel2 "to_table" = Some (Some table2)
        /\ x = mkIndirect
                 (table1 ++ " -> " ++ templateOf (field rel1 "to_table")
                    ++ " -> " ++ table2)
                 (Some (Some table1), field rel1 "from_column",
                  field rel1 "to_table", field rel1 "to_column")
                 (field rel2 "from_table", field rel2 "from_column",
                  Some (Some table2), field rel2 "to_column").
Proof.
  unfold intermediateRelationships. rewrite in_flat_map. split.
  - intros [rel1 [H1 Hx]]. apply filter_In in H1. destruct H1 as [Hin1 Hfrom].
    apply in_flat_map in Hx. destruct Hx as [rel2 [Hin2 Hx]].
    destruct (strictEq (field rel1 "to_table") (field rel2 "from_table")) eqn:Hmid;
      [|contradiction].
    destruct (strictEq (field rel2 "to_table") (Some (Some table2))) eqn:Hto;
      [|contradiction].
    destruct Hx as [<-|[]]. exists rel1, rel2.
    apply strictEq_eq in Hfrom, Hmid, Hto. repeat split; assumption.
  - intros [rel1 [rel2 [Hin1 [Hin2 [Hfrom [Hmid [Hto ->]]]]]]].
    exists rel1. split.
    + apply filter_In. split; [exact Hin1|]. now apply strictEq_eq.
    + apply in_flat_map. exists rel2. split; [exact Hin2|].
      apply strictEq_eq in Hmid, Hto. rewrite Hmid, Hto. now left.
Qed.

Section Statistics.

Variable DB : Type.
Variable query : DB -> Statement -> DB * Reply.

Lemma executeQuery_normal (s : Statement) (db db1 : DB) (tr : list Event)
    (rows : list ResultRow) :
  executeQuery query s db = (db1, tr, Normal rows) ->
  tr = [EvQuery s (Rows rows); EvRelease].
Proof.
  unfold executeQuery, tryFinally, clientQuery, release.
  destruct (query db s) as [d [rows'|e]]; cbn; intros H; inversion H; reflexivity.
Qed.

Lemma firstRowField_normal (rows : list ResultRow) (property : string)
    (db db1 : DB) (tr : list Event) (v : JsValue) :
  @firstRowField DB rows property db = (db1, tr, Normal v) -> tr = [].
Proof. destruct rows; cbn; intros H; inversion H; reflexivity. Qed.

(** The loop over the tables of the statistics: when it ends normally it
    has added one detail for each table, in the order of the tables and
    under the name of the table, after the details it was given, and it
    has sent two statements for each table, each one released. *)
Theorem statistics_hold_one_detail_per_table (tables : list ResultRow) :
  forall (tableDetails result : list Json) (db : DB),
    completion (tableDetailsLoop query tables tableDetails db) = Normal result ->
    exists added,
      result = (tableDetails ++ added)%list
      /\ map detailName added
         = map (fun table => jsonOfValue (field table "table_name")) tables
      /\ length (trace (tableDetailsLoop query tables tableDetails db))
         = 4 * length tables.
Proof.
  induction tables as [|table rest IH]; intros tableDetails result db Hrun.
  - cbn in Hrun. inversion Hrun. exists []. cbn. now rewrite app_nil_r.
  - cbn [tableDetailsLoop] in *. unfold getTableSize in *.
    destruct (bind_normal_trace DB _ _ _ _ Hrun) as [d1 [t1 [size [Hm1 [Hc1 Ht1]]]]].
    destruct (bind_normal_trace DB _ _ _ _ Hc1) as [d2 [t2 [cr [Hm2 [Hc2 Ht2]]]]].
    destruct (bind_normal_trace DB _ _ _ _ Hc2) as [d3 [t3 [rc [Hm3 [Hc3 Ht3]]]]].
    rewrite Ht1, Ht2, Ht3.
    (* the statement of the size *)
    assert (Hsize : length t1 = 2).
    { assert (Hn : completion
                (bind (executeQuery query
                         (mkStatement sizeSQL
                            [Some ("public." ++ templateOf (field table "table_name"))]))
                      (fun rows => firstRowField rows "size") db) = Normal size)
        by now rewrite Hm1.
      destruct (bind_normal_trace DB _ _ _ _ Hn) as [e1 [u1 [rows [Hq [Hf Htr]]]]].
      rewrite Hm1 in Htr. cbn [trace fst snd] in Htr. subst t1.
      rewrite (executeQuery_normal _ _ _ _ _ Hq).
      destruct (firstRowField rows "size" e1) as [[x y] z] eqn:Hfr.
      cbn [completion snd] in Hf. subst z.
      rewrite (firstRowField_normal _ _ _ _ _ _ Hfr). reflexivity. }
    rewrite (executeQuery_normal _ _ _ _ _ Hm2),
      (firstRowField_normal _ _ _ _ _ _ Hm3).
    destruct (IH _ _ _ Hc3) as [added [Hres [Hnames Hlen]]].
    exists (JObject [("name", jsonOfValue (field table "table_name"));
                     ("size", jsonOfValue size);
                     ("rowCount", jsonOfValue rc)] :: added).
    split; [now rewrite Hres, <- app_assoc|]. split.
    + cbn [map detailName]. rewrite String.eqb_refl, Hnames. reflexivity.
    + rewrite !length_app, Hsize, Hlen. cbn [length]. lia.
Qed.

End Statistics.

Lemma statistics_hold_one_detail_per_table_witness :
  let tables : list ResultRow :=
    [[("table_name", Some "orders")]; [("table_name", Some "users")]] in
  let answer := answering [[("size", Some "8192 bytes"); ("count", Some "3")]] in
  completion (tableDetailsLoop answer tables [] tt)
    = Normal [JObject [("name", JString "orders"); ("size", JString "8192 bytes");
                       ("rowCount", JString "3")];
              JObject [("name", JString "users"); ("size", JString "8192 bytes");
                       ("rowCount", JString "3")]]
  /\ length (trace (tableDetailsLoop answer tables [] tt)) = 4 * 2.
Proof.
  cbv zeta. split; [reflexivity|].
  destruct (statistics_hold_one_detail_per_table unit
              (answering [[("size", Some "8192 bytes"); ("count", Some "3")]])
              [[("table_name", Some "orders")]; [("table_name", Some "users")]]
              [] _ tt eq_refl) as [added [_ [_ Hlen]]].
  exact Hlen.
Defined.

(** * The creation of the table *)

Section Creation.

Variable DB : Type.
Variable query : DB -> Statement -> DB * Reply.
Variable parse : string -> Error + list Record.

Lemma notCreate_count (tr : list Event) :
  Forall notCreate tr -> countSent isCreate tr = 0.
Proof.
  unfold countSent. induction 1 as [|ev tr Hev Htr IH]; [reflexivity|].
  cbn [filter]. destruct ev as [s r| |e]; cbn in Hev |- *;
    [rewrite Hev|..]; exact IH.
Qed.

Lemma rows_then_commit_send_no_create (tableName : string)
    (records : list Record) :
  sends notCreate
    (bind (processRows query tableName records zeroSummary)
          (fun summary =>
             bind (clientQuery query commitStatement)
                  (fun _ => ret (summaryObject tableName summary)))).
Proof.
  apply sends_bind.
  - apply (sends_processRows DB query parse tableName records notCreate).
    intros s r [row [_ [->|[->|[->| ->]]]]]; reflexivity.
  - intros summary. apply sends_bind;
      [apply sends_clientQuery; intros r; reflexivity | intros; apply sends_ret].
Qed.

Lemma bind_tableExists {B : Type} (tableName : string) (k : bool -> M DB B)
    (db : DB) :
  bind (tableExists query tableName) k db
  = (let (db1, r) := query db (testQuery tableName) in
     match k (negb (isFailed r)) db1 with
     | (db2, tr2, c) => (db2, EvQuery (testQuery tableName) r :: tr2, c)
     end).
Proof.
  unfold bind, tableExists, tryCatch, bind, clientQuery, ret.
  destruct (query db (testQuery tableName)) as [db1 [rows|e]]; cbn;
    destruct (k _ db1) as [[db2 tr2] c]; reflexivity.
Qed.

(** [CREATE TABLE] is sent when the probe fails and only then.  When
    the probe of a batch succeeds, no [CREATE TABLE] is sent in the
    whole call.  When it fails, one is sent right after it, for the
    columns of the first record, and no other follows; whether the table
    comes to exist is the reply of the store, and when the store rejects
    the statement the call rolls back and throws without looking at any
    record. *)
Theorem create_table_is_sent_only_when_the_probe_fails
    (csvString tableName : string) (first : Record) (rest : list Record)
    (db db1 : DB) (rows0 : list ResultRow) :
  parse csvString = inr (first :: rest) ->
  query db beginStatement = (db1, Rows rows0) ->
  let run := processCsvUpload query parse csvString tableName db in
  let create := createTableSQL tableName first in
  match query db1 (testQuery tableName) with
  | (_, Rows _) => countSent isCreate (trace run) = 0
  | (db2, Failed e) =>
      exists after,
        trace run = EvQuery beginStatement (Rows rows0)
                      :: EvQuery (testQuery tableName) (Failed e)
                      :: EvQuery create (snd (query db2 create)) :: after
        /\ countSent isCreate after = 0
        /\ (forall e', snd (query db2 create) = Failed e' ->
              exists r,
                after = [EvQuery rollbackStatement r; EvRelease]
                /\ completion run
                   = Throw (match r with Failed e'' => e'' | Rows _ => e' end))
  end.
Proof.
  intros Hparse Hbegin. cbv zeta.
  assert (Hend : forall (c : Completion (list (string * TableSummary))) d tr1,
            Forall notCreate tr1 ->
            Forall notCreate
              (trace (match c with
                      | Normal result => (d, (tr1 ++ [EvRelease])%list, Normal result)
                      | Throw e =>
                          let (db2, r) := query d rollbackStatement in
                          (db2, (tr1 ++ [EvQuery rollbackStatement r; EvRelease])%list,
                           Throw (match r with Failed e' => e' | Rows _ => e end))
                      end))).
  { intros c d tr1 H1. destruct c as [result|e].
    - cbn. apply Forall_app. split; [exact H1 | repeat constructor].
    - destruct (query d rollbackStatement) as [db2 r]. cbn.
      apply Forall_app. split; [exact H1 | repeat constructor]. }
  rewrite processCsvUpload_unfold. unfold processCsvBody. rewrite Hparse.
  rewrite bind_query, Hbegin, bind_tableExists.
  destruct (query db1 (testQuery tableName)) as [db2 [rows1|e1]] eqn:Hprobe;
    cbn [snd fst isFailed negb].
  - match goal with
    | |- context [bind ?m ?k db2] =>
        assert (Hrest : Forall notCreate (trace (bind m k db2)))
          by (apply sends_bind;
              [apply sends_ret
              | intros; apply rows_then_commit_send_no_create]);
        destruct (bind m k db2) as [[d tr2] c]
    end.
    cbn [trace fst snd] in Hrest. apply notCreate_count.
    apply (Hend c d (EvQuery beginStatement (Rows rows0)
                       :: EvQuery (testQuery tableName) (Rows rows1) :: tr2)).
    constructor; [reflexivity|]. constructor; [reflexivity | exact Hrest].
  - rewrite bind_query.
    destruct (query db2 (createTableSQL tableName first)) as [db3 [rows2|e2]].
    + pose proof (rows_then_commit_send_no_create tableName (first :: rest) db3)
        as Hrest.
      match type of Hrest with
      | Forall _ (trace ?run) => destruct run as [[d tr2] c]
      end.
      cbn [trace fst snd] in Hrest.
      destruct c as [result|e].
      * cbn [trace fst snd app]. eexists. split; [reflexivity|]. split.
        -- apply notCreate_count, Forall_app.
           split; [exact Hrest | repeat constructor].
        -- discriminate.
      * destruct (query d rollbackStatement) as [d2 r].
        cbn [trace fst snd app]. eexists. split; [reflexivity|]. split.
        -- apply notCreate_count, Forall_app.
           split; [exact Hrest | repeat constructor].
        -- discriminate.
    + destruct (query db3 rollbackStatement) as [d2 r].
      cbn [trace completion fst snd app]. eexists. split; [reflexivity|]. split.
      * apply notCreate_count. repeat constructor.
      * intros e' He'. inversion He'; subst e'. now exists r.
Qed.

End Creation.

(** * Placeholders *)

Lemma occurs_append (c : ascii) (a b : string) :
  occurs c (a ++ b) = occurs c a || occurs c b.
Proof.
  induction a as [|x a IH]; cbn [append occurs]; [reflexivity|].
  now rewrite IH, orb_assoc.
Qed.

Lemma noDollar_append (a b : string) :
  noDollar (a ++ b) = noDollar a && noDollar b.
Proof. unfold noDollar. now rewrite occurs_append, negb_orb. Qed.

Lemma noDollar_join (sep : string) (parts : list string) :
  noDollar sep = true -> forallb noDollar parts = true ->
  noDollar (join sep parts) = true.
Proof.
  intros Hsep. induction parts as [|p rest IH]; intros H; [reflexivity|].
  cbn [forallb] in H. apply andb_true_iff in H. destruct H as [Hp Hrest].
  destruct rest as [|p' rest']; [exact Hp|].
  change (join sep (p :: p' :: rest')) with (p ++ sep ++ join sep (p' :: rest')).
  now rewrite !noDollar_append, Hp, Hsep, (IH Hrest).
Qed.

Lemma noDollar_digits (d : Decimal.uint) :
  noDollar (NilEmpty.string_of_uint d) = true.
Proof. induction d; cbn; try reflexivity; exact IHd. Qed.

Lemma noDollar_number (n : nat) : noDollar (numberToString n) = true.
Proof.
  unfold numberToString, NilZero.string_of_uint.
  destruct (Nat.to_uint n); try reflexivity; apply noDollar_digits.
Qed.

Lemma noDollar_conditions (cols : list string) (n : nat) :
  forallb noDollar cols = true ->
  forallb noDollar
    (mapi_from n (fun col index => quoted col ++ " = " ++ numberToString (index + 1))
               cols) = true.
Proof.
  revert n. induction cols as [|col rest IH]; intros n H; [reflexivity|].
  cbn [forallb mapi_from] in *. apply andb_true_iff in H. destruct H as [Hc Hr].
  rewrite (IH (S n) Hr), andb_true_r. unfold quoted, dquote.
  now rewrite !noDollar_append, Hc, noDollar_number.
Qed.

(** The text of the lookup on all columns holds no placeholder: no [$]
    stands in it unless one stands in a name. *)
Lemma lookup_text_without_placeholder (tableName : string) (row : Record) :
  noDollar tableName = true ->
  forallb noDollar (keys row) = true ->
  noDollar (text (selectByAllQuery tableName row)) = true.
Proof.
  intros Ht Hk. unfold selectByAllQuery, whereClause, mapi, quoted, dquote.
  cbn [text]. rewrite !noDollar_append, Ht. cbn [andb noDollar occurs negb].
  change (negb (Ascii.eqb "$" "034" || false)) with true. cbn [andb].
  apply noDollar_join; [reflexivity|]. now apply noDollar_conditions.
Qed.

Section Placeholders.

Variable DB : Type.
Variable query : DB -> Statement -> DB * Reply.
Variable parse : string -> Error + list Record.

Hypothesis store_rule : rejectsUnboundParameters query.

Variable tableName : string.
Variable row : Record.

Hypothesis no_identifier : hasUsableId row = false.
Hypothesis some_column : row <> [].
Hypothesis plain_table : noDollar tableName = true.
Hypothesis plain_columns : forallb noDollar (keys row) = true.

Lemma lookup_is_rejected (db : DB) :
  exists db1 e, query db (selectByAllQuery tableName row) = (db1, Failed e).
Proof.
  assert (H := store_rule db (selectByAllQuery tableName row)).
  destruct (query db (selectByAllQuery tableName row)) as [db1 [rows|e]].
  - exfalso. cbn [snd isFailed] in H.
    assert (Hf : false = true); [|discriminate Hf].
    apply H.
    + cbn [values selectByAllQuery]. unfold vals.
      destruct row; [now elim some_column | discriminate].
    + now apply lookup_text_without_placeholder.
  - now exists db1, e.
Qed.

(** The loop on a batch that starts with the row: it throws at the
    row. *)
Lemma first_row_fails (rest : list Record) (summary : TableSummary) (db : DB) :
  exists db1 tr e,
    processRows query tableName (row :: rest) summary db = (db1, tr, Throw e)
    /\ Forall (beforeRows tableName row) tr.
Proof.
  rewrite processRows_cons, processRow_run, no_identifier.
  destruct (hasOwnPropertyIsMethod row).
  - cbv zeta. destruct (lookup_is_rejected db) as [db1 [e ->]].
    exists db1, [EvQuery (selectByAllQuery tableName row) (Failed e)], e.
    split; [reflexivity|]. constructor; [|constructor].
    do 3 right. now split.
  - eexists _, _, _. split; [reflexivity | constructor].
Qed.

Lemma body_fails (csvString : string) (rest : list Record) (db : DB) :
  parse csvString = inr (row :: rest) ->
  exists db1 tr e,
    processCsvBody query parse csvString tableName db = (db1, tr, Throw e)
    /\ Forall (beforeRows tableName row) tr.
Proof.
  intros Hparse. unfold processCsvBody. rewrite Hparse.
  assert (Hrows : forall d,
            exists d1 tr e,
              bind (processRows query tableName (row :: rest) zeroSummary)
                   (fun summary =>
                      bind (clientQuery query commitStatement)
                           (fun _ => ret (summaryObject tableName summary))) d
              = (d1, tr, Throw e)
              /\ Forall (beforeRows tableName row) tr).
  { intros d. destruct (first_row_fails rest zeroSummary d)
      as [d1 [tr [e [Hrun Htr]]]].
    exists d1, tr, e. unfold bind at 1. rewrite Hrun. now split. }
  rewrite bind_query.
  destruct (query db beginStatement) as [db1 [rows0|e0]].
  2:{ eexists _, _, _. split; [reflexivity|].
      constructor; [now left | constructor]. }
  rewrite bind_tableExists.
  destruct (query db1 (testQuery tableName)) as [db2 [rows1|e1]];
    cbn [isFailed negb].
  - rewrite bind_ret. destruct (Hrows db2) as [d1 [tr [e [-> Htr]]]].
    eexists _, _, _. split; [reflexivity|].
    constructor; [now left|]. constructor; [right; now left | exact Htr].
  - rewrite bind_query.
    destruct (query db2 (createTableSQL tableName row)) as [db3 [rows2|e2]].
    + destruct (Hrows db3) as [d1 [tr [e [-> Htr]]]].
      eexists _, _, _. split; [reflexivity|].
      constructor; [now left|]. constructor; [right; now left|].
      constructor; [right; right; now left | exact Htr].
    + eexists _, _, _. split; [reflexivity|].
      constructor; [now left|]. constructor; [right; now left|].
      constructor; [right; right; now left | constructor].
Qed.

Lemma beforeRows_kind (ev : Event) :
  beforeRows tableName row ev ->
  match ev with EvQuery s _ => isInsert s | _ => false end = false
  /\ match ev with EvQuery s (Rows _) => isLookup s | _ => false end = false.
Proof.
  destruct ev as [s r| |e]; cbn [beforeRows]; try contradiction.
  intros [->|[->|[->|[-> Hf]]]]; split; try reflexivity;
    destruct r; try reflexivity; discriminate Hf.
Qed.

Lemma beforeRows_counts (tr : list Event) (r : Reply) :
  Forall (beforeRows tableName row) tr ->
  countSent isInsert (tr ++ [EvQuery rollbackStatement r; EvRelease]) = 0
  /\ countSucceeded isLookup (tr ++ [EvQuery rollbackStatement r; EvRelease]) = 0.
Proof.
  unfold countSent, countSucceeded.
  induction 1 as [|ev tr Hev Htr IH].
  - destruct r; split; reflexivity.
  - destruct (beforeRows_kind ev Hev) as [K1 K2].
    cbn [app filter]. now rewrite K1, K2.
Qed.

(** C2 (evaluation).  Against a store that has the rule of PostgreSQL
    on parameters, a batch that starts with a record without identifier
    (two identical ones in particular) never gets as far as an insert:
    the lookup on all columns is sent with the values of the record as
    parameters and with a text that has no placeholder, the store
    rejects it, and the call rolls back and throws.  Nothing is inserted,
    no lookup is answered, no record is counted. *)
Theorem C2_lookup_without_placeholder_is_rejected (csvString : string)
    (rest : list Record) (db : DB) :
  parse csvString = inr (row :: rest) ->
  let run := processCsvUpload query parse csvString tableName db in
  (exists e, completion run = Throw e)
  /\ countSent isInsert (trace run) = 0
  /\ countSucceeded isLookup (trace run) = 0
  /\ (hasOwnPropertyIsMethod row = true ->
      forall db1 db2 rows0 rows1,
        query db beginStatement = (db1, Rows rows0) ->
        query db1 (testQuery tableName) = (db2, Rows rows1) ->
        exists db3 e db4 r,
          run = (db4,
                 [EvQuery beginStatement (Rows rows0);
                  EvQuery (testQuery tableName) (Rows rows1);
                  EvQuery (selectByAllQuery tableName row) (Failed e);
                  EvQuery rollbackStatement r;
                  EvRelease],
                 Throw (match r with Failed e' => e' | Rows _ => e end))
          /\ query db2 (selectByAllQuery tableName row) = (db3, Failed e)
          /\ query db3 rollbackStatement = (db4, r)).
Proof.
  intros Hparse. cbv zeta.
  split; [|split; [|split]].
  - rewrite processCsvUpload_unfold.
    destruct (body_fails csvString rest db Hparse) as [d [tr [e [-> _]]]].
    destruct (query d rollbackStatement) as [d2 r]. eexists. reflexivity.
  - rewrite processCsvUpload_unfold.
    destruct (body_fails csvString rest db Hparse) as [d [tr [e [-> Htr]]]].
    destruct (query d rollbackStatement) as [d2 r]. cbn [trace fst snd].
    exact (proj1 (beforeRows_counts tr r Htr)).
  - rewrite processCsvUpload_unfold.
    destruct (body_fails csvString rest db Hparse) as [d [tr [e [-> Htr]]]].
    destruct (query d rollbackStatement) as [d2 r]. cbn [trace fst snd].
    exact (proj2 (beforeRows_counts tr r Htr)).
  - intros Hmethod db1 db2 rows0 rows1 Hbegin Hprobe.
    destruct (lookup_is_rejected db2) as [db3 [e Hlookup]].
    destruct (query db3 rollbackStatement) as [db4 r] eqn:Hrollback.
    exists db3, e, db4, r. split; [|now split].
    rewrite processCsvUpload_unfold. unfold processCsvBody. rewrite Hparse.
    rewrite bind_query, Hbegin, bind_tableExists, Hprobe.
    cbn [isFailed negb]. rewrite bind_ret. unfold bind at 1.
    rewrite processRows_cons, processRow_run, Hmethod, no_identifier.
    cbv zeta. rewrite Hlookup, Hrollback. reflexivity.
Qed.

End Placeholders.

(** The store that checks what PostgreSQL checks has the rule. *)
Lemma placeholders_without_dollar (s : string) :
  noDollar s = true -> forall mode, Pg.placeholdersFrom mode s = 0.
Proof.
  unfold noDollar. induction s as [|c rest IH]; intros H mode; [reflexivity|].
  cbn [occurs] in H. apply negb_true_iff, orb_false_iff in H.
  destruct H as [Hc Hrest]. cbn [Pg.placeholdersFrom].
  rewrite Ascii.eqb_sym, Hc.
  destruct mode; apply IH; now rewrite Hrest.
Qed.

Lemma pg_rejects_unbound_parameters : rejectsUnboundParameters Pg.query.
Proof.
  intros st s Hvalues Htext. unfold Pg.query, Pg.placeholders.
  destruct (values s) as [|v vs]; [now elim Hvalues|].
  rewrite (placeholders_without_dollar _ Htext). cbn [length Nat.eqb negb].
  reflexivity.
Qed.


(** * Identifier and primary key *)

(** The primary key is chosen without regard to case, the identifier of
    a row is not: a column whose name is [id] in other letters than
    lower case ([ID], [Id]) is declared [PRIMARY KEY] when the table is
    created, and yet a row that has no column named [id] exactly (and
    none named [hasOwnProperty], for which the test of the identifier
    throws) is looked up on all its columns, never by identifier. *)
Theorem primary_key_ignores_case_identifier_does_not (DB : Type)
    (query : DB -> Statement -> DB * Reply) (tableName col : string)
    (row : Record) (summary : TableSummary) (db : DB) :
  In col (keys row) ->
  toLowerCase col = "id" ->
  hasOwnProperty row "id" = false ->
  hasOwnPropertyIsMethod row = true ->
  col <> "id"
  /\ isInfix (quoted col ++ " TEXT PRIMARY KEY") (text (createTableSQL tableName row))
  /\ hasUsableId row = false
  /\ exists r tr,
       trace (processRow query tableName row summary db)
         = EvQuery (selectByAllQuery tableName row) r :: tr.
Proof.
  intros Hin Hlow Hown Hmethod.
  assert (Hid : hasUsableId row = false) by (unfold hasUsableId; now rewrite Hown).
  repeat split.
  - intros ->. unfold hasOwnProperty in Hown.
    assert (H : existsb (String.eqb "id") (keys row) = true)
      by (apply existsb_exists; exists "id"; split;
          [exact Hin | apply String.eqb_refl]).
    congruence.
  - unfold createTableSQL. cbn [text].
    apply isInfix_app_l, isInfix_app_l, isInfix_app_l, isInfix_app_r.
    apply isInfix_join.
    assert (Hdef : columnDefinition col = quoted col ++ " TEXT PRIMARY KEY")
      by (unfold columnDefinition; now rewrite Hlow).
    rewrite <- Hdef. now apply in_map.
  - exact Hid.
  - rewrite processRow_run, Hmethod, Hid. cbv zeta.
    destruct (query db (selectByAllQuery tableName row)) as [db1 [rows|e]].
    + destruct (0 <? length rows)%nat;
        [|destruct (query db1 (insertQuery tableName row)) as [db2 [res|e]]];
        eexists _, _; reflexivity.
    + eexists _, _. reflexivity.
Qed.

Lemma primary_key_ignores_case_identifier_does_not_witness :
  let row : Record := [("ID", Some "7"); ("name", Some "x")] in
  In "ID" (keys row)
  /\ toLowerCase "ID" = "id"
  /\ hasOwnProperty row "id" = false
  /\ hasOwnPropertyIsMethod row = true
  /\ isInfix (quoted "ID" ++ " TEXT PRIMARY KEY") (text (createTableSQL "t" row)).
Proof.
  cbv zeta. split; [now left|]. do 3 (split; [reflexivity|]).
  exact (proj1 (proj2 (primary_key_ignores_case_identifier_does_not
                         Pg.State Pg.query "t" "ID"
                         [("ID", Some "7"); ("name", Some "x")]
                         zeroSummary (Pg.holding [])
                         (or_introl eq_refl) eq_refl eq_refl eq_refl))).
Defined.

(** * The further properties on the small store *)

Lemma commit_when_returning_rollback_when_throwing_witness :
  let row : Record := [("name", Some "x")] in
  let parse := Store.parsed [row] in
  parse "" = inr [row]
  /\ exists tr0 rows,
       trace (processCsvUpload Store.query parse "" "t" Store.empty)
       = (tr0 ++ [EvQuery commitStatement (Rows rows); EvRelease])%list.
Proof.
  cbv zeta. split; [reflexivity|].
  pose proof (commit_when_returning_rollback_when_throwing
                Store.State Store.query (Store.parsed [[("name", Some "x")]])
                "" "t" [("name", Some "x")] [] Store.empty eq_refl) as H.
  cbn [completion snd] in H.
  change (completion (processCsvUpload Store.query
                        (Store.parsed [[("name", Some "x")]]) "" "t" Store.empty))
    with (@Normal (list (string * TableSummary)) [("t", mkSummary 1 0 0)]) in H.
  destruct H as [tr0 [rows [Htr _]]]. now exists tr0, rows.
Defined.

Lemma ingestion_sends_at_most_two_statements_per_record_witness :
  let rows : list Record := [[("name", Some "x")]; [("name", Some "y")]] in
  Store.parsed rows "" = inr rows
  /\ length (trace (processCsvUpload Store.query (Store.parsed rows) "" "t"
                      Store.empty)) <= 2 * 2 + 6.
Proof.
  cbv zeta. split; [reflexivity|].
  exact (ingestion_sends_at_most_two_statements_per_record
           Store.State Store.query
           (Store.parsed [[("name", Some "x")]; [("name", Some "y")]])
           "" "t" [[("name", Some "x")]; [("name", Some "y")]] Store.empty
           eq_refl).
Defined.

Lemma summary_counts_the_statements_executed_witness :
  let csv := Csv.text ["id"; "5"] in
  let run := processCsvUpload Pg.query Csv.parse csv "t"
               (Pg.holding [[Some "5"]]) in
  Csv.parse csv = inr [[("id", Some "5")]]
  /\ completion run = Normal [("t", mkSummary 0 0 0)]
  /\ countSent isLookup (trace run) = 1.
Proof.
  cbv zeta. do 2 (split; [reflexivity|]).
  exact (proj1 (proj2 (proj2 (proj2
           (summary_counts_the_statements_executed
              Pg.State Pg.query Csv.parse (Csv.text ["id"; "5"]) "t"
              [[("id", Some "5")]] (Pg.holding [[Some "5"]])
              [("t", mkSummary 0 0 0)] eq_refl eq_refl))))).
Defined.



Lemma rows_found_by_id_are_updated_not_inserted_witness :
  let row : Record := [("id", Some "5"); ("name", Some "y")] in
  let stored : Pg.Table := [[Some "5"; Some "x"]] in
  let st := Pg.mkState (Some stored) (Some (Some stored)) false false in
  let run := processRows Pg.query "t" [row] zeroSummary st in
  hasUsableId row = true
  /\ trace run
     = [EvQuery (selectByIdQuery "t" row)
                (Rows [[("?column?", Some "5"); ("?column?", Some "x")]]);
        EvQuery (updateQuery "t" row)
                (Failed "error: bind message supplies 2 parameters, but prepared statement requires 1")]
  /\ countSent isInsert (trace run) = 0.
Proof.
  cbv zeta. do 2 (split; [reflexivity|]).
  refine (proj1 (proj2
            (rows_found_by_id_are_updated_not_inserted
               Pg.State Pg.query
               (fun st => st = Pg.mkState (Some [[Some "5"; Some "x"]])
                                 (Some (Some [[Some "5"; Some "x"]])) false false)
               "t" [[("id", Some "5"); ("name", Some "y")]]
               _ _ _
               (Pg.mkState (Some [[Some "5"; Some "x"]])
                  (Some (Some [[Some "5"; Some "x"]])) false false)
               zeroSummary eq_refl))).
  - intros st row -> [<-|[]]. eexists _, _, _. split; reflexivity.
  - intros st row st1 rows -> [<-|[]] H. discriminate H.
  - repeat constructor.
Defined.

Lemma uploadCsv_answer_tells_commit_from_rollback_witness :
  let row : Record := [("name", Some "x")] in
  let run := callTool_uploadCsv Store.query (Store.parsed [row])
               (fun fileData => fileData) (fun _ => "summary")
               "f.csv" "bmFtZQp4" None Store.empty in
  "f.csv" <> "" /\ "bmFtZQp4" <> ""
  /\ Store.parsed [row] "bmFtZQp4" = inr [row]
  /\ exists result, completion run = Normal result.
Proof.
  cbv zeta. do 2 (split; [discriminate|]). split; [reflexivity|].
  destruct (uploadCsv_answer_tells_commit_from_rollback
              Store.State Store.query (Store.parsed [[("name", Some "x")]])
              (fun fileData => fileData) (fun _ => "summary")
              "f.csv" "bmFtZQp4" None [("name", Some "x")] [] Store.empty)
    as [result [Hc _]]; try discriminate; try reflexivity.
  now exists result.
Defined.

Lemma readResource_v2_reads_the_table_before_schema_witness :
  let pathnameOf := fun _ : string => @inr Error string "/orders/schema" in
  pathnameOf "postgres://host/orders/schema"
    = inr ("" ++ String "/"%char ("orders" ++ String "/"%char "schema"))
  /\ occurs "/"%char "orders" = false
  /\ occurs "/"%char "schema" = false
  /\ trace (readResource_v2 Store.query Store.stringify pathnameOf
              "postgres://host/orders/schema" Store.empty)
     = [EvQuery (columnsQuery_v2 (Some "orders")) (Failed "error: syntax error");
        EvRelease].
Proof.
  cbv zeta. do 3 (split; [reflexivity|]).
  rewrite (readResource_v2_reads_the_table_before_schema
             Store.State Store.query Store.stringify
             (fun _ : string => @inr Error string "/orders/schema")
             "postgres://host/orders/schema" "" "orders" "schema" Store.empty
             eq_refl eq_refl eq_refl).
  reflexivity.
Defined.

Lemma readResource_v1_contacts_the_database_for_three_kinds_witness :
  let pathnameOf := fun _ : string => @inr Error string "/orders/rows" in
  pathnameOf "postgres://host/orders/rows" = inr "/orders/rows"
  /\ readResource_v1 Store.query (fun _ => "json") pathnameOf
       "postgres://host/orders/rows" Store.empty
     = (Store.empty, [], Throw "Error: Invalid resource URI").
Proof.
  cbv zeta. split; [reflexivity|].
  exact (readResource_v1_contacts_the_database_for_three_kinds
           Store.State Store.query (fun _ => "json")
           (fun _ : string => @inr Error string "/orders/rows")
           "postgres://host/orders/rows" "/orders/rows" Store.empty eq_refl).
Defined.

Lemma create_table_is_sent_only_when_the_probe_fails_witness :
  let csv := Csv.text ["name"; "x"] in
  let row : Record := [("name", Some "x")] in
  let st1 := Pg.mkState None (Some None) false false in
  let missing := "error: relation does not exist" in
  let ignored := "error: current transaction is aborted, commands ignored until end of transaction block" in
  let run := processCsvUpload Pg.query Csv.parse csv "t" Pg.without in
  Csv.parse csv = inr [row]
  /\ Pg.query Pg.without beginStatement = (st1, Rows [])
  /\ run = (Pg.without,
            [EvQuery (mkStatement "BEGIN" []) (Rows []);
             EvQuery (mkStatement ("SELECT 1 FROM " ++ quoted "t" ++ " LIMIT 1") [])
                     (Failed missing);
             EvQuery (mkStatement ("CREATE TABLE " ++ quoted "t" ++ " ("
                                     ++ quoted "name" ++ " TEXT);") [])
                     (Failed ignored);
             EvQuery (mkStatement "ROLLBACK" []) (Rows []);
             EvRelease],
            Throw ignored)
  /\ exists after,
       trace run = EvQuery beginStatement (Rows [])
                     :: EvQuery (testQuery "t") (Failed missing)
                     :: EvQuery (createTableSQL "t" row) (Failed ignored) :: after
       /\ countSent isCreate after = 0.
Proof.
  cbv zeta. do 3 (split; [reflexivity|]).
  destruct (create_table_is_sent_only_when_the_probe_fails
              Pg.State Pg.query Csv.parse (Csv.text ["name"; "x"]) "t"
              [("name", Some "x")] [] Pg.without
              (Pg.mkState None (Some None) false false) [] eq_refl eq_refl)
    as [after [Htrace [Hcount _]]].
  exists after. split; [exact Htrace | exact Hcount].
Defined.

(** ** The ingestion and the guard on the store that checks *)

Lemma C2_lookup_without_placeholder_is_rejected_witness :
  let csv := Csv.text ["name"; "x"; "x"] in
  let row : Record := [("name", Some "x")] in
  let rejected := "error: bind message supplies 1 parameters, but prepared statement requires 0" in
  let run := processCsvUpload Pg.query Csv.parse csv "t" (Pg.holding []) in
  Csv.parse csv = inr [row; row]
  /\ hasUsableId row = false
  /\ selectByAllQuery "t" row
     = mkStatement ("SELECT * FROM " ++ quoted "t" ++ " WHERE "
                      ++ quoted "name" ++ " = 1") [Some "x"]
  /\ run = (Pg.holding [],
            [EvQuery (mkStatement "BEGIN" []) (Rows []);
             EvQuery (mkStatement ("SELECT 1 FROM " ++ quoted "t" ++ " LIMIT 1") [])
                     (Rows []);
             EvQuery (mkStatement ("SELECT * FROM " ++ quoted "t" ++ " WHERE "
                                     ++ quoted "name" ++ " = 1") [Some "x"])
                     (Failed rejected);
             EvQuery (mkStatement "ROLLBACK" []) (Rows []);
             EvRelease],
            Throw rejected)
  /\ countSent isInsert (trace run) = 0
  /\ countSucceeded isLookup (trace run) = 0.
Proof.
  cbv zeta. do 4 (split; [reflexivity|]).
  assert (Hrow : [("name", Some "x")] <> ([] : Record)) by discriminate.
  destruct (C2_lookup_without_placeholder_is_rejected
              Pg.State Pg.query Csv.parse pg_rejects_unbound_parameters
              "t" [("name", Some "x")] eq_refl Hrow eq_refl eq_refl
              (Csv.text ["name"; "x"; "x"]) [[("name", Some "x")]]
              (Pg.holding []) eq_refl)
    as [_ [Hinsert [Hlookup _]]].
  split; [exact Hinsert | exact Hlookup].
Defined.

(** C3 (evaluation).  The text [COMMIT; DELETE FROM t] goes through the
    guard of both variants.  The client sends a text without parameters
    as it is, and the store runs its statements in order: [COMMIT] ends
    the read-only transaction that the guard opened, [DELETE] then runs
    outside of it, and the rollback of the guard has nothing left to
    undo.  The tool answers without error and the row of the table is
    gone.  The single statement [DELETE FROM t], by contrast, is
    rejected by the read-only transaction and changes nothing. *)
Theorem C3_commit_in_the_text_ends_the_read_only_transaction :
  let st := Pg.holding [[Some "5"]] in
  let sql := "COMMIT; DELETE FROM t" in
  let calls := [EvQuery (mkStatement "BEGIN TRANSACTION READ ONLY" []) (Rows []);
                EvQuery (mkStatement "COMMIT; DELETE FROM t" []) (Rows []);
                EvQuery (mkStatement "ROLLBACK" []) (Rows []);
                EvRelease] in
  let run1 := callTool_query_v1 Pg.query Store.stringify sql st in
  let run2 := callTool_query_v2 Pg.query Store.stringify sql st in
  Pg.table st = Some [[Some "5"]]
  /\ (trace run1 = calls
      /\ (exists result, completion run1 = Normal result /\ isError result = false)
      /\ Pg.table (finalState run1) = Some [])
  /\ (trace run2 = calls
      /\ (exists result, completion run2 = Normal result /\ isError result = false)
      /\ Pg.table (finalState run2) = Some [])
  /\ Pg.table (finalState (callTool_query_v1 Pg.query Store.stringify
                             "DELETE FROM t" st)) = Some [[Some "5"]]
  /\ Pg.table (finalState (callTool_query_v2 Pg.query Store.stringify
                             "DELETE FROM t" st)) = Some [[Some "5"]].
Proof.
  cbv zeta. split; [reflexivity|].
  split; [|split; [|split; reflexivity]];
    (split; [reflexivity|]; split; [|reflexivity]);
    eexists; split; reflexivity.
Qed.

Lemma C9_empty_row_is_looked_up_witness :
  let stored : Pg.Table := [[Some "5"]] in
  let st := Pg.mkState (Some stored) (Some (Some stored)) false false in
  let lookup := mkStatement ("SELECT * FROM " ++ quoted "t" ++ " WHERE ") [] in
  processRows Pg.query "t" [] zeroSummary st = (st, [], Normal zeroSummary)
  /\ processRows Pg.query "t" ([] ++ [[]]) zeroSummary st
     = (Pg.mkState (Some stored) (Some (Some stored)) false true,
        ([] ++ [EvQuery lookup (Failed "error: syntax error at end of input")])%list,
        Throw "error: syntax error at end of input").
Proof.
  cbv zeta. split; [reflexivity|].
  exact (C9_empty_row_is_looked_up Pg.State Pg.query "t" [] [] zeroSummary
           zeroSummary
           (Pg.mkState (Some [[Some "5"]]) (Some (Some [[Some "5"]])) false false)
           (Pg.mkState (Some [[Some "5"]]) (Some (Some [[Some "5"]])) false false)
           [] eq_refl).
Defined.

(** C9 (as stated) fails.  The text of two lines [__proto__] and [x] is
    parsed into one record, which has no column: the assignment of the
    cell to [record["__proto__"]] adds no property.  The lookup is built
    for it with the empty condition and sent, the store rejects the text,
    and the call rolls back and throws: the record is not treated as
    new. *)
Lemma C9_counterexample_empty_condition_is_sent :
  let csv := Csv.text ["__proto__"; "x"] in
  let lookup := mkStatement ("SELECT * FROM " ++ quoted "t" ++ " WHERE ") [] in
  let run := processCsvUpload Pg.query Csv.parse csv "t"
               (Pg.holding [[Some "5"]]) in
  Csv.parse csv = inr [[]]
  /\ trace run
     = [EvQuery (mkStatement "BEGIN" []) (Rows []);
        EvQuery (mkStatement ("SELECT 1 FROM " ++ quoted "t" ++ " LIMIT 1") [])
                (Rows [[("?column?", Some "1")]]);
        EvQuery lookup (Failed "error: syntax error at end of input");
        EvQuery (mkStatement "ROLLBACK" []) (Rows []);
        EvRelease]
  /\ completion run = Throw "error: syntax error at end of input"
  /\ countSent isInsert (trace run) = 0.
Proof. cbv zeta. repeat split. Qed.
